(** * Peptide suggestions backend: a shallow embedding of the Express routes

    The development follows the backend sources:
    - [routes/suggestions.js]: the Joi schema, [generateSuggestions],
      [validateSuggestionsRequest] and the [POST /suggestions] handler;
    - [middleware/auth.js]: [AuthMiddleware.verifyToken] and
      [AuthMiddleware.optionalAuth];
    - [services/userService.js]: [UserService] over the SQLite tables;
    - [services/analyticsService.js]: the in-memory daily counters;
    - [routes/auth.js]: the register, login and verify handlers.

    JavaScript numbers that reach the code come from a JSON body, so they
    are modelled as rationals ([Q]).  JavaScript objects used as maps are
    [gmap string _], read through [js_get], which also looks at the
    members every object inherits from [Object.prototype]. *)

From Stdlib Require Import ZArith QArith Qround String Ascii List Bool Lia.
From Stdlib Require Import Sorted Permutation Lqa.
From stdpp Require Import base gmap strings list.

Local Open Scope string_scope.
Local Open Scope list_scope.

(** ** JavaScript values and operators *)

(** The names every plain object inherits from [Object.prototype]
    (ECMAScript, annex B included).  Each of them is a function or an
    object, hence truthy. *)
Definition Object_prototype : list string :=
  [ "constructor"; "__defineGetter__"; "__defineSetter__"; "hasOwnProperty";
    "__lookupGetter__"; "__lookupSetter__"; "isPrototypeOf";
    "propertyIsEnumerable"; "toString"; "valueOf"; "__proto__";
    "toLocaleString" ].

(** The result of a property read [o[key]] on an object literal. *)
Inductive jsprop (A : Type) : Type :=
| Own (v : A)
| Inherited (key : string)
| Undefined.
Arguments Own {A} v.
Arguments Inherited {A} key.
Arguments Undefined {A}.

Definition js_get {A : Type} (o : gmap string A) (key : string) : jsprop A :=
  match o !! key with
  | Some v => Own v
  | None => if bool_decide (key ∈ Object_prototype) then Inherited key else Undefined
  end.

(** [a || b] where the left operand is a property read whose own values
    are always truthy (arrays) and whose inherited values are functions
    or objects. *)
Definition js_or {A : Type} (a b : jsprop A) : jsprop A :=
  match a with
  | Undefined => b
  | _ => a
  end.

(** [!!v] for a value that is an object or [null]. *)
Definition truthy {A : Type} (v : option A) : bool :=
  match v with
  | Some _ => true
  | None => false
  end.

(** [a < b] and [a > b] on numbers. *)
Definition js_lt (a b : Q) : bool := negb (Qle_bool b a).
Definition js_gt (a b : Q) : bool := js_lt b a.

(** ** The suggestion generator ([routes/suggestions.js]) *)

Record Suggestion : Type := mkSuggestion {
  name : string;
  description : string
}.

(** The JSON text kept in the [suggestions] column, parsed. *)
Inductive StoredJson : Type :=
| StoredArray (l : list Suggestion)
| StoredEmptyObject.

(** A row as [getUserSuggestions] returns it. *)
Record HistoryEntry : Type := mkHistoryEntry {
  h_id : Z;
  h_age : Q;
  h_healthGoal : string;
  h_suggestions : StoredJson;
  h_createdAt : Z
}.

(** The object literal [suggestions] built on every call. *)
Definition suggestions_table (age : Q) (isAuthenticated : bool)
  : gmap string (list Suggestion) :=
  <[ "energy" :=
       [ mkSuggestion "Peptide Alpha-E"
           ("Supports natural energy production. " +:+
            (if js_lt age 30 then "Great for young adults building stamina."
             else if js_lt age 50 then "Ideal for maintaining energy levels."
             else "Helps combat age-related energy decline."));
         mkSuggestion "Mitochondrial Boost Complex"
           "Enhances cellular energy metabolism and reduces fatigue.";
         mkSuggestion "Vitality Peptide"
           (if isAuthenticated
            then "Based on your profile, this may help with sustained energy throughout the day."
            else "May help with sustained energy throughout the day.") ] ]>
  (<[ "sleep" :=
       [ mkSuggestion "Deep Rest Peptide"
           ("Promotes restful sleep and recovery. " +:+
            (if js_gt age 40
             then "Particularly beneficial for age-related sleep improvements."
             else "Supports healthy sleep cycles."));
         mkSuggestion "Circadian Balance Formula"
           "Helps regulate natural sleep-wake cycles and improves sleep quality.";
         mkSuggestion "Recovery Sleep Support"
           (if isAuthenticated
            then "Customized for your sleep optimization needs."
            else "Supports optimal sleep recovery.") ] ]>
  (<[ "focus" :=
       [ mkSuggestion "Cognitive Enhancement Peptide"
           ("Supports mental clarity and focus. " +:+
            (if js_lt age 35
             then "Perfect for cognitive performance optimization."
             else "Helps maintain sharp mental function."));
         mkSuggestion "Brain Boost Complex"
           "Enhances concentration and cognitive processing speed.";
         mkSuggestion "Mental Clarity Support"
           (if isAuthenticated
            then "Tailored to your cognitive enhancement goals."
            else "Supports mental clarity and alertness.") ] ]>
  (<[ "recovery" :=
       [ mkSuggestion "Rapid Recovery Peptide"
           ("Accelerates muscle recovery and repair. " +:+
            (if js_gt age 35
             then "Essential for maintaining recovery speed with age."
             else "Optimizes post-workout recovery."));
         mkSuggestion "Tissue Repair Formula"
           "Supports faster healing and reduces recovery time.";
         mkSuggestion "Athletic Recovery Support"
           (if isAuthenticated
            then "Designed for your specific recovery needs."
            else "Supports comprehensive recovery processes.") ] ]>
  (<[ "weight_management" :=
       [ mkSuggestion "Metabolic Support Peptide"
           ("Supports healthy metabolism. " +:+
            (if js_gt age 30
             then "Helps counter age-related metabolic changes."
             else "Optimizes metabolic function."));
         mkSuggestion "Fat Metabolism Enhancer"
           "Promotes efficient fat burning and metabolic health.";
         mkSuggestion "Body Composition Support"
           (if isAuthenticated
            then "Personalized for your weight management journey."
            else "Supports healthy body composition.") ] ]>
  (<[ "immune_support" :=
       [ mkSuggestion "Immune Defense Peptide"
           ("Strengthens immune system function. " +:+
            (if js_gt age 50
             then "Critical for age-related immune support."
             else "Supports robust immune response."));
         mkSuggestion "Immunity Boost Complex"
           "Enhances natural immune defenses and resistance.";
         mkSuggestion "Wellness Protection Formula"
           (if isAuthenticated
            then "Customized immune support based on your profile."
            else "Supports overall immune wellness.") ] ]>
  ∅))))).

(** [generateSuggestions(age, goal, isAuthenticated, userHistory)]:
    [return suggestions[goal] || suggestions.energy].  [baseTitle] is
    computed and never used. *)
Definition generateSuggestions (age : Q) (goal : string)
    (isAuthenticated : bool) (userHistory : list HistoryEntry)
  : jsprop (list Suggestion) :=
  let baseTitle :=
    if isAuthenticated then "Personalized Peptide Recommendations"
    else "General Peptide Recommendations" in
  let suggestions := suggestions_table age isAuthenticated in
  js_or (js_get suggestions goal) (js_get suggestions "energy").

(** The values the schema admits for [healthGoal]. *)
Definition health_goals : list string :=
  [ "energy"; "sleep"; "focus"; "recovery"; "weight_management"; "immune_support" ].

(** ** Request bodies and the Joi schemas *)

(** A JSON value as [express.json()] hands it to the handler; arrays and
    nested objects are not told apart, no schema here accepts them. *)
Inductive json : Type :=
| JNull
| JBool (b : bool)
| JNumber (q : Q)
| JString (s : string)
| JCompound.

(** The body of [POST /suggestions], seen through the schema:
    the two declared keys and, in order, the keys the schema does not
    declare. *)
Record SuggestionsBody : Type := mkSuggestionsBody {
  body_age : option json;
  body_healthGoal : option json;
  body_unknown : list string
}.

(** What Joi's number type makes of a string when [convert] is on. *)
Inductive Coerced : Type :=
| NotNumeric
| UnsafeNumber
| Converted (q : Q).

(** One entry of [error.details]: the Joi error type, [path[0]] and the
    rendered message. *)
Record ValidationDetail : Type := mkDetail {
  d_type : string;
  d_path : string;
  d_message : string
}.

(** The [value] of a successful [suggestionsSchema.validate]. *)
Record SuggestionsValue : Type := mkSuggestionsValue {
  v_age : Q;
  v_healthGoal : string
}.

Definition dq : string := String (ascii_of_nat 34) EmptyString.

(** Joi renders a label between double quotes in its own templates. *)
Definition joi_label (key : string) : string := dq +:+ key +:+ dq.

Definition MAX_SAFE_INTEGER : Q := inject_Z 9007199254740991.

(** [Math.trunc(value) - value === 0] *)
Definition js_trunc (q : Q) : Z :=
  if js_lt q 0 then Qceiling q else Qfloor q.
Definition is_integer (q : Q) : bool := Qeq_bool (inject_Z (js_trunc q) - q) 0.

(** ** Users, tokens and the JWT library *)

(** A row of the [users] table. *)
Record UserRow : Type := mkUserRow {
  u_id : Z;
  u_email : string;
  u_password : string;
  u_firstName : string;
  u_lastName : string;
  u_createdAt : Z;
  u_updatedAt : Z
}.

(** A user object without the [password] property. *)
Record User : Type := mkUser {
  id : Z;
  email : string;
  firstName : string;
  lastName : string;
  createdAt : Z;
  updatedAt : option Z
}.

(** The payload [generateToken] signs. *)
Record TokenPayload : Type := mkTokenPayload {
  p_id : Z;
  p_email : string;
  p_firstName : string;
  p_lastName : string
}.

(** The decoded claims [jwt.verify] hands back: the payload and the
    registered claims [jwt.sign] added. *)
Record Claims : Type := mkClaims {
  c_id : Z;
  c_email : string;
  c_firstName : string;
  c_lastName : string;
  c_iat : Z;
  c_exp : option Z;
  c_nbf : option Z;
  c_iss : string
}.

(** A token that has the three segments of a compact JWS, decoded: its
    claims and the key its signature was made with. *)
Record Jws : Type := mkJws {
  jws_claims : Claims;
  jws_key : string
}.

(** An error object [jwt.verify] fails with: [name] is the class of the
    error. *)
Record JwtError : Type := mkJwtError {
  err_name : string;
  err_message : string
}.

(** Why [jwt.verify] finds no token to check in a string: it does not
    split into three segments at its dots; [jws.decode] finds no header
    in it and returns [null]; or the header says [typ: 'JWT'] and
    [JSON.parse] throws on the payload, a [SyntaxError] with the message
    of the engine that [jwt.verify] passes on as it is. *)
Inductive Undecodable : Type :=
| NotThreeSegments
| NoHeader
| PayloadNotJson (message : string).

(** The libraries and the configuration the backend is linked with. *)
Record Platform : Type := mkPlatform {
  JWT_SECRET : string;
  jwt_decode : string -> Undecodable + Jws;
  jwt_sign : TokenPayload -> string -> Z -> string;
  bcrypt_hash : string -> string;
  bcrypt_compare : string -> string -> bool;
  joi_email : string -> bool;
  joi_number_coerce : string -> Coerced
}.

(** ** HTTP requests and responses *)

Record Request (B : Type) : Type := mkRequest {
  authorization : option string;
  body : B;
  user : option Claims
}.
Arguments mkRequest {B} _ _ _.
Arguments authorization {B} _.
Arguments body {B} _.
Arguments user {B} _.

Definition set_user {B : Type} (req : Request B) (u : option Claims) : Request B :=
  mkRequest (authorization req) (body req) u.
Definition set_body {B C : Type} (req : Request B) (b : C) : Request C :=
  mkRequest (authorization req) b (user req).

Record PublicUser : Type := mkPublicUser {
  pu_id : Z;
  pu_email : string;
  pu_firstName : string;
  pu_lastName : string
}.

Record Meta : Type := mkMeta {
  generatedAt : Z;
  goalCategory : string;
  authenticated : bool;
  timestamp : Z
}.

(** The JSON documents the routes send. *)
Inductive ResBody : Type :=
| ErrorBody (message code : string) (field : option string) (requestId : option string)
| SuggestionsBodyOk (requestId : string) (suggestions : jsprop (list Suggestion)) (meta : Meta)
| AuthBodyOk (message : string) (u : PublicUser) (token : string)
| VerifyBodyOk (valid : bool) (u : PublicUser).

Record Response : Type := mkResponse {
  status : Z;
  json_body : ResBody
}.

(** A middleware either answers or calls [next()]. *)
Inductive Step (B : Type) : Type :=
| Respond (r : Response)
| Next (req : Request B).
Arguments Respond {B} r.
Arguments Next {B} req.

(** ** The world the handlers act on *)

(** A row of the [user_suggestions] table; the [suggestions] column holds
    [JSON.stringify] of the array. *)
Record SuggestionRow : Type := mkSuggestionRow {
  s_id : Z;
  s_userId : Z;
  s_age : Q;
  s_healthGoal : string;
  s_suggestions : StoredJson;
  s_createdAt : Z
}.

(** The SQLite database: the two tables and their AUTOINCREMENT
    sequences. *)
Record Db : Type := mkDb {
  users : list UserRow;
  user_suggestions : list SuggestionRow;
  users_seq : Z;
  user_suggestions_seq : Z
}.

(** A counter of [dailyCounters.goalSelections]; [++] on an inherited
    member leaves [NaN]. *)
Inductive Count : Type :=
| Num (n : nat)
| NaN.

Record DailyCounters : Type := mkDailyCounters {
  requests : nat;
  goalSelections : gmap string Count;
  errors : nat;
  successfulRequests : nat
}.

Inductive Level : Type := Info | Warn | Error.

Record World : Type := mkWorld {
  db : Db;
  dailyCounters : DailyCounters;
  log : list (Level * string)
}.

(** The statements and service calls that can fail from outside. *)
Inductive DbCall : Type :=
| SelectUserByEmail
| InsertUser
| InsertSuggestion
| SelectSuggestions.

Inductive AnalyticsCall : Type :=
| LogSuccessfulRequest
| LogGoalSelection
| LogFailedRequest.

(** What one request draws from its surroundings: [uuidv4()], the clock
    (seconds), and which database statements and analytics writes fail. *)
Record Env : Type := mkEnv {
  uuid : string;
  now : Z;
  db_fails : DbCall -> bool;
  analytics_fails : AnalyticsCall -> option string
}.

(** *** A state and exception monad for the async code *)

(** A thrown [Error], by its [message]. *)
Definition M (A : Type) : Type := World -> (string + A) * World.

Definition ret {A : Type} (a : A) : M A := fun w => (inr a, w).
Definition throw {A : Type} (msg : string) : M A := fun w => (inl msg, w).
Definition bind {A B : Type} (m : M A) (k : A -> M B) : M B :=
  fun w => match m w with
           | (inl e, w') => (inl e, w')
           | (inr a, w') => k a w'
           end.
(** [try { m } catch (error) { h error.message }] *)
Definition try_catch {A : Type} (m : M A) (h : string -> M A) : M A :=
  fun w => match m w with
           | (inl e, w') => h e w'
           | (inr a, w') => (inr a, w')
           end.

Notation "x <- m ;; k" := (bind m (fun x => k))
  (at level 100, m at next level, right associativity).
Notation "m ;;; k" := (bind m (fun _ => k))
  (at level 100, right associativity).

Definition get_world : M World := fun w => (inr w, w).
Definition put_db (d : Db) : M unit :=
  fun w => (inr tt, mkWorld d (dailyCounters w) (log w)).
Definition put_counters (c : DailyCounters) : M unit :=
  fun w => (inr tt, mkWorld (db w) c (log w)).
Definition logger (l : Level) (msg : string) : M unit :=
  fun w => (inr tt, mkWorld (db w) (dailyCounters w) (log w ++ [(l, msg)])).

(** *** String helpers ([startsWith], [substring], [includes], [trim]) *)

Definition startsWith (s pre : string) : bool := String.prefix pre s.
Definition substring_from (n : nat) (s : string) : string :=
  String.substring n (String.length s - n) s.

Fixpoint includes (s needle : string) : bool :=
  String.prefix needle s ||
  match s with
  | EmptyString => false
  | String _ rest => includes rest needle
  end.

Definition code_of (c : ascii) : nat := nat_of_ascii c.
Definition is_lower (c : ascii) : bool := (97 <=? code_of c)%nat && (code_of c <=? 122)%nat.
Definition is_upper (c : ascii) : bool := (65 <=? code_of c)%nat && (code_of c <=? 90)%nat.
Definition is_digit (c : ascii) : bool := (48 <=? code_of c)%nat && (code_of c <=? 57)%nat.
Definition is_line_terminator (c : ascii) : bool :=
  (code_of c =? 10)%nat || (code_of c =? 13)%nat.
Definition is_space (c : ascii) : bool :=
  (code_of c =? 32)%nat || ((9 <=? code_of c)%nat && (code_of c <=? 13)%nat).

Fixpoint string_exists (p : ascii -> bool) (s : string) : bool :=
  match s with
  | EmptyString => false
  | String c rest => p c || string_exists p rest
  end.

(** What [.] can run over from the start of the input. *)
Fixpoint first_line (s : string) : string :=
  match s with
  | EmptyString => EmptyString
  | String c rest =>
      if is_line_terminator c then EmptyString else String c (first_line rest)
  end.

Fixpoint trim_start (s : string) : string :=
  match s with
  | EmptyString => EmptyString
  | String c rest => if is_space c then trim_start rest else s
  end.
Fixpoint trim_end (s : string) : string :=
  match s with
  | EmptyString => EmptyString
  | String c rest =>
      match trim_end rest with
      | EmptyString => if is_space c then EmptyString else String c EmptyString
      | rest' => String c rest'
      end
  end.
Definition trim (s : string) : string := trim_end (trim_start s).

(** [/^(?=.*[a-z])(?=.*[A-Z])(?=.*\d)/] *)
Definition password_pattern (s : string) : bool :=
  let l := first_line s in
  string_exists is_lower l && string_exists is_upper l && string_exists is_digit l.

(** *** [suggestionsSchema] *)

(** The rules of [Joi.number().integer().min(18).max(120)], in the order
    they were declared, after the type's own check for unsafe numbers. *)
Definition age_rules (q : Q) : ValidationDetail + Q :=
  if js_gt q MAX_SAFE_INTEGER || js_lt q (- MAX_SAFE_INTEGER) then
    inl (mkDetail "number.unsafe" "age" (joi_label "age" +:+ " must be a safe number"))
  else if negb (is_integer q) then
    inl (mkDetail "number.integer" "age" "Age must be a whole number")
  else if js_lt q 18 then
    inl (mkDetail "number.min" "age" "Age must be at least 18")
  else if js_gt q 120 then
    inl (mkDetail "number.max" "age" "Age must be 120 or less")
  else inr q.

Definition number_base : ValidationDetail :=
  mkDetail "number.base" "age" "Age must be a number".

Definition validate_age (coerce : string -> Coerced) (v : option json)
  : ValidationDetail + Q :=
  match v with
  | None => inl (mkDetail "any.required" "age" "Age is required")
  | Some (JNumber q) => age_rules q
  | Some (JString s) =>
      match coerce s with
      | NotNumeric => inl number_base
      | UnsafeNumber =>
          inl (mkDetail "number.unsafe" "age" (joi_label "age" +:+ " must be a safe number"))
      | Converted q => age_rules q
      end
  | Some _ => inl number_base
  end.

Definition healthGoal_only : ValidationDetail :=
  mkDetail "any.only" "healthGoal"
    "Health goal must be one of: energy, sleep, focus, recovery, weight_management, immune_support".

Definition validate_healthGoal (v : option json) : ValidationDetail + string :=
  match v with
  | None => inl (mkDetail "any.required" "healthGoal" "Health goal is required")
  | Some (JString s) =>
      if bool_decide (s ∈ health_goals) then inr s else inl healthGoal_only
  | Some _ => inl healthGoal_only
  end.

Definition object_unknown (key : string) : ValidationDetail :=
  mkDetail "object.unknown" key (joi_label key +:+ " is not allowed").

(** [suggestionsSchema.validate(req.body)] with Joi's defaults
    ([abortEarly], [convert], no unknown keys): the keys in the order of
    the schema, then the undeclared keys; the first error ends it. *)
Definition suggestionsSchema_validate (coerce : string -> Coerced)
    (b : SuggestionsBody) : ValidationDetail + SuggestionsValue :=
  match validate_age coerce (body_age b) with
  | inl d => inl d
  | inr a =>
      match validate_healthGoal (body_healthGoal b) with
      | inl d => inl d
      | inr g =>
          match body_unknown b with
          | key :: _ => inl (object_unknown key)
          | [] => inr (mkSuggestionsValue a g)
          end
      end
  end.

(** *** [registerSchema] and [loginSchema] *)

Record RegisterBody : Type := mkRegisterBody {
  reg_email : option json;
  reg_password : option json;
  reg_firstName : option json;
  reg_lastName : option json;
  reg_unknown : list string
}.

Record RegisterValue : Type := mkRegisterValue {
  rv_email : string;
  rv_password : string;
  rv_firstName : option string;
  rv_lastName : option string
}.

Record LoginBody : Type := mkLoginBody {
  login_email : option json;
  login_password : option json;
  login_unknown : list string
}.

Record LoginValue : Type := mkLoginValue {
  lv_email : string;
  lv_password : string
}.

Definition string_base (key : string) : ValidationDetail :=
  mkDetail "string.base" key (joi_label key +:+ " must be a string").
Definition string_empty (key : string) : ValidationDetail :=
  mkDetail "string.empty" key (joi_label key +:+ " is not allowed to be empty").

(** A required [Joi.string()] followed by the rules [rules]. *)
Definition required_string (key required_msg : string)
    (rules : string -> option ValidationDetail) (v : option json)
  : ValidationDetail + string :=
  match v with
  | None => inl (mkDetail "any.required" key required_msg)
  | Some (JString s) =>
      if String.eqb s EmptyString then inl (string_empty key)
      else match rules s with
           | Some d => inl d
           | None => inr s
           end
  | Some _ => inl (string_base key)
  end.

Definition email_rules (valid : string -> bool) (s : string) : option ValidationDetail :=
  if valid s then None
  else Some (mkDetail "string.email" "email" "Please provide a valid email address").

Definition password_rules (s : string) : option ValidationDetail :=
  if (String.length s <? 8)%nat then
    Some (mkDetail "string.min" "password" "Password must be at least 8 characters long")
  else if negb (password_pattern s) then
    Some (mkDetail "string.pattern.base" "password"
            "Password must contain at least one uppercase letter, one lowercase letter, and one number")
  else None.

(** [Joi.string().trim().min(1).max(50).optional()] *)
Definition optional_name (key max_msg : string) (v : option json)
  : ValidationDetail + option string :=
  match v with
  | None => inr None
  | Some (JString s) =>
      let s' := trim s in
      if String.eqb s' EmptyString then inl (string_empty key)
      else if (50 <? String.length s')%nat then inl (mkDetail "string.max" key max_msg)
      else inr (Some s')
  | Some _ => inl (string_base key)
  end.

Definition registerSchema_validate (valid_email : string -> bool) (b : RegisterBody)
  : ValidationDetail + RegisterValue :=
  match required_string "email" "Email is required" (email_rules valid_email) (reg_email b) with
  | inl d => inl d
  | inr e =>
  match required_string "password" "Password is required" password_rules (reg_password b) with
  | inl d => inl d
  | inr p =>
  match optional_name "firstName" "First name cannot exceed 50 characters" (reg_firstName b) with
  | inl d => inl d
  | inr f =>
  match optional_name "lastName" "Last name cannot exceed 50 characters" (reg_lastName b) with
  | inl d => inl d
  | inr l =>
  match reg_unknown b with
  | key :: _ => inl (object_unknown key)
  | [] => inr (mkRegisterValue e p f l)
  end end end end end.

Definition loginSchema_validate (valid_email : string -> bool) (b : LoginBody)
  : ValidationDetail + LoginValue :=
  match required_string "email" "Email is required" (email_rules valid_email) (login_email b) with
  | inl d => inl d
  | inr e =>
  match required_string "password" "Password is required" (fun _ => None) (login_password b) with
  | inl d => inl d
  | inr p =>
  match login_unknown b with
  | key :: _ => inl (object_unknown key)
  | [] => inr (mkLoginValue e p)
  end end end.

(** ** The backend, linked with a platform *)

(** Rows in the order [ORDER BY createdAt DESC] gives them.  SQLite
    leaves the order of rows with the same [createdAt] open; here they
    stay in the order of the table. *)
Fixpoint insert_desc (r : SuggestionRow) (l : list SuggestionRow) : list SuggestionRow :=
  match l with
  | [] => [r]
  | x :: rest =>
      if (s_createdAt x <=? s_createdAt r)%Z then r :: l else x :: insert_desc r rest
  end.
Definition order_by_createdAt_desc (l : list SuggestionRow) : list SuggestionRow :=
  fold_right insert_desc [] l.

(** [JSON.stringify] of what [generateSuggestions] returned: the array,
    [{}] for [Object.prototype] itself (read through [__proto__]), and
    [undefined] for an inherited function. *)
Definition JSON_stringify (v : jsprop (list Suggestion)) : option StoredJson :=
  match v with
  | Own l => Some (StoredArray l)
  | Inherited key =>
      if String.eqb key "__proto__" then Some StoredEmptyObject else None
  | Undefined => None
  end.

Section Backend.

Variable P : Platform.

(** *** [middleware/auth.js] *)

(** [jwt.verify(token, secret)] of the [jsonwebtoken] library: the token
    is split and decoded, then its signature, [nbf] and [exp] are
    checked, in this order.  The errors of the library itself are of the
    classes [JsonWebTokenError], [NotBeforeError] and
    [TokenExpiredError]; what [jws.decode] throws is handed on with the
    class it has. *)
Definition jwt_verify (token secret : string) (clockTimestamp : Z) : JwtError + Claims :=
  if String.eqb token EmptyString then
    inl (mkJwtError "JsonWebTokenError" "jwt must be provided")
  else
    match jwt_decode P token with
    | inl NotThreeSegments => inl (mkJwtError "JsonWebTokenError" "jwt malformed")
    | inl NoHeader => inl (mkJwtError "JsonWebTokenError" "invalid token")
    | inl (PayloadNotJson message) => inl (mkJwtError "SyntaxError" message)
    | inr t =>
        if negb (String.eqb (jws_key t) secret) then
          inl (mkJwtError "JsonWebTokenError" "invalid signature")
        else if match c_nbf (jws_claims t) with
                | Some nbf => (clockTimestamp <? nbf)%Z
                | None => false
                end then
          inl (mkJwtError "NotBeforeError" "jwt not active")
        else if match c_exp (jws_claims t) with
                | Some exp => (exp <=? clockTimestamp)%Z
                | None => false
                end then
          inl (mkJwtError "TokenExpiredError" "jwt expired")
        else inr (jws_claims t)
    end.

(** [!authHeader || !authHeader.startsWith('Bearer ')] *)
Definition no_bearer (authHeader : option string) : bool :=
  match authHeader with
  | None => true
  | Some h => String.eqb h EmptyString || negb (startsWith h "Bearer ")
  end.

(** [authHeader.substring(7)] *)
Definition bearer_token (authHeader : option string) : string :=
  match authHeader with
  | None => EmptyString
  | Some h => substring_from 7 h
  end.

Definition generateToken (e : Env) (u : User) : string :=
  let payload := mkTokenPayload (id u) (email u) (firstName u) (lastName u) in
  jwt_sign P payload (JWT_SECRET P) (now e).

Definition verifyToken {B : Type} (e : Env) (req : Request B) : M (Step B) :=
  try_catch
    (let authHeader := authorization req in
     if no_bearer authHeader then
       ret (Respond (mkResponse 401
              (ErrorBody "Access token is required" "TOKEN_MISSING" None None)))
     else
       let token := bearer_token authHeader in
       match jwt_verify token (JWT_SECRET P) (now e) with
       | inl err =>
           logger Warn "Invalid token attempt:" ;;;
           let '(errorMessage, errorCode) :=
             if String.eqb (err_name err) "TokenExpiredError" then
               ("Token has expired", "TOKEN_EXPIRED")
             else if String.eqb (err_name err) "JsonWebTokenError" then
               ("Malformed token", "TOKEN_MALFORMED")
             else ("Invalid token", "TOKEN_INVALID") in
           ret (Respond (mkResponse 401 (ErrorBody errorMessage errorCode None None)))
       | inr decoded => ret (Next (set_user req (Some decoded)))
       end)
    (fun error =>
       logger Error "Auth middleware error:" ;;;
       ret (Respond (mkResponse 500
              (ErrorBody "Authentication system error" "AUTH_SYSTEM_ERROR" None None)))).

Definition optionalAuth {B : Type} (e : Env) (req : Request B) : Step B :=
  let authHeader := authorization req in
  if no_bearer authHeader then Next (set_user req None)
  else
    let token := bearer_token authHeader in
    match jwt_verify token (JWT_SECRET P) (now e) with
    | inl err => Next (set_user req None)
    | inr decoded => Next (set_user req (Some decoded))
    end.

(** *** [services/userService.js] *)

Definition hashPassword (password : string) : string := bcrypt_hash P password.
Definition comparePassword (password hashedPassword : string) : bool :=
  bcrypt_compare P password hashedPassword.

(** [SELECT * FROM users WHERE email = ?] through [db.get]. *)
Definition getUserByEmail (e : Env) (email : string) : M (option UserRow) :=
  if db_fails e SelectUserByEmail then
    logger Error "Error fetching user by email:" ;;; throw "Database error"
  else
    w <- get_world ;;
    ret (find (fun u => String.eqb (u_email u) email) (users (db w))).

(** [INSERT INTO users ...] through [db.run]: the statement fails when
    the database does, or on the [UNIQUE] constraint of [email];
    otherwise it yields [this.lastID]. *)
Definition insert_user (e : Env) (email hashedPassword firstName lastName : string)
  : M (option Z) :=
  w <- get_world ;;
  let d := db w in
  if db_fails e InsertUser
     || existsb (fun u => String.eqb (u_email u) email) (users d) then ret None
  else
    let lastID := (users_seq d + 1)%Z in
    put_db (mkDb (users d ++ [mkUserRow lastID email hashedPassword firstName lastName
                                 (now e) (now e)])
                 (user_suggestions d) lastID (user_suggestions_seq d)) ;;;
    ret (Some lastID).

Definition createUser (e : Env) (email password firstName lastName : string) : M User :=
  existingUser <-
    try_catch (getUserByEmail e email)
      (fun error => logger Error "Create user error:" ;;; throw error) ;;
  match existingUser with
  | Some _ => throw "User with this email already exists"
  | None =>
      let hashedPassword := hashPassword password in
      r <- insert_user e email hashedPassword firstName lastName ;;
      match r with
      | None => logger Error "Error creating user:" ;;; throw "Failed to create user"
      | Some lastID =>
          logger Info "User created successfully:" ;;;
          ret (mkUser lastID email firstName lastName (now e) None)
      end
  end.

(** [const { password: _, ...userWithoutPassword } = user] *)
Definition userWithoutPassword (u : UserRow) : User :=
  mkUser (u_id u) (u_email u) (u_firstName u) (u_lastName u)
         (u_createdAt u) (Some (u_updatedAt u)).

Definition authenticateUser (e : Env) (email password : string) : M User :=
  try_catch
    (u <- getUserByEmail e email ;;
     match u with
     | None => throw "Invalid email or password"
     | Some u =>
         let isPasswordValid := comparePassword password (u_password u) in
         if negb isPasswordValid then throw "Invalid email or password"
         else ret (userWithoutPassword u)
     end)
    (fun error => logger Error "Authentication error:" ;;; throw error).

(** [INSERT INTO user_suggestions ...]; the [suggestions] column is
    [NOT NULL], so a value [JSON.stringify] maps to [undefined] is
    refused. *)
Definition saveSuggestion (e : Env) (userId : Z) (age : Q) (healthGoal : string)
    (suggestions : jsprop (list Suggestion)) : M SuggestionRow :=
  w <- get_world ;;
  let d := db w in
  match (if db_fails e InsertSuggestion then None else JSON_stringify suggestions) with
  | None => logger Error "Error saving suggestion:" ;;; throw "Failed to save suggestion"
  | Some l =>
      let lastID := (user_suggestions_seq d + 1)%Z in
      let row := mkSuggestionRow lastID userId age healthGoal l (now e) in
      put_db (mkDb (users d) (user_suggestions d ++ [row]) (users_seq d) lastID) ;;;
      logger Info "Suggestion saved successfully:" ;;;
      ret row
  end.

(** [SELECT ... WHERE userId = ? ORDER BY createdAt DESC LIMIT ?] *)
Definition getUserSuggestions (e : Env) (userId : Z) (limit : nat) : M (list HistoryEntry) :=
  if db_fails e SelectSuggestions then
    logger Error "Error fetching user suggestions:" ;;; throw "Failed to fetch suggestions"
  else
    w <- get_world ;;
    let rows :=
      firstn limit
        (order_by_createdAt_desc
           (List.filter (fun r => Z.eqb (s_userId r) userId) (user_suggestions (db w)))) in
    ret (map (fun r => mkHistoryEntry (s_id r) (s_age r) (s_healthGoal r)
                         (s_suggestions r) (s_createdAt r)) rows).

(** *** [services/analyticsService.js]: the in-memory counters *)

(** [if (!counters[goal]) counters[goal] = 0; counters[goal]++] *)
Definition bump (goal : string) (m : gmap string Count) : gmap string Count :=
  match js_get m goal with
  | Own (Num (S n)) => <[goal := Num (S (S n))]> m
  | Own (Num O) | Own NaN | Undefined => <[goal := Num 1]> m
  | Inherited key =>
      (* the inherited member is truthy and is no number; assigning to
         [__proto__] a value that is no object does nothing *)
      if String.eqb key "__proto__" then m else <[goal := NaN]> m
  end.

(** The write to the analytics log; [updateDailyAnalytics] catches its
    own errors. *)
Definition analytics (e : Env) (call : AnalyticsCall) : M unit :=
  match analytics_fails e call with
  | Some msg => throw msg
  | None => ret tt
  end.

Definition logGoalSelection (e : Env) (goal : string) : M unit :=
  w <- get_world ;;
  let c := dailyCounters w in
  put_counters (mkDailyCounters (requests c) (bump goal (goalSelections c))
                  (errors c) (successfulRequests c)) ;;;
  analytics e LogGoalSelection.

Definition logSuccessfulRequest (e : Env) : M unit :=
  w <- get_world ;;
  let c := dailyCounters w in
  put_counters (mkDailyCounters (S (requests c)) (goalSelections c)
                  (errors c) (S (successfulRequests c))) ;;;
  analytics e LogSuccessfulRequest.

Definition logFailedRequest (e : Env) : M unit :=
  w <- get_world ;;
  let c := dailyCounters w in
  put_counters (mkDailyCounters (S (requests c)) (goalSelections c)
                  (S (errors c)) (successfulRequests c)) ;;;
  analytics e LogFailedRequest.

(** *** [routes/suggestions.js] *)

Definition validateSuggestionsRequest (req : Request SuggestionsBody)
  : Step SuggestionsValue :=
  match suggestionsSchema_validate (joi_number_coerce P) (body req) with
  | inl d =>
      Respond (mkResponse 400
        (ErrorBody (d_message d) "VALIDATION_ERROR" (Some (d_path d)) None))
  | inr value => Next (set_body req value)
  end.

(** The handler of [POST /suggestions], behind [optionalAuth] and
    [validateSuggestionsRequest]. *)
Definition post_suggestions (e : Env) (req : Request SuggestionsValue) : M Response :=
  let requestId := uuid e in
  try_catch
    (let age := v_age (body req) in
     let healthGoal := v_healthGoal (body req) in
     let isAuthenticated := truthy (user req) in
     logger Info "Processing suggestions request" ;;;
     userHistory <-
       match user req with
       | Some u =>
           try_catch (getUserSuggestions e (c_id u) 5)
             (fun error => logger Warn "Failed to fetch user history:" ;;; ret [])
       | None => ret []
       end ;;
     try_catch
       (logSuccessfulRequest e ;;; logGoalSelection e healthGoal)
       (fun error => logger Error "Analytics logging failed:") ;;;
     let suggestions := generateSuggestions age healthGoal isAuthenticated userHistory in
     match user req with
     | Some u =>
         try_catch
           (saveSuggestion e (c_id u) age healthGoal suggestions ;;;
            logger Info "Suggestion saved to user history:")
           (fun error => logger Error "Failed to save suggestion to history:")
     | None => ret tt
     end ;;;
     logger Info "Successfully generated suggestions" ;;;
     ret (mkResponse 200
            (SuggestionsBodyOk requestId suggestions
               (mkMeta (now e) healthGoal isAuthenticated (now e)))))
    (fun error =>
       logger Error "Error generating suggestions" ;;;
       try_catch (logFailedRequest e)
         (fun analyticsError => logger Error "Failed to log analytics for failed request:") ;;;
       ret (mkResponse 500
              (ErrorBody "Failed to generate suggestions. Please try again."
                 "GENERATION_ERROR" None (Some requestId)))).

(** [router.post('/', AuthMiddleware.optionalAuth, validateSuggestionsRequest, handler)] *)
Definition route_post_suggestions (e : Env) (req : Request SuggestionsBody) : M Response :=
  match optionalAuth e req with
  | Respond r => ret r
  | Next req1 =>
      match validateSuggestionsRequest req1 with
      | Respond r => ret r
      | Next req2 => post_suggestions e req2
      end
  end.

(** *** [routes/auth.js] *)

Definition public_user (u : User) : PublicUser :=
  mkPublicUser (id u) (email u) (firstName u) (lastName u).

(** [value || ''] *)
Definition or_empty (v : option string) : string := default EmptyString v.

(** The handler of [POST /auth/register], behind [authLimiter]. *)
Definition post_register (e : Env) (req : Request RegisterBody) : M Response :=
  try_catch
    (match registerSchema_validate (joi_email P) (body req) with
     | inl d => ret (mkResponse 400 (ErrorBody (d_message d) "VALIDATION_ERROR" None None))
     | inr value =>
         logger Info "User registration attempt:" ;;;
         u <- createUser e (rv_email value) (rv_password value)
                (or_empty (rv_firstName value)) (or_empty (rv_lastName value)) ;;
         let token := generateToken e u in
         logger Info "User registered successfully:" ;;;
         ret (mkResponse 201
                (AuthBodyOk "User registered successfully" (public_user u) token))
     end)
    (fun error =>
       logger Error "Registration error:" ;;;
       if includes error "already exists" then
         ret (mkResponse 409
                (ErrorBody "An account with this email already exists" "EMAIL_EXISTS"
                   None None))
       else
         ret (mkResponse 500
                (ErrorBody "Failed to register user. Please try again."
                   "REGISTRATION_ERROR" None None))).

(** The handler of [POST /auth/login], behind [authLimiter]. *)
Definition post_login (e : Env) (req : Request LoginBody) : M Response :=
  try_catch
    (match loginSchema_validate (joi_email P) (body req) with
     | inl d => ret (mkResponse 400 (ErrorBody (d_message d) "VALIDATION_ERROR" None None))
     | inr value =>
         logger Info "User login attempt:" ;;;
         u <- authenticateUser e (lv_email value) (lv_password value) ;;
         let token := generateToken e u in
         logger Info "User logged in successfully:" ;;;
         ret (mkResponse 200 (AuthBodyOk "Login successful" (public_user u) token))
     end)
    (fun error =>
       logger Error "Login error:" ;;;
       if includes error "Invalid email or password" then
         ret (mkResponse 401
                (ErrorBody "Invalid email or password" "INVALID_CREDENTIALS" None None))
       else
         ret (mkResponse 500
                (ErrorBody "Login failed. Please try again." "LOGIN_ERROR" None None))).

(** [router.get('/verify', AuthMiddleware.verifyToken, handler)] *)
Definition route_get_verify (e : Env) (req : Request unit) : M Response :=
  s <- verifyToken e req ;;
  match s with
  | Respond r => ret r
  | Next req1 =>
      match user req1 with
      | Some u =>
          ret (mkResponse 200
                 (VerifyBodyOk true
                    (mkPublicUser (c_id u) (c_email u) (c_firstName u) (c_lastName u))))
      | None => throw "Cannot read properties of undefined"
      end
  end.

End Backend.

(** ** A concrete platform, to run the code on *)

Definition sample_claims : Claims :=
  mkClaims 1 "a@x.com" "Ada" "Lovelace" 1000 (Some 605800%Z) None
    "peptide-suggestions-app".

Definition stale_claims : Claims :=
  mkClaims 1 "a@x.com" "Ada" "Lovelace" 10 (Some 500%Z) None
    "peptide-suggestions-app".

(** Three well-formed tokens: one signed with the secret, one signed
    with another key, one signed with the secret and past its expiry at
    the time of [sample_env]; two strings of three segments that are no
    tokens: one whose payload is not JSON under a [typ: 'JWT'] header,
    one without a header.  Every other string is taken not to have
    three segments. *)
Definition sample_decode (t : string) : Undecodable + Jws :=
  if String.eqb t "good.jwt.token" then inr (mkJws sample_claims "secret")
  else if String.eqb t "forged.jwt.token" then inr (mkJws sample_claims "other-key")
  else if String.eqb t "stale.jwt.token" then inr (mkJws stale_claims "secret")
  else if String.eqb t "garbled.jwt.token" then
    inl (PayloadNotJson "Unexpected token in JSON at position 0")
  else if String.eqb t "headless.jwt.token" then inl NoHeader
  else inl NotThreeSegments.

Definition sample_platform : Platform :=
  mkPlatform "secret" sample_decode (fun _ _ _ => "good.jwt.token")
    (fun p => "hash:" +:+ p) (fun p h => String.eqb ("hash:" +:+ p) h)
    (fun s => includes s "@") (fun _ => NotNumeric).

Definition sample_env : Env :=
  mkEnv "3f2b8c1e" 2000 (fun _ => false) (fun _ => None).

(** The same surroundings with every database statement and every
    analytics write failing. *)
Definition failing_env : Env :=
  mkEnv "3f2b8c1e" 2000 (fun _ => true) (fun _ => Some "write EPIPE").

Definition empty_world : World :=
  mkWorld (mkDb [] [] 0 0) (mkDailyCounters 0 ∅ 0 0) [].

Definition suggestions_request (auth : option string) (age : Q) (goal : string)
  : Request SuggestionsBody :=
  mkRequest auth (mkSuggestionsBody (Some (JNumber age)) (Some (JString goal)) []) None.

Definition register_request (email password : string) : Request RegisterBody :=
  mkRequest None
    (mkRegisterBody (Some (JString email)) (Some (JString password)) None None []) None.

Definition login_request (email password : string) : Request LoginBody :=
  mkRequest None (mkLoginBody (Some (JString email)) (Some (JString password)) []) None.

(** ** The failure modes of a bearer token, as the interface names them *)

(** Why a token is malformed: nothing follows [Bearer ], or
    [jwt.verify] finds no token in what does. *)
Inductive Malformation : Type :=
| EmptyToken
| Undecoded (why : Undecodable).

Inductive TokenFailure : Type :=
| TokenMissing
| TokenExpired
| TokenMalformed (why : Malformation)
| TokenInvalidSignature.

(** Which of the four failure modes a request is in, if any: no bearer
    token; a token that does not decode; a token signed with another key;
    a token of ours whose expiry has passed. *)
Definition token_failure (P : Platform) (e : Env) (authHeader : option string)
  : option TokenFailure :=
  if no_bearer authHeader then Some TokenMissing
  else
    let token := bearer_token authHeader in
    if String.eqb token EmptyString then Some (TokenMalformed EmptyToken)
    else
      match jwt_decode P token with
      | inl why => Some (TokenMalformed (Undecoded why))
      | inr t =>
          if negb (String.eqb (jws_key t) (JWT_SECRET P)) then Some TokenInvalidSignature
          else
            let active :=
              match c_nbf (jws_claims t) with
              | Some nbf => negb (now e <? nbf)%Z
              | None => true
              end in
            let expired :=
              match c_exp (jws_claims t) with
              | Some exp => (exp <=? now e)%Z
              | None => false
              end in
            if active && expired then Some TokenExpired else None
      end.

(** The code [verifyToken] answers with in each failure mode. *)
Definition failure_code (m : TokenFailure) : string :=
  match m with
  | TokenMissing => "TOKEN_MISSING"
  | TokenExpired => "TOKEN_EXPIRED"
  | TokenMalformed (Undecoded (PayloadNotJson _)) => "TOKEN_INVALID"
  | TokenMalformed _ => "TOKEN_MALFORMED"
  | TokenInvalidSignature => "TOKEN_MALFORMED"
  end.

(** A suggestion whose two fields are non-empty strings. *)
Definition well_formed (s : Suggestion) : Prop :=
  name s <> EmptyString /\ description s <> EmptyString.

(** The response of a [POST /suggestions] that reached the handler. *)
Definition suggestions_ok (e : Env) (req : Request SuggestionsValue) : Response :=
  mkResponse 200
    (SuggestionsBodyOk (uuid e)
       (generateSuggestions (v_age (body req)) (v_healthGoal (body req))
          (truthy (user req)) [])
       (mkMeta (now e) (v_healthGoal (body req)) (truthy (user req)) (now e))).

(** The number of rows of [users] with a given email. *)
Definition count_email (email : string) (rows : list UserRow) : nat :=
  length (List.filter (fun u => String.eqb (u_email u) email) rows).

(** A [POST /suggestions] request whose body carries the number [age]. *)
Definition request_with_age (auth : option string) (age : Q)
    (healthGoal : option json) (unknown : list string) : Request SuggestionsBody :=
  mkRequest auth (mkSuggestionsBody (Some (JNumber age)) healthGoal unknown) None.

(** The response a route ended with, if it did not throw. *)
Definition answer (r : (string + Response) * World) : option Response :=
  match fst r with
  | inr resp => Some resp
  | inl _ => None
  end.

(** The world after one more line in the log. *)
Definition logged (l : Level) (msg : string) (w : World) : World :=
  mkWorld (db w) (dailyCounters w) (log w ++ [(l, msg)]).

(** [SELECT * FROM users WHERE email = ?] on the rows. *)
Definition find_by_email (email : string) (rows : list UserRow) : option UserRow :=
  find (fun u => String.eqb (u_email u) email) rows.

(** The world after [a@x.com] has registered in the empty one. *)
Definition registered_world : World :=
  snd (post_register sample_platform sample_env
         (register_request "a@x.com" "Abcdef12") empty_world).

(** ** More of the backend *)

(** *** [routes/auth.js]: the history route *)

(** What [GET /auth/suggestions] sends. *)
Inductive HistoryReply : Type :=
| HistoryOk (suggestions : list HistoryEntry) (total : nat)
| HistoryRejected (r : Response).

(** [parseInt(req.query.limit) || 10], on what [parseInt] returned
    ([None] for [NaN]). *)
Definition limit_or_default (parsed : option Z) : Z :=
  match parsed with
  | None => 10
  | Some 0%Z => 10
  | Some n => n
  end.

(** The number of rows [LIMIT ?] lets through: a negative limit is no
    limit in SQLite. *)
Definition sql_limit (limit : Z) (w : World) : nat :=
  if (limit <? 0)%Z then length (user_suggestions (db w)) else Z.to_nat limit.

(** The handler of [GET /auth/suggestions], behind [verifyToken]. *)
Definition get_auth_suggestions (e : Env) (parsed : option Z) (req : Request unit)
  : M HistoryReply :=
  try_catch
    (let limit := limit_or_default parsed in
     match user req with
     | None => throw "Cannot read properties of undefined (reading 'id')"
     | Some u =>
         w <- get_world ;;
         suggestions <- getUserSuggestions e (c_id u) (sql_limit limit w) ;;
         ret (HistoryOk suggestions (length suggestions))
     end)
    (fun error =>
       match user req with
       | None => throw "Cannot read properties of undefined (reading 'id')"
       | Some _ =>
           logger Error "Fetch suggestions error:" ;;;
           ret (HistoryRejected
                  (mkResponse 500
                     (ErrorBody "Failed to fetch suggestion history"
                        "SUGGESTIONS_FETCH_ERROR" None None)))
       end).

(** *** [routes/suggestions.js]: the goals route *)

(** The [{ value, label }] pairs of [GET /suggestions/goals]. *)
Definition goals : list (string * string) :=
  [ ("energy", "Energy & Vitality");
    ("sleep", "Better Sleep");
    ("focus", "Mental Focus");
    ("recovery", "Recovery & Repair");
    ("weight_management", "Weight Management");
    ("immune_support", "Immune Support") ].

Section MoreBackend.

Variable P : Platform.

(** [AuthMiddleware.verifyTokenDirect]: [jwt.verify] without a callback
    throws what it would have passed to the callback. *)
Definition verifyTokenDirect (e : Env) (token : string) : option Claims :=
  match jwt_verify P token (JWT_SECRET P) (now e) with
  | inl error => None
  | inr decoded => Some decoded
  end.

(** The identity a request carries: the claims [verifyTokenDirect]
    finds in its bearer token, if it has one. *)
Definition identity (e : Env) (authHeader : option string) : option Claims :=
  if no_bearer authHeader then None
  else verifyTokenDirect e (bearer_token authHeader).

(** [router.get('/suggestions', AuthMiddleware.verifyToken, handler)] *)
Definition route_get_auth_suggestions (e : Env) (parsed : option Z) (req : Request unit)
  : M HistoryReply :=
  s <- verifyToken P e req ;;
  match s with
  | Respond r => ret (HistoryRejected r)
  | Next req1 => get_auth_suggestions e parsed req1
  end.

End MoreBackend.

(** *** The other [routes/suggestions.js]: personalised answers *)

Module Personalized.

Record Personalization : Type := mkPersonalization {
  note : string;
  historyCount : nat;
  lastGoal : option string
}.

Record BaseResponse : Type := mkBaseResponse {
  title : string;
  suggestions : jsprop (list Suggestion);
  disclaimer : string;
  generatedAt : Z;
  personalization : option Personalization
}.

(** This file builds the same object literal [suggestions] and wraps
    the same read of it. *)
Definition generateSuggestions (e : Env) (age : Q) (goal : string)
    (isAuthenticated : bool) (userHistory : list HistoryEntry) : BaseResponse :=
  let baseTitle :=
    if isAuthenticated then "Personalized Peptide Recommendations"
    else "General Peptide Recommendations" in
  let suggestions := suggestions_table age isAuthenticated in
  let baseResponse :=
    mkBaseResponse baseTitle
      (js_or (js_get suggestions goal) (js_get suggestions "energy"))
      "These suggestions are for informational purposes only. Consult with a healthcare professional before starting any new supplement regimen."
      (now e) None in
  if isAuthenticated then
    mkBaseResponse (title baseResponse) (Personalized.suggestions baseResponse)
      (disclaimer baseResponse) (Personalized.generatedAt baseResponse)
      (Some (mkPersonalization
               "These recommendations are personalized based on your profile and previous interactions."
               (length userHistory)
               (match userHistory with
                | first :: _ => Some (h_healthGoal first)
                | [] => None
                end)))
  else baseResponse.

End Personalized.

(** *** [middleware/validation.js] *)

(** The body [validateProductionConstraints] reads, after the schema of
    that file has accepted it. *)
Record ConstraintsBody : Type := mkConstraintsBody {
  cb_age : Q;
  cb_goal : string
}.

(** The [validationWarnings] it leaves on the request before [next()]. *)
Definition validateProductionConstraints (b : ConstraintsBody) : list string :=
  let age := cb_age b in
  let goal := cb_goal b in
  let warnings := [] in
  let warnings :=
    if js_lt age 21 then
      warnings ++ ["Peptide therapy for individuals under 21 requires additional medical supervision"]
    else warnings in
  let warnings :=
    if js_gt age 70 then
      warnings ++ ["Enhanced medical monitoring recommended for individuals over 70"]
    else warnings in
  let warnings :=
    if String.eqb goal "recovery" && js_lt age 25 then
      warnings ++ ["Young individuals typically have excellent natural recovery - consider lifestyle modifications first"]
    else warnings in
  let warnings :=
    if String.eqb goal "longevity" && js_lt age 30 then
      warnings ++ ["Longevity peptides are typically most beneficial after age 30"]
    else warnings in
  warnings.

(** An entry of the [Map] of [validateRateLimit]. *)
Record ClientData : Type := mkClientData {
  cd_count : nat;
  cd_firstRequest : Z
}.

Inductive LimiterStep : Type :=
| LimiterNext
| LimiterThrows (msg : string).

(** One call of the middleware [validateRateLimit(maxRequests, timeWindow)]
    returns, at time [now] (milliseconds), on the [Map] it closes over.
    The comparison [clientData.count >= maxRequets] reads a name that is
    declared nowhere, so evaluating it throws a [ReferenceError]; the
    429 answer and [clientData.count++] below it are never run. *)
Definition validateRateLimit (maxRequests : nat) (timeWindow : Z)
    (ip : option string) (now : Z) (requestCounts : gmap string ClientData)
  : LimiterStep * gmap string ClientData :=
  let clientId :=
    match ip with
    | Some s => if String.eqb s EmptyString then "unknown" else s
    | None => "unknown"
    end in
  let requestCounts :=
    filter (fun kv => ~ (timeWindow < now - cd_firstRequest (snd kv))%Z) requestCounts in
  match requestCounts !! clientId with
  | None => (LimiterNext, <[clientId := mkClientData 1 now]> requestCounts)
  | Some clientData =>
      if (timeWindow <? now - cd_firstRequest clientData)%Z then
        (LimiterNext, <[clientId := mkClientData 1 now]> requestCounts)
      else (LimiterThrows "maxRequets is not defined", requestCounts)
  end.

(** *** What the tables keep *)

(** The constraints of the schema of [config/database.js] on the rows:
    [email] is [UNIQUE], the [id]s are distinct and none is above the
    AUTOINCREMENT sequence of its table. *)
Definition store_ok (d : Db) : Prop :=
  NoDup (map u_email (users d))
  /\ NoDup (map u_id (users d))
  /\ Forall (fun u => (u_id u <= users_seq d)%Z) (users d)
  /\ NoDup (map s_id (user_suggestions d))
  /\ Forall (fun r => (s_id r <= user_suggestions_seq d)%Z) (user_suggestions d).

(** The row [createUser] inserts. *)
Definition new_user_row (P : Platform) (e : Env) (d : Db)
    (email password firstName lastName : string) : UserRow :=
  mkUserRow (users_seq d + 1) email (bcrypt_hash P password) firstName lastName
    (now e) (now e).

(** The database after that insert. *)
Definition with_user (d : Db) (r : UserRow) : Db :=
  mkDb (users d ++ [r]) (user_suggestions d) (u_id r) (user_suggestions_seq d).

(** The database after an insert into [user_suggestions]. *)
Definition with_suggestion (d : Db) (r : SuggestionRow) : Db :=
  mkDb (users d) (user_suggestions d ++ [r]) (users_seq d) (s_id r).

(** The number a counter of [goalSelections] stands for. *)
Definition count_of (m : gmap string Count) (goal : string) : nat :=
  match m !! goal with
  | Some (Num n) => n
  | _ => 0
  end.

(** The counters after the two analytics calls of the handler. *)
Definition counters_after (e : Env) (goal : string) (c : DailyCounters) : DailyCounters :=
  mkDailyCounters (S (requests c))
    (match analytics_fails e LogSuccessfulRequest with
     | Some _ => goalSelections c
     | None => bump goal (goalSelections c)
     end)
    (errors c) (S (successfulRequests c)).

(** The database after the handler: one more row for the caller when
    there is a caller, the insert works and the value has a JSON text. *)
Definition db_after (e : Env) (req : Request SuggestionsValue) (d : Db) : Db :=
  match user req with
  | None => d
  | Some u =>
      if db_fails e InsertSuggestion then d
      else
        match JSON_stringify
                (generateSuggestions (v_age (body req)) (v_healthGoal (body req)) true [])
        with
        | None => d
        | Some j =>
            with_suggestion d
              (mkSuggestionRow (user_suggestions_seq d + 1) (c_id u) (v_age (body req))
                 (v_healthGoal (body req)) j (now e))
        end
  end.

(** A row as [getUserSuggestions] hands it out: without [userId], the
    JSON text parsed. *)
Definition entry_of (r : SuggestionRow) : HistoryEntry :=
  mkHistoryEntry (s_id r) (s_age r) (s_healthGoal r) (s_suggestions r) (s_createdAt r).

(** The rows of [user_suggestions] that belong to a user. *)
Definition rows_of (userId : Z) (d : Db) : list SuggestionRow :=
  List.filter (fun r => Z.eqb (s_userId r) userId) (user_suggestions d).

(** [a] is at least as recent as [b]. *)
Definition not_older (a b : SuggestionRow) : Prop := (s_createdAt b <= s_createdAt a)%Z.

(** [req.ip || 'unknown'] *)
Definition client_id (ip : option string) : string :=
  match ip with
  | Some s => if String.eqb s EmptyString then "unknown" else s
  | None => "unknown"
  end.

(** *** [services/analyticsService.js]: the analytics file *)

(** An entry of [errors]. *)
Record ErrorEntry : Type := mkErrorEntry {
  ee_error : option string;
  ee_timestamp : Z;
  ee_requestId : option string
}.

(** The record of one date in [data/analytics.json]. *)
Record DayData : Type := mkDayData {
  dd_date : string;
  dd_totalRequests : nat;
  dd_successfulRequests : nat;
  dd_failedRequests : nat;
  dd_goalSelections : gmap string Count;
  dd_errors : list ErrorEntry;
  dd_averageResponseTime : nat;
  dd_uniqueIPs : list string;
  dd_firstRequest : option Z;
  dd_lastRequest : option Z
}.

Definition getEmptyDayData (date : string) : DayData :=
  mkDayData date 0 0 0 ∅ [] 0 [] None None.

(** The [data] argument of an event: nothing, a string (the routes pass
    the goal), or an object with the properties the service reads. *)
Inductive EventData : Type :=
| DataUndefined
| DataString (s : string)
| DataObject (ip error requestId : option string).

(** The property key a value is turned into. *)
Definition property_key (data : EventData) : string :=
  match data with
  | DataUndefined => "undefined"
  | DataString s => s
  | DataObject _ _ _ => "[object Object]"
  end.

(** [data.ip || 'unknown'], for a [data] that is not [undefined]. *)
Definition ip_or_unknown (data : EventData) : string :=
  match data with
  | DataObject (Some ip) _ _ => if String.eqb ip EmptyString then "unknown" else ip
  | _ => "unknown"
  end.

Definition data_error (data : EventData) : option string :=
  match data with
  | DataObject _ error _ => error
  | _ => None
  end.

Definition data_requestId (data : EventData) : option string :=
  match data with
  | DataObject _ _ requestId => requestId
  | _ => None
  end.

(** [set.add(x)] and [new Set(array)], as the array [Array.from] gives
    back: insertion order, no value twice. *)
Definition Set_add (x : string) (s : list string) : list string :=
  if bool_decide (x ∈ s) then s else s ++ [x].
Definition Set_from (l : list string) : list string :=
  fold_left (fun s x => Set_add x s) l [].

(** [a < b] on strings: by code units, a proper prefix first. *)
Fixpoint string_ltb (a b : string) : bool :=
  match a, b with
  | _, EmptyString => false
  | EmptyString, String _ _ => true
  | String x a', String y b' =>
      if (nat_of_ascii x <? nat_of_ascii y)%nat then true
      else if (nat_of_ascii y <? nat_of_ascii x)%nat then false
      else string_ltb a' b'
  end.

(** The [switch (eventType)] on a day record whose [uniqueIPs] is a
    [Set]; [None] when it throws a [TypeError]. *)
Definition apply_event (clock : Z) (eventType : string) (data : EventData)
    (dayData : DayData) : option DayData :=
  if String.eqb eventType "goalSelection" then
    Some (mkDayData (dd_date dayData) (dd_totalRequests dayData)
            (dd_successfulRequests dayData) (dd_failedRequests dayData)
            (bump (property_key data) (dd_goalSelections dayData))
            (dd_errors dayData) (dd_averageResponseTime dayData)
            (dd_uniqueIPs dayData) (dd_firstRequest dayData) (dd_lastRequest dayData))
  else if String.eqb eventType "successfulRequest" then
    match data with
    | DataUndefined => None
    | _ =>
        Some (mkDayData (dd_date dayData) (S (dd_totalRequests dayData))
                (S (dd_successfulRequests dayData)) (dd_failedRequests dayData)
                (dd_goalSelections dayData) (dd_errors dayData)
                (dd_averageResponseTime dayData)
                (Set_add (ip_or_unknown data) (dd_uniqueIPs dayData))
                (match dd_firstRequest dayData with
                 | Some t => Some t
                 | None => Some clock
                 end)
                (Some clock))
    end
  else if String.eqb eventType "failedRequest" then
    match data with
    | DataUndefined => None
    | _ =>
        Some (mkDayData (dd_date dayData) (S (dd_totalRequests dayData))
                (dd_successfulRequests dayData) (S (dd_failedRequests dayData))
                (dd_goalSelections dayData)
                (dd_errors dayData ++
                 [mkErrorEntry (data_error data) clock (data_requestId data)])
                (dd_averageResponseTime dayData)
                (Set_add (ip_or_unknown data) (dd_uniqueIPs dayData))
                (match dd_firstRequest dayData with
                 | Some t => Some t
                 | None => Some clock
                 end)
                (Some clock))
    end
  else Some dayData.

(** The dates that stay: [delete analytics[d]] for every [d < cutoffDate]. *)
Definition prune (cutoffDate : string) (analytics : gmap string DayData)
  : gmap string DayData :=
  filter (fun kv => string_ltb (fst kv) cutoffDate = false) analytics.

(** [updateDailyAnalytics(date, eventType, data)] as a step on the file:
    [None] is a file that is missing or is no JSON.  [clock] is the time
    of the call and [cutoffDate] the date ninety days before it;
    [write_fails] says whether [fs.writeFile] rejects.  Every error is
    caught inside, and then the file is the one it was.  When [date] is
    the name of a member inherited from [Object.prototype], [dayData] is
    that built-in object and no record of the file. *)
Definition updateDailyAnalytics (clock : Z) (cutoffDate : string) (write_fails : bool)
    (date eventType : string) (data : EventData) (file : option (gmap string DayData))
  : option (gmap string DayData) :=
  let analytics := default ∅ file in
  let write (a : gmap string DayData) :=
    if write_fails then file else Some (prune cutoffDate a) in
  match js_get analytics date with
  | Inherited _ =>
      if String.eqb eventType "goalSelection" || String.eqb eventType "failedRequest"
      then file
      else if String.eqb eventType "successfulRequest" then
        match data with
        | DataUndefined => file
        | _ => write analytics
        end
      else write analytics
  | found =>
      let dayData :=
        match found with
        | Own d => d
        | _ => mkDayData date 0 0 0 ∅ [] 0 [] None None
        end in
      let dayData :=
        mkDayData (dd_date dayData) (dd_totalRequests dayData)
          (dd_successfulRequests dayData) (dd_failedRequests dayData)
          (dd_goalSelections dayData) (dd_errors dayData)
          (dd_averageResponseTime dayData) (Set_from (dd_uniqueIPs dayData))
          (dd_firstRequest dayData) (dd_lastRequest dayData) in
      match apply_event clock eventType data dayData with
      | None => file
      | Some dayData => write (<[date := dayData]> analytics)
      end
  end.

(** What [getDailyAnalytics(startDate)] returns for one date. *)
Record DailyAnalytics : Type := mkDailyAnalytics {
  da_date : string;
  da_data : jsprop DayData;
  da_currentCounters : option DailyCounters
}.

(** [getDailyAnalytics(startDate)] without [endDate]: [None] is the
    [null] returned when the file cannot be read or parsed. *)
Definition getDailyAnalytics (today : string) (counters : DailyCounters)
    (startDate : option string) (file : option (gmap string DayData))
  : option DailyAnalytics :=
  match file with
  | None => None
  | Some analytics =>
      match startDate with
      | Some (String c s) =>
          let startDate := String c s in
          Some (mkDailyAnalytics startDate
                  (js_or (js_get analytics startDate) (Own (getEmptyDayData startDate)))
                  None)
      | _ =>
          Some (mkDailyAnalytics today
                  (js_or (js_get analytics today) (Own (getEmptyDayData today)))
                  (Some counters))
      end
  end.

(** The totals of a day add up. *)
Definition day_consistent (d : DayData) : Prop :=
  dd_totalRequests d = dd_successfulRequests d + dd_failedRequests d
  /\ NoDup (dd_uniqueIPs d)
  /\ length (dd_errors d) = dd_failedRequests d.

(** The record of a date in the file, as [updateDailyAnalytics] starts
    from it: the one in the file, or a fresh one. *)
Definition day_of (file : option (gmap string DayData)) (date : string) : DayData :=
  match default ∅ file !! date with
  | Some d => d
  | None => getEmptyDayData date
  end.

(** ** More concrete values to run the code on *)

(** The world after the registered user has asked once for "energy". *)
Definition suggested_world : World :=
  snd (route_post_suggestions sample_platform sample_env
         (suggestions_request (Some "Bearer good.jwt.token") 25 "energy")
         registered_world).

(** An analytics file with one day in the window and one day before it. *)
Definition sample_file : option (gmap string DayData) :=
  Some (<[ "2026-01-05" :=
             mkDayData "2026-01-05" 3 2 1 (<[ "sleep" := Num 2 ]> ∅)
               [mkErrorEntry None 1767600000 None] 0 ["unknown"]
               (Some 1767571200%Z) (Some 1767600000%Z) ]>
        (<[ "2025-09-01" := getEmptyDayData "2025-09-01" ]> ∅)).

(** * Properties *)

Lemma js_lt_inject_Z (a b : Z) : js_lt (inject_Z a) (inject_Z b) = (a <? b)%Z.
Proof.
  unfold js_lt, Qle_bool. cbn [Qnum Qden inject_Z]. rewrite !Z.mul_1_r.
  rewrite Z.ltb_antisym. reflexivity.
Qed.

Lemma is_integer_inject_Z (n : Z) : is_integer (inject_Z n) = true.
Proof.
  unfold is_integer, js_trunc.
  destruct (js_lt (inject_Z n) 0); rewrite ?Qceiling_Z, ?Qfloor_Z;
    apply Qeq_bool_iff; unfold Qeq, Qminus, Qplus, Qopp, inject_Z;
    cbn [Qnum Qden]; lia.
Qed.

Lemma age_rules_in_range (n : Z) :
  (18 <= n <= 120)%Z -> age_rules (inject_Z n) = inr (inject_Z n).
Proof.
  intros Hn. unfold age_rules, js_gt, MAX_SAFE_INTEGER.
  change (- inject_Z 9007199254740991)%Q with (inject_Z (-9007199254740991)).
  change 18%Q with (inject_Z 18). change 120%Q with (inject_Z 120).
  rewrite !js_lt_inject_Z, is_integer_inject_Z.
  replace (9007199254740991 <? n)%Z with false by (symmetry; apply Z.ltb_ge; lia).
  replace (n <? -9007199254740991)%Z with false by (symmetry; apply Z.ltb_ge; lia).
  replace (n <? 18)%Z with false by (symmetry; apply Z.ltb_ge; lia).
  replace (120 <? n)%Z with false by (symmetry; apply Z.ltb_ge; lia).
  reflexivity.
Qed.


Lemma generateSuggestions_history (age : Q) (goal : string) (isAuthenticated : bool)
    (h1 h2 : list HistoryEntry) :
  generateSuggestions age goal isAuthenticated h1 =
  generateSuggestions age goal isAuthenticated h2.
Proof. reflexivity. Qed.

Ltac table_lookup :=
  unfold generateSuggestions, suggestions_table, js_get, js_or;
  rewrite ?lookup_insert_ne by discriminate;
  rewrite ?lookup_insert_eq, ?lookup_empty.

Lemma health_goals_cases (g : string) :
  g ∈ health_goals ->
  g = "energy" \/ g = "sleep" \/ g = "focus" \/ g = "recovery" \/
  g = "weight_management" \/ g = "immune_support".
Proof.
  unfold health_goals. rewrite !elem_of_cons, elem_of_nil. tauto.
Qed.

Lemma generateSuggestions_known (age : Q) (g : string) (isAuthenticated : bool)
    (h : list HistoryEntry) :
  g ∈ health_goals ->
  exists l, generateSuggestions age g isAuthenticated h = Own l
            /\ length l = 3 /\ Forall well_formed l.
Proof.
  intros Hg. apply health_goals_cases in Hg.
  destruct Hg as [-> | [-> | [-> | [-> | [-> | ->]]]]]; table_lookup;
    (eexists; split; [reflexivity | split; [reflexivity |]]);
    repeat (apply List.Forall_cons; [split; cbn [name description] |]);
    try apply List.Forall_nil;
    repeat match goal with
           | |- context [if ?b then _ else _] => destruct b
           end; discriminate.
Qed.

Lemma generateSuggestions_fallback (age : Q) (goal : string) (isAuthenticated : bool)
    (h : list HistoryEntry) :
  goal ∉ health_goals -> goal ∉ Object_prototype ->
  generateSuggestions age goal isAuthenticated h =
  generateSuggestions age "energy" isAuthenticated h.
Proof.
  intros Hg Hp. unfold health_goals in Hg.
  rewrite !not_elem_of_cons in Hg.
  destruct Hg as (? & ? & ? & ? & ? & ? & _).
  unfold generateSuggestions, suggestions_table, js_get, js_or.
  rewrite !lookup_insert_ne by congruence.
  rewrite lookup_empty, bool_decide_eq_false_2 by exact Hp.
  reflexivity.
Qed.

(** *** Running the monadic code *)

Ltac run_M :=
  unfold try_catch, bind, ret, throw, logger, get_world, put_db, put_counters,
    analytics in *.

Ltac norm_world :=
  repeat (progress (cbn [db dailyCounters log users user_suggestions fst snd app];
                    rewrite <- ?app_assoc)).

Section Handlers.

Variable P : Platform.

Local Arguments generateSuggestions : simpl never.
Local Arguments JSON_stringify : simpl never.

Lemma post_suggestions_run (e : Env) (req : Request SuggestionsValue) (w : World) :
  exists w' entries,
    post_suggestions e req w = (inr (suggestions_ok e req), w')
    /\ users (db w') = users (db w)
    /\ (user req = None -> db w' = db w)
    /\ log w' = (log w ++ (Info, "Processing suggestions request") :: entries)%list.
Proof.
  unfold post_suggestions, suggestions_ok, getUserSuggestions, logSuccessfulRequest,
    logGoalSelection, saveSuggestion.
  destruct req as [auth [age goal] [u|]]; cbn [user body v_age v_healthGoal truthy].
  - run_M.
    destruct (db_fails e SelectSuggestions), (analytics_fails e LogSuccessfulRequest),
      (analytics_fails e LogGoalSelection), (db_fails e InsertSuggestion);
      try destruct (JSON_stringify _); norm_world;
      (do 2 eexists; split; [reflexivity | norm_world; split; [reflexivity | split; [discriminate | reflexivity]]]).
  - run_M.
    destruct (analytics_fails e LogSuccessfulRequest),
      (analytics_fails e LogGoalSelection);
      norm_world;
      (do 2 eexists; split; [reflexivity | norm_world; split; [reflexivity | split; [reflexivity | reflexivity]]]).
Qed.

End Handlers.

Lemma substring_all (s : string) : String.substring 0 (String.length s) s = s.
Proof. induction s as [| c s IH]; cbn; [reflexivity | rewrite IH; reflexivity]. Qed.

Lemma bearer_header (token : string) :
  no_bearer (Some ("Bearer " +:+ token)) = false
  /\ bearer_token (Some ("Bearer " +:+ token)) = token.
Proof.
  split.
  - destruct token; reflexivity.
  - unfold bearer_token, substring_from.
    change (String.substring 0 (String.length token - 0) token = token).
    rewrite Nat.sub_0_r. apply substring_all.
Qed.

Section Authentication.

Variable P : Platform.

Lemma optionalAuth_next {B : Type} (e : Env) (req : Request B) :
  exists u, optionalAuth P e req = Next (set_user req u).
Proof.
  unfold optionalAuth.
  destruct (no_bearer (authorization req)); [eauto |].
  destruct (jwt_verify P _ _ _); eauto.
Qed.

(** [jwt.verify] accepts a token of ours that is active and has not
    expired, and hands back its claims. *)
Lemma jwt_verify_accepts (token : string) (claims : Claims) (t : Z) :
  token <> EmptyString ->
  jwt_decode P token = inr (mkJws claims (JWT_SECRET P)) ->
  (forall nbf, c_nbf claims = Some nbf -> (nbf <= t)%Z) ->
  (forall exp, c_exp claims = Some exp -> (t < exp)%Z) ->
  jwt_verify P token (JWT_SECRET P) t = inr claims.
Proof.
  intros Hne Hdec Hnbf Hexp. unfold jwt_verify.
  apply String.eqb_neq in Hne. rewrite Hne, Hdec. cbn [jws_key jws_claims].
  rewrite String.eqb_refl. cbn [negb].
  destruct (c_nbf claims) as [nbf |].
  - specialize (Hnbf nbf eq_refl).
    replace (t <? nbf)%Z with false by (symmetry; apply Z.ltb_ge; lia).
    destruct (c_exp claims) as [exp |]; [| reflexivity].
    specialize (Hexp exp eq_refl).
    replace (exp <=? t)%Z with false by (symmetry; apply Z.leb_gt; lia).
    reflexivity.
  - destruct (c_exp claims) as [exp |]; [| reflexivity].
    specialize (Hexp exp eq_refl).
    replace (exp <=? t)%Z with false by (symmetry; apply Z.leb_gt; lia).
    reflexivity.
Qed.

(** A token in one of the three failure modes of a present token makes
    [jwt.verify] fail, with the error class the mode belongs to. *)
Lemma token_failure_verify (e : Env) (h : option string) (m : TokenFailure) :
  token_failure P e h = Some m ->
  m <> TokenMissing ->
  no_bearer h = false
  /\ exists err,
       jwt_verify P (bearer_token h) (JWT_SECRET P) (now e) = inl err
       /\ err_name err =
          match m with
          | TokenExpired => "TokenExpiredError"
          | TokenMalformed (Undecoded (PayloadNotJson _)) => "SyntaxError"
          | _ => "JsonWebTokenError"
          end.
Proof.
  unfold token_failure, jwt_verify. intros H Hm.
  destruct (no_bearer h); [congruence |]. split; [reflexivity |].
  destruct (String.eqb (bearer_token h) EmptyString).
  { inversion H; subst. eexists; split; reflexivity. }
  destruct (jwt_decode P (bearer_token h)) as [[| | message] | t].
  1-3: inversion H; subst; eexists; split; reflexivity.
  destruct (negb (String.eqb (jws_key t) (JWT_SECRET P))).
  { inversion H; subst. eexists; split; reflexivity. }
  destruct (c_nbf (jws_claims t)) as [nbf|]; cbn [andb negb] in *.
  - destruct (now e <? nbf)%Z; cbn [andb negb] in *; [discriminate |].
    destruct (c_exp (jws_claims t)) as [exp|]; [| discriminate].
    destruct (exp <=? now e)%Z; [| discriminate].
    inversion H; subst. eexists; split; reflexivity.
  - destruct (c_exp (jws_claims t)) as [exp|]; [| discriminate].
    destruct (exp <=? now e)%Z; [| discriminate].
    inversion H; subst. eexists; split; reflexivity.
Qed.

Lemma token_failure_missing (e : Env) (h : option string) :
  token_failure P e h = Some TokenMissing -> no_bearer h = true.
Proof.
  unfold token_failure. destruct (no_bearer h); [reflexivity |].
  destruct (String.eqb _ _); [discriminate |].
  destruct (jwt_decode P _); [discriminate |].
  destruct (negb _); [discriminate |].
  destruct (_ && _); discriminate.
Qed.

Lemma verifyToken_failure {B : Type} (e : Env) (req : Request B) (w : World)
    (m : TokenFailure) :
  token_failure P e (authorization req) = Some m ->
  exists msg w',
    verifyToken P e req w =
    (inr (Respond (mkResponse 401 (ErrorBody msg (failure_code m) None None))), w').
Proof.
  intros H. unfold verifyToken.
  destruct m as [| | [| [| | message]] |];
    [ apply token_failure_missing in H; rewrite H
    | destruct (token_failure_verify e _ _ H ltac:(discriminate))
        as (Hb & err & Hv & Hn); rewrite Hb, Hv; run_M; rewrite Hn .. ];
    run_M; do 2 eexists; reflexivity.
Qed.

(** What [optionalAuth] leaves in [req.user]. *)
Lemma optionalAuth_user {B : Type} (e : Env) (req : Request B) :
  optionalAuth P e req =
  Next (set_user req
          (if no_bearer (authorization req) then None
           else match jwt_verify P (bearer_token (authorization req))
                        (JWT_SECRET P) (now e) with
                | inl _ => None
                | inr decoded => Some decoded
                end)).
Proof.
  unfold optionalAuth.
  destruct (no_bearer (authorization req)); [reflexivity |].
  destruct (jwt_verify P _ _ _); reflexivity.
Qed.

(** C5: [optionalAuth] never answers the request itself.  Whatever the
    request, it calls [next()] with the request it was given, header and
    body as they were, and only [req.user] assigned, whatever it held
    before.  [req.user] is [null] when the Authorization header is
    absent, when it lacks the [Bearer ] prefix, and when [jwt.verify]
    fails on the token that follows the prefix, for whatever reason: in
    particular when the token is malformed, expired or carries an
    invalid signature.  [req.user] is the decoded claims when
    [jwt.verify] accepts that token, as it does a token of ours that is
    active and has not expired. *)
Theorem optionalAuth_never_rejects {B : Type} (e : Env) (req : Request B) :
  exists req',
    optionalAuth P e req = Next req'
    /\ authorization req' = authorization req
    /\ body req' = body req
    /\ (authorization req = None -> user req' = None)
    /\ (forall h, authorization req = Some h -> startsWith h "Bearer " = false ->
          user req' = None)
    /\ (forall token, authorization req = Some ("Bearer " +:+ token) ->
          (forall err, jwt_verify P token (JWT_SECRET P) (now e) = inl err ->
             user req' = None)
          /\ (forall decoded, jwt_verify P token (JWT_SECRET P) (now e) = inr decoded ->
                user req' = Some decoded))
    /\ (forall m, token_failure P e (authorization req) = Some m -> user req' = None)
    /\ (forall token claims,
          authorization req = Some ("Bearer " +:+ token) ->
          token <> EmptyString ->
          jwt_decode P token = inr (mkJws claims (JWT_SECRET P)) ->
          (forall nbf, c_nbf claims = Some nbf -> (nbf <= now e)%Z) ->
          (forall exp, c_exp claims = Some exp -> (now e < exp)%Z) ->
          user req' = Some claims).
Proof.
  eexists. split; [apply optionalAuth_user |].
  cbn [set_user authorization body user].
  split; [reflexivity |]. split; [reflexivity |].
  split; [| split; [| split; [| split]]].
  - intros ->. reflexivity.
  - intros h -> Hh. cbn [no_bearer]. rewrite Hh, orb_true_r. reflexivity.
  - intros token ->. destruct (bearer_header token) as (-> & ->). split.
    + intros err ->. reflexivity.
    + intros decoded ->. reflexivity.
  - intros m H.
    destruct m as [| | why |];
      [ apply token_failure_missing in H; rewrite H
      | destruct (token_failure_verify e _ _ H ltac:(discriminate))
          as (Hb & err & Hv & _); rewrite Hb, Hv .. ];
      reflexivity.
  - intros token claims -> Hne Hdec Hnbf Hexp.
    destruct (bearer_header token) as (-> & ->).
    rewrite (jwt_verify_accepts token claims (now e) Hne Hdec Hnbf Hexp).
    reflexivity.
Qed.

(** C2, as the code has it: in each of the four failure modes
    [GET /auth/verify] is answered by [verifyToken] with 401.  The code
    is TOKEN_MISSING for a missing token and TOKEN_EXPIRED for an
    expired one, and these two differ from each other and from the code
    of every malformed token and of every token with an invalid
    signature.  The codes of these last two modes are not kept apart:
    an invalid signature gets TOKEN_MALFORMED, and so does a malformed
    token that is empty, has not three segments or has no header, while
    one whose payload is not JSON, the one case in which the error is
    not of the class [JsonWebTokenError], gets TOKEN_INVALID. *)
Theorem verifyToken_failure_codes (e : Env) (req : Request unit) (w : World)
    (m : TokenFailure) :
  token_failure P e (authorization req) = Some m ->
  (exists msg w',
     route_get_verify P e req w =
     (inr (mkResponse 401 (ErrorBody msg (failure_code m) None None)), w'))
  /\ failure_code TokenMissing = "TOKEN_MISSING"
  /\ failure_code TokenExpired = "TOKEN_EXPIRED"
  /\ failure_code TokenInvalidSignature = "TOKEN_MALFORMED"
  /\ (forall why,
        failure_code (TokenMalformed why) =
        match why with
        | Undecoded (PayloadNotJson _) => "TOKEN_INVALID"
        | _ => failure_code TokenInvalidSignature
        end)
  /\ failure_code TokenMissing <> failure_code TokenExpired
  /\ failure_code TokenMissing <> failure_code TokenInvalidSignature
  /\ failure_code TokenExpired <> failure_code TokenInvalidSignature
  /\ (forall why, failure_code TokenMissing <> failure_code (TokenMalformed why))
  /\ (forall why, failure_code TokenExpired <> failure_code (TokenMalformed why)).
Proof.
  intros H. split.
  - destruct (verifyToken_failure e req w m H) as (msg & w' & Hv).
    unfold route_get_verify, bind. rewrite Hv. do 2 eexists. reflexivity.
  - split; [reflexivity |]. split; [reflexivity |]. split; [reflexivity |].
    split; [| split; [discriminate | split; [discriminate | split; [discriminate |]]]].
    + intros [| [| | message]]; reflexivity.
    + split; intros [| [| | message]]; discriminate.
Qed.

End Authentication.

Lemma age_rules_17 :
  age_rules 17 = inl (mkDetail "number.min" "age" "Age must be at least 18").
Proof. vm_compute. reflexivity. Qed.

Lemma age_rules_121 :
  age_rules 121 = inl (mkDetail "number.max" "age" "Age must be 120 or less").
Proof. vm_compute. reflexivity. Qed.

Lemma age_rules_64_5 :
  age_rules 64.5 = inl (mkDetail "number.integer" "age" "Age must be a whole number").
Proof. vm_compute. reflexivity. Qed.

Lemma validate_healthGoal_known (g : string) :
  g ∈ health_goals -> validate_healthGoal (Some (JString g)) = inr g.
Proof.
  intros Hg. unfold validate_healthGoal. rewrite bool_decide_eq_true_2 by exact Hg.
  reflexivity.
Qed.

Lemma post_suggestions_changes_world (e : Env) (req : Request SuggestionsValue)
    (w : World) :
  snd (post_suggestions e req w) <> w.
Proof.
  destruct (post_suggestions_run e req w) as (w' & entries & Hrun & _ & _ & Hlog).
  rewrite Hrun. cbn [snd]. intros ->.
  apply (f_equal (@length _)) in Hlog.
  rewrite length_app in Hlog. cbn [length] in Hlog. lia.
Qed.

Section Suggestions.

Variable P : Platform.

(** A request the schema accepts ends in the handler's 200, whatever
    fails on the way; the identity is the one [optionalAuth] found. *)
Lemma route_post_suggestions_valid (e : Env) (req : Request SuggestionsBody)
    (w : World) (v : SuggestionsValue) :
  suggestionsSchema_validate (joi_number_coerce P) (body req) = inr v ->
  exists u w',
    optionalAuth P e req = Next (set_user req u)
    /\ route_post_suggestions P e req w =
       (inr (suggestions_ok e (mkRequest (authorization req) v u)), w')
    /\ users (db w') = users (db w)
    /\ (u = None -> db w' = db w).
Proof.
  intros Hv. destruct (optionalAuth_next P e req) as (u & Hu).
  unfold route_post_suggestions, validateSuggestionsRequest. rewrite Hu.
  cbn [set_user body]. rewrite Hv.
  destruct (post_suggestions_run e (set_body (mkRequest (authorization req) (body req) u) v) w)
    as (w' & entries & Hrun & Husers & Hdb & _).
  exists u, w'. repeat split; [exact Hrun | exact Husers | exact Hdb].
Qed.

(** C1: for every integer age from 18 to 120, every one of the six
    health goals and every Authorization header (so in either
    authentication state), POST /suggestions answers 200 with a
    [suggestions] array of exactly three records, each with a non-empty
    [name] and a non-empty [description]. *)
Theorem post_suggestions_three_records (e : Env) (w : World) (auth : option string)
    (n : Z) (g : string) :
  (18 <= n <= 120)%Z ->
  g ∈ health_goals ->
  exists l meta w',
    route_post_suggestions P e (suggestions_request auth (inject_Z n) g) w =
    (inr (mkResponse 200 (SuggestionsBodyOk (uuid e) (Own l) meta)), w')
    /\ length l = 3
    /\ Forall well_formed l.
Proof.
  intros Hn Hg.
  destruct (route_post_suggestions_valid e (suggestions_request auth (inject_Z n) g) w
              (mkSuggestionsValue (inject_Z n) g)) as (u & w' & _ & Hrun & _).
  { unfold suggestionsSchema_validate, suggestions_request.
    cbn [body body_age body_healthGoal body_unknown validate_age].
    rewrite (age_rules_in_range n Hn), (validate_healthGoal_known g Hg). reflexivity. }
  destruct (generateSuggestions_known (inject_Z n) g (truthy u) [] Hg) as (l & Hl & Hlen & Hwf).
  exists l. eexists. exists w'. split; [| split; [exact Hlen | exact Hwf]].
  rewrite Hrun. unfold suggestions_ok. cbn [body user v_age v_healthGoal].
  rewrite Hl. reflexivity.
Qed.

(** C3: a request the schema accepts that carries no bearer token is
    answered 200 with [meta.authenticated = false], and the database is
    the one it was: no row is added to [user_suggestions] (nor to any
    other table). *)
Theorem anonymous_request_leaves_history (e : Env) (req : Request SuggestionsBody)
    (w : World) (v : SuggestionsValue) :
  no_bearer (authorization req) = true ->
  suggestionsSchema_validate (joi_number_coerce P) (body req) = inr v ->
  exists suggestions meta w',
    route_post_suggestions P e req w =
    (inr (mkResponse 200 (SuggestionsBodyOk (uuid e) suggestions meta)), w')
    /\ authenticated meta = false
    /\ user_suggestions (db w') = user_suggestions (db w)
    /\ db w' = db w.
Proof.
  intros Hb Hv.
  destruct (route_post_suggestions_valid e req w v Hv) as (u & w' & Hu & Hrun & _ & Hdb).
  assert (u = None) as ->.
  { unfold optionalAuth in Hu. rewrite Hb in Hu. unfold set_user in Hu.
    inversion Hu. reflexivity. }
  do 2 eexists. exists w'. split; [exact Hrun |].
  rewrite (Hdb eq_refl). repeat split.
Qed.

(** C4: for a request the schema accepts, the answer does not depend on
    which analytics writes and which database statements fail: it is the
    200 with the generated suggestions that is sent when none fails. *)
Theorem side_effect_failures_are_swallowed (rid : string) (t : Z)
    (db_fails1 db_fails2 : DbCall -> bool)
    (analytics_fails1 analytics_fails2 : AnalyticsCall -> option string)
    (req : Request SuggestionsBody) (w : World) (v : SuggestionsValue) :
  suggestionsSchema_validate (joi_number_coerce P) (body req) = inr v ->
  exists isAuthenticated meta,
    let ok := mkResponse 200
                (SuggestionsBodyOk rid
                   (generateSuggestions (v_age v) (v_healthGoal v) isAuthenticated [])
                   meta) in
    answer (route_post_suggestions P (mkEnv rid t db_fails1 analytics_fails1) req w) = Some ok
    /\ answer (route_post_suggestions P (mkEnv rid t db_fails2 analytics_fails2) req w) = Some ok
    /\ answer (route_post_suggestions P (mkEnv rid t (fun _ => false) (fun _ => None)) req w)
       = Some ok.
Proof.
  intros Hv.
  destruct (route_post_suggestions_valid (mkEnv rid t db_fails1 analytics_fails1) req w v Hv)
    as (u1 & w1 & Hu1 & Hrun1 & _).
  destruct (route_post_suggestions_valid (mkEnv rid t db_fails2 analytics_fails2) req w v Hv)
    as (u2 & w2 & Hu2 & Hrun2 & _).
  destruct (route_post_suggestions_valid (mkEnv rid t (fun _ => false) (fun _ => None)) req w v Hv)
    as (u3 & w3 & Hu3 & Hrun3 & _).
  assert (u2 = u1 /\ u3 = u1) as [-> ->].
  { unfold optionalAuth in Hu1, Hu2, Hu3. cbn [now] in *.
    rewrite Hu1 in Hu2, Hu3. unfold set_user in *. split; congruence. }
  exists (truthy u1). eexists. cbn zeta.
  rewrite Hrun1, Hrun2, Hrun3. unfold answer, suggestions_ok.
  cbn [fst body user v_age v_healthGoal uuid now]. repeat split.
Qed.

(** C9: with [age] 17, 121 or 64.5 in the body, whatever else the
    request holds, POST /suggestions answers 400 with [field] "age" and
    the message of the rule that failed (the lower bound, the upper
    bound, the integer rule); the world is left as it was, which no run
    of the handler does, so the handler was not entered. *)
Theorem out_of_range_age_fails_closed (e : Env) (auth : option string)
    (healthGoal : option json) (unknown : list string) (w : World) :
  route_post_suggestions P e (request_with_age auth 17 healthGoal unknown) w =
    (inr (mkResponse 400
            (ErrorBody "Age must be at least 18" "VALIDATION_ERROR" (Some "age") None)), w)
  /\ route_post_suggestions P e (request_with_age auth 121 healthGoal unknown) w =
    (inr (mkResponse 400
            (ErrorBody "Age must be 120 or less" "VALIDATION_ERROR" (Some "age") None)), w)
  /\ route_post_suggestions P e (request_with_age auth 64.5 healthGoal unknown) w =
    (inr (mkResponse 400
            (ErrorBody "Age must be a whole number" "VALIDATION_ERROR" (Some "age") None)), w)
  /\ (forall req, snd (post_suggestions e req w) <> w).
Proof.
  assert (forall q d, age_rules q = inl d ->
            route_post_suggestions P e (request_with_age auth q healthGoal unknown) w =
            (inr (mkResponse 400
                    (ErrorBody (d_message d) "VALIDATION_ERROR" (Some (d_path d)) None)), w))
    as Hreject.
  { intros q d Hq.
    destruct (optionalAuth_next P e (request_with_age auth q healthGoal unknown)) as (u & Hu).
    unfold route_post_suggestions, validateSuggestionsRequest, suggestionsSchema_validate.
    rewrite Hu. unfold request_with_age, set_user.
    cbn [body body_age validate_age]. rewrite Hq. reflexivity. }
  repeat split.
  - exact (Hreject _ _ age_rules_17).
  - exact (Hreject _ _ age_rules_121).
  - exact (Hreject _ _ age_rules_64_5).
  - intros req. apply post_suggestions_changes_world.
Qed.

End Suggestions.

(** C10: [generateSuggestions] returns the same value for any two
    history lists, and so the answer of the handler is the same in any
    two worlds, whatever rows their [user_suggestions] tables hold and
    whether or not the history can be fetched. *)
Theorem suggestions_independent_of_history (age : Q) (goal : string)
    (isAuthenticated : bool) (h1 h2 : list HistoryEntry) :
  generateSuggestions age goal isAuthenticated h1 =
  generateSuggestions age goal isAuthenticated h2
  /\ (forall (e : Env) (db_fails' : DbCall -> bool) (req : Request SuggestionsValue)
        (w1 w2 : World),
        answer (post_suggestions e req w1) =
        answer (post_suggestions
                  (mkEnv (uuid e) (now e) db_fails' (analytics_fails e)) req w2)).
Proof.
  split; [apply generateSuggestions_history |].
  intros e f req w1 w2.
  destruct (post_suggestions_run e req w1) as (w1' & ? & -> & _).
  destruct (post_suggestions_run (mkEnv (uuid e) (now e) f (analytics_fails e)) req w2)
    as (w2' & ? & -> & _).
  reflexivity.
Qed.

(** C8 as stated fails: "constructor" is none of the six goals, and
    [generateSuggestions] returns for it the member of that name every
    object inherits from [Object.prototype], which is truthy, so that
    the fallback is not taken and the result is not the "energy" list. *)
Lemma generateSuggestions_inherited_goal :
  ("constructor" ∉ health_goals)
  /\ generateSuggestions 25 "constructor" false [] = Inherited "constructor"
  /\ generateSuggestions 25 "constructor" false [] <>
     generateSuggestions 25 "energy" false []
  /\ (forall age isAuthenticated h,
        generateSuggestions age "constructor" isAuthenticated h <>
        generateSuggestions age "energy" isAuthenticated h).
Proof.
  assert (forall age isAuthenticated h,
            generateSuggestions age "constructor" isAuthenticated h <>
            generateSuggestions age "energy" isAuthenticated h) as Hne.
  { intros age b h.
    assert (generateSuggestions age "constructor" b h = Inherited "constructor") as ->
      by (table_lookup; reflexivity).
    destruct (generateSuggestions_known age "energy" b h) as (l & -> & _).
    - unfold health_goals. apply elem_of_cons. left. reflexivity.
    - discriminate. }
  split; [| split; [| split]].
  - unfold health_goals. rewrite !not_elem_of_cons. repeat split; try discriminate.
    apply not_elem_of_nil.
  - table_lookup. reflexivity.
  - apply Hne.
  - exact Hne.
Qed.

(** C8, as the code has it: for a goal that is neither one of the six
    nor the name of a member inherited from [Object.prototype], whatever
    the age and the authentication state, [generateSuggestions] returns
    the "energy" list, the three records of that name.  The guard in
    front of the function is the schema: a request with a goal outside
    the six is answered 400 by the route and leaves the world as it was,
    so that no such goal reaches the function through POST /suggestions. *)
Theorem generateSuggestions_unknown_goal (age : Q) (goal : string)
    (isAuthenticated : bool) (h : list HistoryEntry) :
  goal ∉ health_goals -> goal ∉ Object_prototype ->
  generateSuggestions age goal isAuthenticated h =
  generateSuggestions age "energy" isAuthenticated h
  /\ (exists l,
        generateSuggestions age goal isAuthenticated h = Own l
        /\ map name l =
           ["Peptide Alpha-E"; "Mitochondrial Boost Complex"; "Vitality Peptide"]
        /\ Forall well_formed l)
  /\ (forall (P : Platform) (e : Env) (req : Request SuggestionsBody) (w : World),
        body_healthGoal (body req) = Some (JString goal) ->
        exists msg field,
          route_post_suggestions P e req w =
          (inr (mkResponse 400 (ErrorBody msg "VALIDATION_ERROR" (Some field) None)), w)).
Proof.
  intros Hg Hp. split; [apply generateSuggestions_fallback; assumption |]. split.
  - rewrite (generateSuggestions_fallback age goal isAuthenticated h Hg Hp).
    destruct (generateSuggestions_known age "energy" isAuthenticated h)
      as (l & Hl & _ & Hwf); [apply list_elem_of_here |].
    exists l. split; [exact Hl |]. split; [| exact Hwf].
    revert Hl. table_lookup. intros Hl. inversion Hl; subst l. reflexivity.
  - intros P e req w Hb.
    destruct (optionalAuth_next P e req) as (u & Hu).
    unfold route_post_suggestions, validateSuggestionsRequest. rewrite Hu.
    cbn [set_user body]. unfold suggestionsSchema_validate.
    destruct (validate_age _ _) as [d | a]; [do 2 eexists; reflexivity |].
    rewrite Hb. unfold validate_healthGoal.
    rewrite bool_decide_eq_false_2 by exact Hg.
    do 2 eexists. reflexivity.
Qed.

Lemma find_none_filter_nil {A : Type} (f : A -> bool) (l : list A) :
  find f l = None -> List.filter f l = [].
Proof.
  induction l as [| x l IH]; [reflexivity |].
  cbn [find List.filter]. destruct (f x); [discriminate | exact IH].
Qed.

Lemma count_email_snoc (email : string) (rows : list UserRow) (r : UserRow) :
  find_by_email email rows = None ->
  u_email r = email ->
  count_email email (rows ++ [r]) = 1.
Proof.
  intros Hfind Hr. unfold count_email, find_by_email in *.
  rewrite List.filter_app, (find_none_filter_nil _ _ Hfind).
  cbn [List.filter app]. rewrite Hr, String.eqb_refl. reflexivity.
Qed.

Section Accounts.

Variable P : Platform.

Lemma createUser_success (e : Env) (email password firstName lastName : string)
    (w w1 : World) (u : User) :
  createUser P e email password firstName lastName w = (inr u, w1) ->
  find_by_email email (users (db w)) = None
  /\ exists r, users (db w1) = users (db w) ++ [r] /\ u_email r = email.
Proof.
  unfold createUser, getUserByEmail, insert_user, find_by_email. run_M.
  destruct (db_fails e SelectUserByEmail); [discriminate |].
  destruct (find _ (users (db w))); [discriminate |].
  destruct (db_fails e InsertUser || existsb _ _); [discriminate |].
  cbn [db users]. intros H. inversion H; subst; clear H.
  split; [reflexivity |]. cbn [db users]. eexists. split; reflexivity.
Qed.

Lemma createUser_existing (e : Env) (email password firstName lastName : string)
    (w : World) (u : UserRow) :
  db_fails e SelectUserByEmail = false ->
  find_by_email email (users (db w)) = Some u ->
  createUser P e email password firstName lastName w =
  (inl "User with this email already exists", w).
Proof.
  intros Hf Hu. unfold createUser, getUserByEmail, find_by_email in *. run_M.
  rewrite Hf, Hu. reflexivity.
Qed.

(** [createUser] adds no row when a row with the email is there,
    whatever else fails. *)
Lemma createUser_no_second_row (e : Env) (email password firstName lastName : string)
    (w : World) (u : UserRow) :
  find_by_email email (users (db w)) = Some u ->
  exists err w',
    createUser P e email password firstName lastName w = (inl err, w')
    /\ db w' = db w.
Proof.
  intros Hu. unfold createUser, getUserByEmail, find_by_email in *. run_M.
  destruct (db_fails e SelectUserByEmail); [| rewrite Hu];
    do 2 eexists; split; reflexivity.
Qed.

Lemma find_by_email_snoc (email : string) (rows : list UserRow) (r : UserRow) :
  u_email r = email ->
  exists u, find_by_email email (rows ++ [r]) = Some u.
Proof.
  intros Hr. unfold find_by_email. induction rows as [| x rows IH]; cbn [app find].
  - rewrite Hr, String.eqb_refl. eauto.
  - destruct (String.eqb (u_email x) email); eauto.
Qed.

(** C6: when a registration has been answered 201, a second
    registration with the same email and any password the schema
    accepts is answered 409 with code EMAIL_EXISTS once the lookup of
    the email has run; whether or not that lookup fails, the second call
    leaves the [users] table as it was, with exactly one row for the
    email. *)
Theorem second_registration_conflicts (e1 e2 : Env) (req1 req2 : Request RegisterBody)
    (w w1 : World) (r1 : Response) (v1 v2 : RegisterValue) :
  registerSchema_validate (joi_email P) (body req1) = inr v1 ->
  post_register P e1 req1 w = (inr r1, w1) ->
  status r1 = 201%Z ->
  registerSchema_validate (joi_email P) (body req2) = inr v2 ->
  rv_email v2 = rv_email v1 ->
  (db_fails e2 SelectUserByEmail = false ->
   answer (post_register P e2 req2 w1) =
   Some (mkResponse 409
           (ErrorBody "An account with this email already exists" "EMAIL_EXISTS"
              None None)))
  /\ users (db (snd (post_register P e2 req2 w1))) = users (db w1)
  /\ count_email (rv_email v1) (users (db (snd (post_register P e2 req2 w1)))) = 1.
Proof.
  intros Hv1 Hrun1 H201 Hv2 Hemail.
  (* the first call went through [createUser] *)
  assert (find_by_email (rv_email v1) (users (db w)) = None
          /\ exists r, users (db w1) = users (db w) ++ [r] /\ u_email r = rv_email v1)
    as (Hfresh & r & Hrows & Hr).
  { revert Hrun1. unfold post_register. rewrite Hv1.
    unfold try_catch at 1, bind at 1. unfold logger at 1. unfold bind at 1.
    match goal with
    | |- context [createUser ?p ?e ?a ?b ?c ?d ?x] =>
        destruct (createUser p e a b c d x) as [[err | u] w'] eqn:Hc
    end.
    - run_M. destruct (includes err "already exists"); intros H; inversion H; subst;
        cbn [status] in H201; discriminate.
    - apply createUser_success in Hc. cbn [db] in Hc.
      run_M. intros H. inversion H; subst. cbn [db]. exact Hc. }
  destruct (find_by_email_snoc (rv_email v1) (users (db w)) r Hr) as (u & Hu).
  rewrite <- Hrows in Hu.
  assert (count_email (rv_email v1) (users (db w1)) = 1) as Hcount.
  { rewrite Hrows. apply count_email_snoc; assumption. }
  split; [| assert (users (db (snd (post_register P e2 req2 w1))) = users (db w1)) as Hsame].
  - intros Hf. unfold post_register. rewrite Hv2, Hemail.
    unfold try_catch at 1, bind at 1. unfold logger at 1. unfold bind at 1.
    rewrite (createUser_existing e2 _ _ _ _ _ u Hf) by exact Hu.
    reflexivity.
  - unfold post_register. rewrite Hv2, Hemail.
    unfold try_catch at 1, bind at 1. unfold logger at 1. unfold bind at 1.
    destruct (createUser_no_second_row e2 (rv_email v1) (rv_password v2)
                (or_empty (rv_firstName v2)) (or_empty (rv_lastName v2))
                (mkWorld (db w1) (dailyCounters w1)
                   (log w1 ++ [(Info, "User registration attempt:")])) u Hu)
      as (err & w' & -> & Hdb).
    run_M. destruct (includes err "already exists"); cbn [snd db]; rewrite Hdb; reflexivity.
  - split; [exact Hsame | rewrite Hsame; exact Hcount].
Qed.

End Accounts.

Section Login.

Variable P : Platform.

Lemma authenticateUser_unknown_email (e : Env) (email password : string) (w : World) :
  db_fails e SelectUserByEmail = false ->
  find_by_email email (users (db w)) = None ->
  authenticateUser P e email password w =
  (inl "Invalid email or password", logged Error "Authentication error:" w).
Proof.
  intros Hf Hu. unfold authenticateUser, getUserByEmail, find_by_email in *. run_M.
  rewrite Hf, Hu. reflexivity.
Qed.

Lemma authenticateUser_wrong_password (e : Env) (email password : string) (w : World)
    (u : UserRow) :
  db_fails e SelectUserByEmail = false ->
  find_by_email email (users (db w)) = Some u ->
  bcrypt_compare P password (u_password u) = false ->
  authenticateUser P e email password w =
  (inl "Invalid email or password", logged Error "Authentication error:" w).
Proof.
  intros Hf Hu Hc. unfold authenticateUser, getUserByEmail, comparePassword,
    find_by_email in *. run_M.
  rewrite Hf, Hu, Hc. reflexivity.
Qed.

Lemma authenticateUser_success (e : Env) (email password : string) (w : World)
    (u : UserRow) :
  db_fails e SelectUserByEmail = false ->
  find_by_email email (users (db w)) = Some u ->
  bcrypt_compare P password (u_password u) = true ->
  authenticateUser P e email password w = (inr (userWithoutPassword u), w).
Proof.
  intros Hf Hu Hc. unfold authenticateUser, getUserByEmail, comparePassword,
    find_by_email in *. run_M.
  rewrite Hf, Hu, Hc. reflexivity.
Qed.

Lemma post_login_invalid (e : Env) (req : Request LoginBody) (w : World) (v : LoginValue) :
  loginSchema_validate (joi_email P) (body req) = inr v ->
  fst (authenticateUser P e (lv_email v) (lv_password v)
         (logged Info "User login attempt:" w)) = inl "Invalid email or password" ->
  answer (post_login P e req w) =
  Some (mkResponse 401
          (ErrorBody "Invalid email or password" "INVALID_CREDENTIALS" None None)).
Proof.
  intros Hv Ha. unfold post_login. rewrite Hv.
  unfold try_catch at 1, bind at 1. unfold logger at 1. unfold bind at 1.
  fold (logged Info "User login attempt:" w).
  destruct (authenticateUser P e (lv_email v) (lv_password v) _) as [[err | u] w'].
  - cbn [fst] in Ha. inversion Ha; subst. reflexivity.
  - discriminate.
Qed.

(** C7: once the lookup of the email has run, [authenticateUser] fails
    when no row has the email and fails when the stored hash does not
    match the password, and the two failures are the same outcome: the
    same error message, the same line in the log, hence the same 401
    INVALID_CREDENTIALS from POST /auth/login.  When the hash matches it
    returns the user of the row that is stored under the email: the id,
    the email, the names and the two dates of that row, and nothing of
    its [password] field, a value in which the hash plays no part. *)
Theorem authenticateUser_uniform_failure (e : Env) (email password : string) (w : World) :
  db_fails e SelectUserByEmail = false ->
  (find_by_email email (users (db w)) = None ->
   authenticateUser P e email password w =
   (inl "Invalid email or password", logged Error "Authentication error:" w))
  /\ (forall u,
        find_by_email email (users (db w)) = Some u ->
        bcrypt_compare P password (u_password u) = false ->
        authenticateUser P e email password w =
        (inl "Invalid email or password", logged Error "Authentication error:" w))
  /\ (forall u,
        find_by_email email (users (db w)) = Some u ->
        bcrypt_compare P password (u_password u) = true ->
        authenticateUser P e email password w = (inr (userWithoutPassword u), w)
        /\ userWithoutPassword u =
           mkUser (u_id u) email (u_firstName u) (u_lastName u)
             (u_createdAt u) (Some (u_updatedAt u))
        /\ u ∈ users (db w)
        /\ u_email u = email
        /\ forall hash,
             userWithoutPassword
               (mkUserRow (u_id u) (u_email u) hash (u_firstName u) (u_lastName u)
                  (u_createdAt u) (u_updatedAt u)) = userWithoutPassword u)
  /\ (forall req,
        loginSchema_validate (joi_email P) (body req) =
          inr (mkLoginValue email password) ->
        (forall u, find_by_email email (users (db w)) = Some u ->
                   bcrypt_compare P password (u_password u) = false) ->
        answer (post_login P e req w) =
        Some (mkResponse 401
                (ErrorBody "Invalid email or password" "INVALID_CREDENTIALS" None None))).
Proof.
  intros Hf. split; [| split; [| split]].
  - intros Hu. apply authenticateUser_unknown_email; assumption.
  - intros u Hu Hc. apply (authenticateUser_wrong_password e email password w u); assumption.
  - intros u Hu Hc.
    assert (u ∈ users (db w) /\ u_email u = email) as (Hin & Hemail).
    { unfold find_by_email in Hu. apply find_some in Hu as (Hin & Heq).
      split; [apply list_elem_of_In; exact Hin | apply String.eqb_eq; exact Heq]. }
    split; [apply (authenticateUser_success e email password w u); assumption |].
    split; [unfold userWithoutPassword; rewrite Hemail; reflexivity |].
    split; [exact Hin |]. split; [exact Hemail | reflexivity].
  - intros req Hv Hbad. apply (post_login_invalid e req w _ Hv). cbn [lv_email lv_password].
    destruct (find_by_email email (users (db (logged Info "User login attempt:" w))))
      as [u |] eqn:Hu.
    + rewrite (authenticateUser_wrong_password e email password _ u Hf Hu); [reflexivity |].
      apply Hbad. exact Hu.
    + rewrite (authenticateUser_unknown_email e email password _ Hf Hu). reflexivity.
Qed.

End Login.

(** ** The code run on concrete requests *)

Example generateSuggestions_sleep_40 :
  generateSuggestions 40 "sleep" false [] =
  Own [ mkSuggestion "Deep Rest Peptide"
          "Promotes restful sleep and recovery. Supports healthy sleep cycles.";
        mkSuggestion "Circadian Balance Formula"
          "Helps regulate natural sleep-wake cycles and improves sleep quality.";
        mkSuggestion "Recovery Sleep Support" "Supports optimal sleep recovery." ].
Proof. vm_compute. reflexivity. Qed.

Example register_then_suggest :
  answer (route_post_suggestions sample_platform sample_env
            (suggestions_request (Some "Bearer good.jwt.token") 25 "energy")
            registered_world) =
  Some (mkResponse 200
          (SuggestionsBodyOk "3f2b8c1e"
             (generateSuggestions 25 "energy" true [])
             (mkMeta 2000 "energy" true 2000)))
  /\ map s_userId
       (user_suggestions
          (db (snd (route_post_suggestions sample_platform sample_env
                      (suggestions_request (Some "Bearer good.jwt.token") 25 "energy")
                      registered_world)))) = [1%Z].
Proof. split; vm_compute; reflexivity. Qed.

Example getUserSuggestions_most_recent_first :
  let row i t := mkSuggestionRow i 1 25 "energy" (StoredArray []) t in
  fst (getUserSuggestions sample_env 1 2
         (mkWorld (mkDb [] [row 1 100; row 2 300; row 3 200]%Z 0 3)
            (mkDailyCounters 0 ∅ 0 0) [])) =
  inr [ mkHistoryEntry 2 25 "energy" (StoredArray []) 300;
        mkHistoryEntry 3 25 "energy" (StoredArray []) 200 ].
Proof. vm_compute. reflexivity. Qed.

Lemma post_suggestions_three_records_witness :
  (18 <= 25 <= 120)%Z
  /\ "energy" ∈ health_goals
  /\ exists l meta w',
       route_post_suggestions sample_platform sample_env
         (suggestions_request (Some "Bearer good.jwt.token") (inject_Z 25) "energy")
         empty_world =
       (inr (mkResponse 200 (SuggestionsBodyOk (uuid sample_env) (Own l) meta)), w')
       /\ length l = 3
       /\ Forall well_formed l.
Proof.
  assert ((18 <= 25 <= 120)%Z) as Hn by lia.
  assert ("energy" ∈ health_goals) as Hg by (apply list_elem_of_here).
  split; [exact Hn | split; [exact Hg |]].
  exact (post_suggestions_three_records sample_platform sample_env empty_world
           (Some "Bearer good.jwt.token") 25 "energy" Hn Hg).
Defined.

Lemma anonymous_request_leaves_history_witness :
  exists suggestions meta w',
    route_post_suggestions sample_platform sample_env
      (suggestions_request None 40 "sleep") registered_world =
    (inr (mkResponse 200 (SuggestionsBodyOk (uuid sample_env) suggestions meta)), w')
    /\ authenticated meta = false
    /\ user_suggestions (db w') = user_suggestions (db registered_world)
    /\ db w' = db registered_world.
Proof.
  apply (anonymous_request_leaves_history sample_platform sample_env
           (suggestions_request None 40 "sleep") registered_world
           (mkSuggestionsValue 40 "sleep")).
  - reflexivity.
  - vm_compute. reflexivity.
Defined.

Lemma side_effect_failures_are_swallowed_witness :
  exists isAuthenticated meta,
    let ok := mkResponse 200
                (SuggestionsBodyOk "3f2b8c1e"
                   (generateSuggestions 25 "energy" isAuthenticated []) meta) in
    answer (route_post_suggestions sample_platform failing_env
              (suggestions_request (Some "Bearer good.jwt.token") 25 "energy")
              registered_world) = Some ok
    /\ answer (route_post_suggestions sample_platform sample_env
                 (suggestions_request (Some "Bearer good.jwt.token") 25 "energy")
                 registered_world) = Some ok
    /\ answer (route_post_suggestions sample_platform sample_env
                 (suggestions_request (Some "Bearer good.jwt.token") 25 "energy")
                 registered_world) = Some ok.
Proof.
  apply (side_effect_failures_are_swallowed sample_platform "3f2b8c1e" 2000
           (fun _ => true) (fun _ => false)
           (fun _ => Some "write EPIPE") (fun _ => None)
           (suggestions_request (Some "Bearer good.jwt.token") 25 "energy")
           registered_world (mkSuggestionsValue 25 "energy")).
  vm_compute. reflexivity.
Defined.

Lemma optionalAuth_never_rejects_witness :
  (exists req',
     optionalAuth sample_platform sample_env
       (mkRequest (Some "Bearer good.jwt.token") tt (Some stale_claims)) = Next req'
     /\ user req' = Some sample_claims)
  /\ (exists req',
        optionalAuth sample_platform sample_env
          (mkRequest (Some "Bearer forged.jwt.token") tt (Some stale_claims)) = Next req'
        /\ user req' = None)
  /\ (exists req',
        optionalAuth sample_platform sample_env
          (mkRequest (Some "Basic dXNlcjpwdw==") tt (Some stale_claims)) = Next req'
        /\ user req' = None).
Proof.
  split; [| split].
  - destruct (optionalAuth_never_rejects sample_platform sample_env
                (mkRequest (Some "Bearer good.jwt.token") tt (Some stale_claims)))
      as (req' & Hrun & _ & _ & _ & _ & _ & _ & Hok).
    exists req'. split; [exact Hrun |].
    apply (Hok "good.jwt.token" sample_claims).
    + reflexivity.
    + discriminate.
    + reflexivity.
    + intros nbf Hnbf. discriminate Hnbf.
    + intros exp Hexp. inversion Hexp; subst exp. vm_compute. reflexivity.
  - destruct (optionalAuth_never_rejects sample_platform sample_env
                (mkRequest (Some "Bearer forged.jwt.token") tt (Some stale_claims)))
      as (req' & Hrun & _ & _ & _ & _ & _ & Hfail & _).
    exists req'. split; [exact Hrun |].
    apply (Hfail TokenInvalidSignature). vm_compute. reflexivity.
  - destruct (optionalAuth_never_rejects sample_platform sample_env
                (mkRequest (Some "Basic dXNlcjpwdw==") tt (Some stale_claims)))
      as (req' & Hrun & _ & _ & _ & Hprefix & _).
    exists req'. split; [exact Hrun |].
    apply (Hprefix "Basic dXNlcjpwdw=="); reflexivity.
Defined.

Lemma verifyToken_failure_codes_witness :
  (exists msg w',
     route_get_verify sample_platform sample_env
       (mkRequest (Some "Bearer stale.jwt.token") tt None) empty_world =
     (inr (mkResponse 401 (ErrorBody msg "TOKEN_EXPIRED" None None)), w'))
  /\ (exists msg w',
        route_get_verify sample_platform sample_env
          (mkRequest (Some "Bearer garbled.jwt.token") tt None) empty_world =
        (inr (mkResponse 401 (ErrorBody msg "TOKEN_INVALID" None None)), w'))
  /\ (exists msg w',
        route_get_verify sample_platform sample_env
          (mkRequest (Some "Bearer headless.jwt.token") tt None) empty_world =
        (inr (mkResponse 401 (ErrorBody msg "TOKEN_MALFORMED" None None)), w')).
Proof.
  split; [| split].
  - apply (verifyToken_failure_codes sample_platform sample_env
             (mkRequest (Some "Bearer stale.jwt.token") tt None) empty_world TokenExpired).
    vm_compute. reflexivity.
  - apply (verifyToken_failure_codes sample_platform sample_env
             (mkRequest (Some "Bearer garbled.jwt.token") tt None) empty_world
             (TokenMalformed
                (Undecoded (PayloadNotJson "Unexpected token in JSON at position 0")))).
    vm_compute. reflexivity.
  - apply (verifyToken_failure_codes sample_platform sample_env
             (mkRequest (Some "Bearer headless.jwt.token") tt None) empty_world
             (TokenMalformed (Undecoded NoHeader))).
    vm_compute. reflexivity.
Defined.

Lemma generateSuggestions_unknown_goal_witness :
  generateSuggestions 25 "stamina" false [] = generateSuggestions 25 "energy" false []
  /\ exists msg field,
       route_post_suggestions sample_platform sample_env
         (suggestions_request None 25 "stamina") registered_world =
       (inr (mkResponse 400 (ErrorBody msg "VALIDATION_ERROR" (Some field) None)),
        registered_world).
Proof.
  assert ("stamina" ∉ health_goals) as Hg.
  { unfold health_goals. rewrite !not_elem_of_cons. repeat split; try discriminate.
    apply not_elem_of_nil. }
  assert ("stamina" ∉ Object_prototype) as Hp.
  { unfold Object_prototype. rewrite !not_elem_of_cons. repeat split; try discriminate.
    apply not_elem_of_nil. }
  destruct (generateSuggestions_unknown_goal 25 "stamina" false [] Hg Hp)
    as (Heq & _ & Hroute).
  split; [exact Heq |].
  apply (Hroute sample_platform sample_env (suggestions_request None 25 "stamina")
           registered_world).
  reflexivity.
Defined.

(** C2 as stated fails: a string that is no token, having not three
    segments, and a token signed with another key are in two of the four
    failure modes, and [GET /auth/verify] answers both with the code
    TOKEN_MALFORMED. *)
Lemma verifyToken_codes_not_distinct :
  token_failure sample_platform sample_env (Some "Bearer not-a-token")
    = Some (TokenMalformed (Undecoded NotThreeSegments))
  /\ token_failure sample_platform sample_env (Some "Bearer forged.jwt.token")
    = Some TokenInvalidSignature
  /\ answer (route_get_verify sample_platform sample_env
               (mkRequest (Some "Bearer not-a-token") tt None) empty_world)
     = Some (mkResponse 401 (ErrorBody "Malformed token" "TOKEN_MALFORMED" None None))
  /\ answer (route_get_verify sample_platform sample_env
               (mkRequest (Some "Bearer forged.jwt.token") tt None) empty_world)
     = Some (mkResponse 401 (ErrorBody "Malformed token" "TOKEN_MALFORMED" None None)).
Proof. repeat split; vm_compute; reflexivity. Qed.

Lemma second_registration_conflicts_witness :
  answer (post_register sample_platform sample_env
            (register_request "a@x.com" "Zyxwvu98") registered_world) =
  Some (mkResponse 409
          (ErrorBody "An account with this email already exists" "EMAIL_EXISTS"
             None None))
  /\ count_email "a@x.com"
       (users (db (snd (post_register sample_platform sample_env
                          (register_request "a@x.com" "Zyxwvu98") registered_world)))) = 1.
Proof.
  destruct (second_registration_conflicts sample_platform sample_env sample_env
              (register_request "a@x.com" "Abcdef12")
              (register_request "a@x.com" "Zyxwvu98")
              empty_world registered_world
              (mkResponse 201
                 (AuthBodyOk "User registered successfully"
                    (mkPublicUser 1 "a@x.com" EmptyString EmptyString) "good.jwt.token"))
              (mkRegisterValue "a@x.com" "Abcdef12" None None)
              (mkRegisterValue "a@x.com" "Zyxwvu98" None None))
    as (H409 & _ & Hcount).
  - vm_compute. reflexivity.
  - vm_compute. reflexivity.
  - reflexivity.
  - vm_compute. reflexivity.
  - reflexivity.
  - split; [apply H409; reflexivity | exact Hcount].
Defined.

Lemma authenticateUser_uniform_failure_witness :
  authenticateUser sample_platform sample_env "nobody@x.com" "Abcdef12" registered_world =
  (inl "Invalid email or password", logged Error "Authentication error:" registered_world)
  /\ authenticateUser sample_platform sample_env "a@x.com" "Wrong-pass1" registered_world =
  (inl "Invalid email or password", logged Error "Authentication error:" registered_world)
  /\ authenticateUser sample_platform sample_env "a@x.com" "Abcdef12" registered_world =
  (inr (mkUser 1 "a@x.com" EmptyString EmptyString 2000 (Some 2000%Z)), registered_world).
Proof.
  destruct (authenticateUser_uniform_failure sample_platform sample_env
              "nobody@x.com" "Abcdef12" registered_world eq_refl) as (Hnone & _).
  destruct (authenticateUser_uniform_failure sample_platform sample_env
              "a@x.com" "Wrong-pass1" registered_world eq_refl) as (_ & Hbad & _).
  destruct (authenticateUser_uniform_failure sample_platform sample_env
              "a@x.com" "Abcdef12" registered_world eq_refl) as (_ & _ & Hok & _).
  split; [| split].
  - apply Hnone. vm_compute. reflexivity.
  - apply (Hbad (mkUserRow 1 "a@x.com" "hash:Abcdef12" EmptyString EmptyString 2000 2000));
      vm_compute; reflexivity.
  - apply (Hok (mkUserRow 1 "a@x.com" "hash:Abcdef12" EmptyString EmptyString 2000 2000));
      vm_compute; reflexivity.
Defined.

(** * Further properties *)

(** ** Bearer tokens *)

Section MoreAuthentication.

Variable P : Platform.

Lemma verifyToken_identity {B : Type} (e : Env) (req : Request B) (w : World) :
  optionalAuth P e req = Next (set_user req (identity P e (authorization req)))
  /\ match identity P e (authorization req) with
     | Some decoded =>
         verifyToken P e req w = (inr (Next (set_user req (Some decoded))), w)
     | None =>
         exists msg code w',
           verifyToken P e req w =
           (inr (Respond (mkResponse 401 (ErrorBody msg code None None))), w')
           /\ db w' = db w
     end.
Proof.
  unfold identity, optionalAuth, verifyToken, verifyTokenDirect.
  destruct (no_bearer (authorization req)).
  - split; [reflexivity |]. run_M. do 3 eexists. split; reflexivity.
  - destruct (jwt_verify P _ _ _) as [err | decoded]; split; try reflexivity.
    run_M.
    destruct (String.eqb (err_name err) "TokenExpiredError");
      [| destruct (String.eqb (err_name err) "JsonWebTokenError")];
      do 3 eexists; split; reflexivity.
Qed.

(** X1: the three verifiers agree.  [optionalAuth] continues with the
    identity [verifyTokenDirect] finds in the bearer token; [verifyToken]
    continues with the same identity when there is one, without touching
    the world, and otherwise answers 401: it never answers 500 and never
    throws. *)
Theorem verifiers_agree {B : Type} (e : Env) (req : Request B) (w : World) :
  optionalAuth P e req = Next (set_user req (identity P e (authorization req)))
  /\ match identity P e (authorization req) with
     | Some decoded =>
         verifyToken P e req w = (inr (Next (set_user req (Some decoded))), w)
     | None =>
         exists msg code w',
           verifyToken P e req w =
           (inr (Respond (mkResponse 401 (ErrorBody msg code None None))), w')
           /\ db w' = db w
     end.
Proof. apply verifyToken_identity. Qed.

(** X2: a token that carries our signature, no [nbf] and the expiry
    [exp] is accepted by [GET /auth/verify] at every instant before
    [exp], with the identity of its claims, and is answered 401
    TOKEN_EXPIRED at [exp] and at every later instant. *)
Theorem token_lifetime (rid : string) (t : Z) (db_fails : DbCall -> bool)
    (analytics_fails : AnalyticsCall -> option string)
    (token : string) (claims : Claims) (exp : Z) (w : World) :
  token <> EmptyString ->
  jwt_decode P token = inr (mkJws claims (JWT_SECRET P)) ->
  c_nbf claims = None ->
  c_exp claims = Some exp ->
  let e := mkEnv rid t db_fails analytics_fails in
  let req := mkRequest (Some ("Bearer " +:+ token)) tt None in
  ((t < exp)%Z ->
   route_get_verify P e req w =
   (inr (mkResponse 200
           (VerifyBodyOk true
              (mkPublicUser (c_id claims) (c_email claims)
                 (c_firstName claims) (c_lastName claims)))), w))
  /\ ((exp <= t)%Z ->
      answer (route_get_verify P e req w) =
      Some (mkResponse 401 (ErrorBody "Token has expired" "TOKEN_EXPIRED" None None))).
Proof.
  intros Hne Hdec Hnbf Hexp e req.
  destruct (bearer_header token) as (Hnb & Htok).
  assert (String.eqb token EmptyString = false) as Hne' by (apply String.eqb_neq; exact Hne).
  unfold route_get_verify, verifyToken, jwt_verify, req.
  cbn [authorization]. rewrite Hnb, Htok, Hne', Hdec.
  cbn [jws_key jws_claims]. rewrite String.eqb_refl, Hnbf, Hexp. cbn [negb now e].
  split; intros Ht.
  - replace (exp <=? t)%Z with false by (symmetry; apply Z.leb_gt; lia).
    reflexivity.
  - replace (exp <=? t)%Z with true by (symmetry; apply Z.leb_le; lia).
    reflexivity.
Qed.

(** X3: the code TOKEN_INVALID is the default of [verifyToken].  It is
    answered exactly when [jwt.verify] fails on the bearer token with an
    error whose class is neither [TokenExpiredError] nor
    [JsonWebTokenError]: never for a missing header, and never with a
    status other than 401.  A token of ours that is not yet active
    ([nbf] in the future) gets it, expired or not, and so does a token
    whose payload is not JSON; a token signed with another key does not:
    it is answered as a malformed token. *)
Theorem token_invalid_is_the_default_code {B : Type} (e : Env) (req : Request B)
    (w : World) :
  let token := bearer_token (authorization req) in
  let invalid :=
    (inr (Respond (mkResponse 401 (ErrorBody "Invalid token" "TOKEN_INVALID" None None))),
     logged Warn "Invalid token attempt:" w) in
  ((exists status msg field rid w',
      verifyToken P e req w =
      (inr (Respond (mkResponse status (ErrorBody msg "TOKEN_INVALID" field rid))), w'))
   <->
   (no_bearer (authorization req) = false
    /\ exists err,
         jwt_verify P token (JWT_SECRET P) (now e) = inl err
         /\ err_name err <> "TokenExpiredError"
         /\ err_name err <> "JsonWebTokenError"))
  /\ ((exists status msg field rid w',
         verifyToken P e req w =
         (inr (Respond (mkResponse status (ErrorBody msg "TOKEN_INVALID" field rid))), w'))
      -> verifyToken P e req w = invalid)
  /\ (forall t nbf,
        no_bearer (authorization req) = false ->
        token <> EmptyString ->
        jwt_decode P token = inr t ->
        jws_key t = JWT_SECRET P ->
        c_nbf (jws_claims t) = Some nbf ->
        (now e < nbf)%Z ->
        verifyToken P e req w = invalid)
  /\ (forall message,
        no_bearer (authorization req) = false ->
        token <> EmptyString ->
        jwt_decode P token = inl (PayloadNotJson message) ->
        verifyToken P e req w = invalid)
  /\ (forall t,
        no_bearer (authorization req) = false ->
        token <> EmptyString ->
        jwt_decode P token = inr t ->
        jws_key t <> JWT_SECRET P ->
        verifyToken P e req w =
        (inr (Respond (mkResponse 401
                         (ErrorBody "Malformed token" "TOKEN_MALFORMED" None None))),
         logged Warn "Invalid token attempt:" w)).
Proof.
  cbn zeta.
  assert (forall err,
            no_bearer (authorization req) = false ->
            jwt_verify P (bearer_token (authorization req)) (JWT_SECRET P) (now e) = inl err ->
            verifyToken P e req w =
            (inr (Respond
                    (mkResponse 401
                       (if String.eqb (err_name err) "TokenExpiredError" then
                          ErrorBody "Token has expired" "TOKEN_EXPIRED" None None
                        else if String.eqb (err_name err) "JsonWebTokenError" then
                          ErrorBody "Malformed token" "TOKEN_MALFORMED" None None
                        else ErrorBody "Invalid token" "TOKEN_INVALID" None None))),
             logged Warn "Invalid token attempt:" w)) as Hfail.
  { intros err Hb Hv. unfold verifyToken. rewrite Hb, Hv. run_M. unfold logged.
    destruct (String.eqb (err_name err) "TokenExpiredError");
      [| destruct (String.eqb (err_name err) "JsonWebTokenError")]; reflexivity. }
  assert ((exists status msg field rid w',
             verifyToken P e req w =
             (inr (Respond (mkResponse status (ErrorBody msg "TOKEN_INVALID" field rid))),
              w')) ->
          no_bearer (authorization req) = false
          /\ exists err,
               jwt_verify P (bearer_token (authorization req)) (JWT_SECRET P) (now e)
               = inl err
               /\ err_name err <> "TokenExpiredError"
               /\ err_name err <> "JsonWebTokenError") as Honly.
  { intros (status & msg & field & rid & w' & H).
    destruct (no_bearer (authorization req)) eqn:Hb.
    { unfold verifyToken in H. rewrite Hb in H. run_M. inversion H. }
    split; [reflexivity |].
    destruct (jwt_verify P (bearer_token (authorization req)) (JWT_SECRET P) (now e))
      as [err | decoded] eqn:Hv.
    2: { unfold verifyToken in H. rewrite Hb, Hv in H. run_M. inversion H. }
    exists err. split; [reflexivity |].
    rewrite (Hfail err eq_refl eq_refl) in H.
    destruct (String.eqb (err_name err) "TokenExpiredError") eqn:H1;
      [inversion H |].
    destruct (String.eqb (err_name err) "JsonWebTokenError") eqn:H2;
      [inversion H |].
    split; apply String.eqb_neq; assumption. }
  assert (no_bearer (authorization req) = false
          /\ (exists err,
                jwt_verify P (bearer_token (authorization req)) (JWT_SECRET P) (now e)
                = inl err
                /\ err_name err <> "TokenExpiredError"
                /\ err_name err <> "JsonWebTokenError") ->
          verifyToken P e req w =
          (inr (Respond (mkResponse 401
                           (ErrorBody "Invalid token" "TOKEN_INVALID" None None))),
           logged Warn "Invalid token attempt:" w)) as Hif.
  { intros (Hb & err & Hv & H1 & H2).
    rewrite (Hfail err Hb Hv).
    apply String.eqb_neq in H1, H2. rewrite H1, H2. reflexivity. }
  split; [| split; [| split; [| split]]].
  - split; [exact Honly |].
    intros H. rewrite (Hif H). do 5 eexists. reflexivity.
  - intros H. apply Hif, Honly, H.
  - intros t nbf Hb Hne Hdec Hkey Hnbf Hlt. apply Hif. split; [exact Hb |].
    eexists. unfold jwt_verify. apply String.eqb_neq in Hne.
    rewrite Hne, Hdec, Hkey, String.eqb_refl, Hnbf. cbn [negb].
    replace (now e <? nbf)%Z with true by (symmetry; apply Z.ltb_lt; exact Hlt).
    split; [reflexivity |]. split; discriminate.
  - intros message Hb Hne Hdec. apply Hif. split; [exact Hb |].
    eexists. unfold jwt_verify. apply String.eqb_neq in Hne.
    rewrite Hne, Hdec. split; [reflexivity |]. split; discriminate.
  - intros t Hb Hne Hdec Hkey.
    rewrite (Hfail (mkJwtError "JsonWebTokenError" "invalid signature") Hb);
      [reflexivity |].
    unfold jwt_verify. apply String.eqb_neq in Hne, Hkey.
    rewrite Hne, Hdec, Hkey. reflexivity.
Qed.

End MoreAuthentication.

(** ** Accounts *)

Lemma find_by_email_none_notin (email : string) (rows : list UserRow) :
  find_by_email email rows = None -> ~ In email (map u_email rows).
Proof.
  unfold find_by_email. induction rows as [| x rows IH]; cbn [find map In]; [tauto |].
  destruct (String.eqb (u_email x) email) eqn:Hx; [discriminate |].
  intros H [Heq | Hin]; [| exact (IH H Hin)].
  apply String.eqb_neq in Hx. contradiction.
Qed.

Lemma find_by_email_some (email : string) (rows : list UserRow) (u : UserRow) :
  find_by_email email rows = Some u -> In u rows /\ u_email u = email.
Proof.
  unfold find_by_email. intros H. apply find_some in H as [Hin Heq].
  split; [exact Hin | apply String.eqb_eq; exact Heq].
Qed.

Lemma find_by_email_fresh_snoc (email : string) (rows : list UserRow) (r : UserRow) :
  find_by_email email rows = None ->
  u_email r = email ->
  find_by_email email (rows ++ [r]) = Some r.
Proof.
  unfold find_by_email. intros Hnone Hr.
  induction rows as [| x rows IH]; cbn [app find] in *.
  - rewrite Hr, String.eqb_refl. reflexivity.
  - destruct (String.eqb (u_email x) email); [discriminate | exact (IH Hnone)].
Qed.

Lemma NoDup_append_one {A : Type} (l : list A) (x : A) :
  NoDup l -> ~ In x l -> NoDup (l ++ [x]).
Proof.
  intros Hl Hx. apply NoDup_ListNoDup. apply NoDup_ListNoDup in Hl.
  induction Hl as [| y l Hy Hl IH]; cbn [app].
  - constructor; [intros [] | constructor].
  - constructor.
    + rewrite in_app_iff. cbn [In]. intros [H | [H | []]]; [exact (Hy H) |].
      subst. apply Hx. left. reflexivity.
    + apply IH. intros H. apply Hx. right. exact H.
Qed.

Section MoreAccounts.

Variable P : Platform.

(** Every run of [createUser]: either it rejects and leaves the world's
    database alone, or the email was free and it inserted its row. *)
Lemma createUser_effect (e : Env) (email password firstName lastName : string)
    (w : World) :
  (exists err w',
     createUser P e email password firstName lastName w = (inl err, w')
     /\ db w' = db w /\ dailyCounters w' = dailyCounters w)
  \/ (exists w',
        let r := new_user_row P e (db w) email password firstName lastName in
        createUser P e email password firstName lastName w =
        (inr (mkUser (u_id r) email firstName lastName (now e) None), w')
        /\ find_by_email email (users (db w)) = None
        /\ db w' = with_user (db w) r
        /\ dailyCounters w' = dailyCounters w).
Proof.
  unfold createUser, getUserByEmail, insert_user, find_by_email, hashPassword. run_M.
  destruct (db_fails e SelectUserByEmail).
  { left. do 2 eexists. repeat split. }
  destruct (find _ (users (db w))) eqn:Hfind.
  { left. do 2 eexists. repeat split. }
  destruct (db_fails e InsertUser || existsb _ _).
  { left. do 2 eexists. repeat split. }
  right. eexists. cbn zeta. repeat split.
Qed.

Lemma post_register_effect (e : Env) (req : Request RegisterBody) (w : World) :
  exists r w',
    post_register P e req w = (inr r, w')
    /\ dailyCounters w' = dailyCounters w
    /\ user_suggestions (db w') = user_suggestions (db w)
    /\ ((status r <> 201%Z /\ db w' = db w)
        \/ (status r = 201%Z
            /\ exists v,
                 registerSchema_validate (joi_email P) (body req) = inr v
                 /\ find_by_email (rv_email v) (users (db w)) = None
                 /\ db w' =
                    with_user (db w)
                      (new_user_row P e (db w) (rv_email v) (rv_password v)
                         (or_empty (rv_firstName v)) (or_empty (rv_lastName v))))).
Proof.
  unfold post_register.
  destruct (registerSchema_validate (joi_email P) (body req)) as [d | v].
  { run_M. do 2 eexists. repeat split. left. split; [discriminate | reflexivity]. }
  unfold try_catch at 1, bind at 1. unfold logger at 1. unfold bind at 1.
  match goal with
  | |- context [createUser ?p ?e ?a ?b ?c ?d ?x] =>
      destruct (createUser_effect e a b c d x)
        as [(err & w' & -> & Hdb & Hc) | (w' & Hrun & Hfresh & Hdb & Hc)]
  end.
  - cbn [db dailyCounters] in Hdb, Hc. run_M.
    destruct (includes err "already exists"); do 2 eexists;
      (split; [reflexivity |]); cbn [db dailyCounters]; rewrite Hdb, Hc;
      repeat split; left; (split; [discriminate | reflexivity]).
  - cbn zeta in Hrun. cbn [db dailyCounters] in Hrun, Hfresh, Hdb, Hc.
    rewrite Hrun. run_M. do 2 eexists. split; [reflexivity |].
    cbn [db dailyCounters status]. rewrite Hdb, Hc.
    split; [reflexivity |]. split; [reflexivity |].
    right. split; [reflexivity |]. exists v. repeat split. exact Hfresh.
Qed.

Lemma with_user_ok (e : Env) (d : Db) (email password firstName lastName : string) :
  store_ok d ->
  find_by_email email (users d) = None ->
  store_ok (with_user d (new_user_row P e d email password firstName lastName)).
Proof.
  intros (Hemails & Hids & Hbound & Hsids & Hsbound) Hfresh.
  unfold store_ok, with_user, new_user_row.
  cbn [users user_suggestions users_seq user_suggestions_seq u_id u_email].
  rewrite !map_app. cbn [map u_id u_email].
  repeat split.
  - apply NoDup_append_one; [exact Hemails | apply find_by_email_none_notin; exact Hfresh].
  - apply NoDup_append_one; [exact Hids |].
    intros Hin. apply in_map_iff in Hin as (u & Hu & Hin).
    rewrite List.Forall_forall in Hbound. specialize (Hbound u Hin). lia.
  - apply List.Forall_app. split.
    + eapply List.Forall_impl; [| exact Hbound]. cbn beta. intros u Hu. lia.
    + constructor; [cbn [u_id]; lia | constructor].
  - exact Hsids.
  - exact Hsbound.
Qed.

(** X4: [POST /auth/register] always answers.  When the answer is not
    201 the database is the one it was; when it is 201 the email was
    free and exactly one row was appended to [users]: the next [id] of
    the sequence, the email and names of the request, the bcrypt hash of
    the password.  The history table and the counters are never
    touched. *)
Theorem register_inserts_only_on_201 (e : Env) (req : Request RegisterBody) (w : World) :
  exists r w',
    post_register P e req w = (inr r, w')
    /\ dailyCounters w' = dailyCounters w
    /\ user_suggestions (db w') = user_suggestions (db w)
    /\ ((status r <> 201%Z /\ db w' = db w)
        \/ (status r = 201%Z
            /\ exists v,
                 registerSchema_validate (joi_email P) (body req) = inr v
                 /\ find_by_email (rv_email v) (users (db w)) = None
                 /\ db w' =
                    with_user (db w)
                      (new_user_row P e (db w) (rv_email v) (rv_password v)
                         (or_empty (rv_firstName v)) (or_empty (rv_lastName v))))).
Proof. apply post_register_effect. Qed.

(** X5: registration keeps the constraints of the tables: after any
    [POST /auth/register], whatever it answers and whatever fails, no two
    rows of [users] share an email or an [id], and no [id] is above the
    sequence. *)
Theorem register_keeps_store_ok (e : Env) (req : Request RegisterBody) (w : World) :
  store_ok (db w) ->
  store_ok (db (snd (post_register P e req w))).
Proof.
  intros Hok.
  destruct (post_register_effect e req w)
    as (r & w' & -> & _ & _ & [(_ & Hdb) | (_ & v & _ & Hfresh & Hdb)]);
    cbn [snd]; rewrite Hdb; [exact Hok |].
  apply with_user_ok; assumption.
Qed.

End MoreAccounts.

Lemma required_string_ok (key msg : string) (rules : string -> option ValidationDetail)
    (v : option json) (s : string) :
  required_string key msg rules v = inr s ->
  v = Some (JString s) /\ s <> EmptyString /\ rules s = None.
Proof.
  unfold required_string. destruct v as [[| | | s' |] |]; try discriminate.
  destruct (String.eqb s' EmptyString) eqn:He; [discriminate |].
  destruct (rules s') eqn:Hr; [discriminate |].
  intros H. inversion H; subst. repeat split; [| exact Hr].
  apply String.eqb_neq. exact He.
Qed.

Lemma registerSchema_accepts (valid : string -> bool) (b : RegisterBody)
    (v : RegisterValue) :
  registerSchema_validate valid b = inr v ->
  valid (rv_email v) = true
  /\ rv_email v <> EmptyString
  /\ rv_password v <> EmptyString
  /\ (8 <= String.length (rv_password v))%nat
  /\ password_pattern (rv_password v) = true.
Proof.
  unfold registerSchema_validate.
  destruct (required_string "email" _ _ _) as [| em] eqn:He; [discriminate |].
  destruct (required_string "password" _ _ _) as [| pw] eqn:Hp; [discriminate |].
  destruct (optional_name "firstName" _ _); [discriminate |].
  destruct (optional_name "lastName" _ _); [discriminate |].
  destruct (reg_unknown b); [| discriminate].
  intros H. inversion H; subst. cbn [rv_email rv_password].
  apply required_string_ok in He as (_ & Hne & Hrule).
  apply required_string_ok in Hp as (_ & Hpne & Hprule).
  unfold email_rules in Hrule. destruct (valid em) eqn:Hv; [| discriminate].
  unfold password_rules in Hprule.
  destruct (String.length pw <? 8)%nat eqn:Hlen; [discriminate |].
  destruct (password_pattern pw); [| discriminate].
  apply Nat.ltb_ge in Hlen. repeat split; assumption.
Qed.

Lemma loginSchema_accepts (valid : string -> bool) (email password : string) :
  valid email = true -> email <> EmptyString -> password <> EmptyString ->
  loginSchema_validate valid (body (login_request email password)) =
  inr (mkLoginValue email password).
Proof.
  intros Hv He Hp. apply String.eqb_neq in He. apply String.eqb_neq in Hp.
  unfold loginSchema_validate, login_request, required_string, email_rules.
  cbn [body login_email login_password login_unknown].
  rewrite He, Hv, Hp. reflexivity.
Qed.

Section MoreLogin.

Variable P : Platform.

(** Every run of [authenticateUser] leaves the database and the
    counters alone. *)
Lemma authenticateUser_reads (e : Env) (email password : string) (w : World) :
  exists r w',
    authenticateUser P e email password w = (r, w')
    /\ db w' = db w /\ dailyCounters w' = dailyCounters w.
Proof.
  unfold authenticateUser, getUserByEmail, comparePassword. run_M.
  destruct (db_fails e SelectUserByEmail); [do 2 eexists; repeat split |].
  destruct (find _ (users (db w))) as [u |]; [| do 2 eexists; repeat split].
  destruct (bcrypt_compare P password (u_password u)); do 2 eexists; repeat split.
Qed.

Lemma post_login_effect (e : Env) (req : Request LoginBody) (w : World) :
  exists r w',
    post_login P e req w = (inr r, w')
    /\ db w' = db w
    /\ dailyCounters w' = dailyCounters w
    /\ (status r = 200 \/ status r = 400 \/ status r = 401 \/ status r = 500)%Z.
Proof.
  unfold post_login.
  destruct (loginSchema_validate (joi_email P) (body req)) as [d | v].
  { run_M. do 2 eexists. repeat split. right. left. reflexivity. }
  unfold try_catch at 1, bind at 1. unfold logger at 1. unfold bind at 1.
  match goal with
  | |- context [authenticateUser ?p ?e ?a ?b ?x] =>
      destruct (authenticateUser_reads e a b x) as ([err | u] & w' & -> & Hdb & Hc)
  end; cbn [db dailyCounters] in Hdb, Hc; run_M.
  - destruct (includes err "Invalid email or password"); do 2 eexists;
      (split; [reflexivity |]); cbn [db dailyCounters status]; rewrite Hdb, Hc;
      repeat split; auto.
  - do 2 eexists. split; [reflexivity |]. cbn [db dailyCounters status].
    rewrite Hdb, Hc. repeat split; auto.
Qed.

(** X6: [POST /auth/login] always answers, with 200, 400, 401 or 500,
    and only reads: the database and the counters after it are the ones
    before it. *)
Theorem login_only_reads (e : Env) (req : Request LoginBody) (w : World) :
  exists r w',
    post_login P e req w = (inr r, w')
    /\ db w' = db w
    /\ dailyCounters w' = dailyCounters w
    /\ (status r = 200 \/ status r = 400 \/ status r = 401 \/ status r = 500)%Z.
Proof. apply post_login_effect. Qed.

(** X7: after a registration answered 201, and while the lookup of the
    email runs, logging in with the registered email and password is
    answered 200 with the [id] and names that were registered, provided
    bcrypt accepts the password against its own hash; logging in with
    any password bcrypt does not accept against that hash is answered
    401 INVALID_CREDENTIALS. *)
Theorem register_then_login (e1 e2 : Env) (req1 : Request RegisterBody)
    (w w1 : World) (r1 : Response) (v1 : RegisterValue) :
  registerSchema_validate (joi_email P) (body req1) = inr v1 ->
  post_register P e1 req1 w = (inr r1, w1) ->
  status r1 = 201%Z ->
  db_fails e2 SelectUserByEmail = false ->
  let u := mkUser (users_seq (db w) + 1) (rv_email v1)
             (or_empty (rv_firstName v1)) (or_empty (rv_lastName v1))
             (now e1) (Some (now e1)) in
  (bcrypt_compare P (rv_password v1) (bcrypt_hash P (rv_password v1)) = true ->
   answer (post_login P e2 (login_request (rv_email v1) (rv_password v1)) w1) =
   Some (mkResponse 200
           (AuthBodyOk "Login successful" (public_user u) (generateToken P e2 u))))
  /\ (forall password,
        password <> EmptyString ->
        bcrypt_compare P password (bcrypt_hash P (rv_password v1)) = false ->
        answer (post_login P e2 (login_request (rv_email v1) password) w1) =
        Some (mkResponse 401
                (ErrorBody "Invalid email or password" "INVALID_CREDENTIALS"
                   None None))).
Proof.
  intros Hv1 Hrun H201 Hf u.
  destruct (registerSchema_accepts _ _ _ Hv1) as (Hvalid & Hne & Hpne & _ & _).
  destruct (post_register_effect P e1 req1 w)
    as (r & w' & Hrun' & _ & _ & [(Hnot & _) | (_ & v & Hv & Hfresh & Hdb)]);
    rewrite Hrun in Hrun'; inversion Hrun'; subst r w'; [contradiction |].
  rewrite Hv1 in Hv. inversion Hv; subst v. clear Hv Hrun'.
  set (row := new_user_row P e1 (db w) (rv_email v1) (rv_password v1)
                (or_empty (rv_firstName v1)) (or_empty (rv_lastName v1))) in *.
  assert (forall w0, db w0 = db w1 ->
            find_by_email (rv_email v1) (users (db w0)) = Some row) as Hfind.
  { intros w0 ->. rewrite Hdb. unfold with_user. cbn [users].
    apply find_by_email_fresh_snoc; [exact Hfresh | reflexivity]. }
  assert (forall password, password <> EmptyString ->
            post_login P e2 (login_request (rv_email v1) password) w1 =
            try_catch
              (logger Info "User login attempt:" ;;;
               u0 <- authenticateUser P e2 (rv_email v1) password ;;
               let token := generateToken P e2 u0 in
               logger Info "User logged in successfully:" ;;;
               ret (mkResponse 200 (AuthBodyOk "Login successful" (public_user u0) token)))
              (fun error =>
                 logger Error "Login error:" ;;;
                 if includes error "Invalid email or password" then
                   ret (mkResponse 401
                          (ErrorBody "Invalid email or password" "INVALID_CREDENTIALS"
                             None None))
                 else
                   ret (mkResponse 500
                          (ErrorBody "Login failed. Please try again." "LOGIN_ERROR"
                             None None))) w1) as Hlogin.
  { intros password Hp. unfold post_login.
    rewrite (loginSchema_accepts _ _ _ Hvalid Hne Hp). reflexivity. }
  split.
  - intros Hc. rewrite (Hlogin _ Hpne).
    unfold try_catch at 1, bind at 1. unfold logger at 1. unfold bind at 1.
    fold (logged Info "User login attempt:" w1).
    rewrite (authenticateUser_success P e2 _ _ _ row Hf (Hfind (logged Info "User login attempt:" w1) eq_refl) Hc).
    reflexivity.
  - intros password Hp Hc. rewrite (Hlogin _ Hp).
    unfold try_catch at 1, bind at 1. unfold logger at 1. unfold bind at 1.
    fold (logged Info "User login attempt:" w1).
    rewrite (authenticateUser_wrong_password P e2 _ _ _ row Hf (Hfind (logged Info "User login attempt:" w1) eq_refl) Hc).
    reflexivity.
Qed.

End MoreLogin.

(** ** Suggestions *)

Lemma is_integer_floor (q : Q) : is_integer q = true -> (q == inject_Z (Qfloor q))%Q.
Proof.
  unfold is_integer. intros H. apply Qeq_bool_iff in H.
  assert (q == inject_Z (js_trunc q))%Q as Hq.
  { apply Qplus_inj_r with (z := (- q)%Q). rewrite Qplus_opp_r. symmetry. exact H. }
  rewrite Hq at 2. rewrite Qfloor_Z. exact Hq.
Qed.

Lemma js_lt_false (a b : Q) : js_lt a b = false -> (b <= a)%Q.
Proof.
  unfold js_lt. intros H. apply negb_false_iff in H. apply Qle_bool_iff. exact H.
Qed.

Lemma age_rules_accepts (q a : Q) :
  age_rules q = inr a ->
  a = q /\ exists n : Z, (18 <= n <= 120)%Z /\ (a == inject_Z n)%Q.
Proof.
  unfold age_rules.
  destruct (js_gt q MAX_SAFE_INTEGER || js_lt q (- MAX_SAFE_INTEGER)); [discriminate |].
  destruct (is_integer q) eqn:Hint; [| discriminate]. cbn [negb].
  destruct (js_lt q 18) eqn:Hmin; [discriminate |].
  destruct (js_gt q 120) eqn:Hmax; [discriminate |].
  intros H. inversion H; subst a. split; [reflexivity |].
  apply is_integer_floor in Hint. apply js_lt_false in Hmin. apply js_lt_false in Hmax.
  exists (Qfloor q). split; [| exact Hint].
  rewrite Hint in Hmin, Hmax.
  change 18%Q with (inject_Z 18) in Hmin. change 120%Q with (inject_Z 120) in Hmax.
  rewrite <- Zle_Qle in Hmin, Hmax. lia.
Qed.

(** What [suggestionsSchema] lets through. *)
Lemma suggestionsSchema_accepts (coerce : string -> Coerced) (b : SuggestionsBody)
    (v : SuggestionsValue) :
  suggestionsSchema_validate coerce b = inr v ->
  (exists n : Z, (18 <= n <= 120)%Z /\ (v_age v == inject_Z n)%Q)
  /\ v_healthGoal v ∈ health_goals
  /\ body_healthGoal b = Some (JString (v_healthGoal v))
  /\ body_unknown b = [].
Proof.
  unfold suggestionsSchema_validate.
  destruct (validate_age coerce (body_age b)) as [| a] eqn:Ha; [discriminate |].
  destruct (validate_healthGoal (body_healthGoal b)) as [| g] eqn:Hg; [discriminate |].
  destruct (body_unknown b); [| discriminate].
  intros H. inversion H; subst v. cbn [v_age v_healthGoal].
  split; [| split; [| split; [| reflexivity]]].
  - unfold validate_age in Ha.
    destruct (body_age b) as [[| | q | s |] |]; try discriminate.
    + apply age_rules_accepts in Ha as (_ & Hn). exact Hn.
    + destruct (coerce s); try discriminate.
      apply age_rules_accepts in Ha as (_ & Hn). exact Hn.
  - unfold validate_healthGoal in Hg.
    destruct (body_healthGoal b) as [[| | | s |] |]; try discriminate.
    destruct (bool_decide (s ∈ health_goals)) eqn:Hs; [| discriminate].
    inversion Hg; subst. apply bool_decide_eq_true_1 in Hs. exact Hs.
  - unfold validate_healthGoal in Hg.
    destruct (body_healthGoal b) as [[| | | s |] |]; try discriminate.
    destruct (bool_decide (s ∈ health_goals)); [| discriminate].
    inversion Hg; subst. reflexivity.
Qed.

Lemma bind_eq {A B : Type} (m : M A) (k : A -> M B) (w : World) :
  bind m k w =
  match m w with
  | (inl err, w') => (inl err, w')
  | (inr a, w') => k a w'
  end.
Proof. reflexivity. Qed.

Lemma try_catch_eq {A : Type} (m : M A) (h : string -> M A) (w : World) :
  try_catch m h w =
  match m w with
  | (inl err, w') => h err w'
  | (inr a, w') => (inr a, w')
  end.
Proof. reflexivity. Qed.

(** The three guarded steps of the handler, one at a time. *)
Lemma fetch_history_step (e : Env) (userId : Z) (w : World) :
  exists h w1,
    try_catch (getUserSuggestions e userId 5)
      (fun error => logger Warn "Failed to fetch user history:" ;;; ret []) w =
    (inr h, w1)
    /\ db w1 = db w /\ dailyCounters w1 = dailyCounters w.
Proof.
  unfold getUserSuggestions. run_M.
  destruct (db_fails e SelectSuggestions); do 2 eexists; repeat split.
Qed.

Lemma analytics_step (e : Env) (goal : string) (w : World) :
  exists w1,
    try_catch (logSuccessfulRequest e ;;; logGoalSelection e goal)
      (fun error => logger Error "Analytics logging failed:") w =
    (inr tt, w1)
    /\ db w1 = db w
    /\ dailyCounters w1 = counters_after e goal (dailyCounters w).
Proof.
  unfold logSuccessfulRequest, logGoalSelection, counters_after. run_M.
  destruct (analytics_fails e LogSuccessfulRequest),
    (analytics_fails e LogGoalSelection); eexists; repeat split.
Qed.

Lemma save_step (e : Env) (userId : Z) (age : Q) (goal : string)
    (s : jsprop (list Suggestion)) (w : World) :
  exists w1,
    try_catch
      (saveSuggestion e userId age goal s ;;;
       logger Info "Suggestion saved to user history:")
      (fun error => logger Error "Failed to save suggestion to history:") w =
    (inr tt, w1)
    /\ db w1 =
       (if db_fails e InsertSuggestion then db w
        else match JSON_stringify s with
             | None => db w
             | Some j =>
                 with_suggestion (db w)
                   (mkSuggestionRow (user_suggestions_seq (db w) + 1) userId age goal j
                      (now e))
             end)
    /\ dailyCounters w1 = dailyCounters w.
Proof.
  unfold saveSuggestion, with_suggestion. run_M.
  destruct (db_fails e InsertSuggestion); [eexists; repeat split |].
  destruct (JSON_stringify s); eexists; repeat split.
Qed.

Lemma post_suggestions_effect (e : Env) (req : Request SuggestionsValue) (w : World) :
  exists w',
    post_suggestions e req w = (inr (suggestions_ok e req), w')
    /\ db w' = db_after e req (db w)
    /\ dailyCounters w' = counters_after e (v_healthGoal (body req)) (dailyCounters w).
Proof.
  unfold post_suggestions, suggestions_ok, db_after.
  destruct req as [auth [age goal] [u|]]; cbn [user body v_age v_healthGoal truthy].
  - rewrite try_catch_eq, bind_eq. unfold logger at 1. cbn beta iota.
    rewrite bind_eq.
    match goal with
    | |- context [try_catch (getUserSuggestions ?e ?i 5) ?h ?x] =>
        destruct (fetch_history_step e i x) as (hist & w1 & -> & Hdb1 & Hc1)
    end.
    cbn [db dailyCounters] in Hdb1, Hc1.
    rewrite bind_eq.
    destruct (analytics_step e goal w1) as (w2 & -> & Hdb2 & Hc2).
    cbv zeta. rewrite bind_eq.
    destruct (save_step e (c_id u) age goal (generateSuggestions age goal true hist) w2)
      as (w3 & -> & Hdb3 & Hc3).
    rewrite bind_eq. unfold logger at 1. cbn beta iota. unfold ret.
    eexists. split; [reflexivity |]. cbn [db dailyCounters].
    rewrite Hdb3, Hc3, Hdb2, Hc2, Hdb1, Hc1. split; reflexivity.
  - rewrite try_catch_eq, bind_eq. unfold logger at 1. cbn beta iota.
    rewrite bind_eq. unfold ret at 1. cbn beta iota.
    rewrite bind_eq.
    match goal with
    | |- context [try_catch (logSuccessfulRequest ?e ;;; logGoalSelection ?e ?g) ?h ?x] =>
        destruct (analytics_step e g x) as (w2 & -> & Hdb2 & Hc2)
    end.
    cbn [db dailyCounters] in Hdb2, Hc2.
    cbv zeta. rewrite bind_eq. unfold ret at 1. cbn beta iota.
    rewrite bind_eq. unfold logger at 1. cbn beta iota. unfold ret.
    eexists. split; [reflexivity |]. cbn [db dailyCounters].
    rewrite Hdb2, Hc2. split; reflexivity.
Qed.

Lemma health_goal_not_inherited (g : string) :
  g ∈ health_goals -> g ∉ Object_prototype.
Proof.
  intros Hg. apply health_goals_cases in Hg.
  unfold Object_prototype. rewrite !not_elem_of_cons.
  destruct Hg as [-> | [-> | [-> | [-> | [-> | ->]]]]];
    repeat split; try discriminate; apply not_elem_of_nil.
Qed.

Lemma bump_count (goal : string) (m : gmap string Count) :
  goal ∉ Object_prototype ->
  count_of (bump goal m) goal = S (count_of m goal)
  /\ forall g, g <> goal -> bump goal m !! g = m !! g.
Proof.
  intros Hg. unfold bump, js_get, count_of.
  rewrite (bool_decide_eq_false_2 _ Hg).
  destruct (m !! goal) as [[[| n] |] |] eqn:Hm;
    rewrite lookup_insert_eq; (split; [reflexivity |]);
    intros g Hne; apply lookup_insert_ne; congruence.
Qed.

Section MoreSuggestions.

Variable P : Platform.

Lemma optionalAuth_identity {B : Type} (e : Env) (req : Request B) :
  optionalAuth P e req = Next (set_user req (identity P e (authorization req))).
Proof.
  unfold optionalAuth, identity, verifyTokenDirect.
  destruct (no_bearer (authorization req)); [reflexivity |].
  destruct (jwt_verify P _ _ _); reflexivity.
Qed.

(** The route, case by case on what the schema says. *)
Lemma route_post_suggestions_cases (e : Env) (req : Request SuggestionsBody) (w : World) :
  match suggestionsSchema_validate (joi_number_coerce P) (body req) with
  | inl d =>
      route_post_suggestions P e req w =
      (inr (mkResponse 400
              (ErrorBody (d_message d) "VALIDATION_ERROR" (Some (d_path d)) None)), w)
  | inr v =>
      let req' := mkRequest (authorization req) v (identity P e (authorization req)) in
      exists w',
        route_post_suggestions P e req w = (inr (suggestions_ok e req'), w')
        /\ db w' = db_after e req' (db w)
        /\ dailyCounters w' = counters_after e (v_healthGoal v) (dailyCounters w)
  end.
Proof.
  unfold route_post_suggestions, validateSuggestionsRequest.
  rewrite optionalAuth_identity. cbn [set_user body].
  destruct (suggestionsSchema_validate _ _) as [d | v]; [reflexivity |].
  cbn zeta. apply post_suggestions_effect.
Qed.

(** X8: whatever the request and whatever fails, POST /suggestions
    answers either 400 VALIDATION_ERROR with the first error of the
    schema, leaving the world as it was, or 200 with an array of exactly
    three records with non-empty [name] and [description], the accepted
    goal as [goalCategory] and [authenticated] telling whether the
    bearer token verified.  It never answers 500. *)
Theorem post_suggestions_400_or_three_records (e : Env) (req : Request SuggestionsBody)
    (w : World) :
  (exists d,
     suggestionsSchema_validate (joi_number_coerce P) (body req) = inl d
     /\ route_post_suggestions P e req w =
        (inr (mkResponse 400
                (ErrorBody (d_message d) "VALIDATION_ERROR" (Some (d_path d)) None)), w))
  \/ (exists v l w',
        suggestionsSchema_validate (joi_number_coerce P) (body req) = inr v
        /\ route_post_suggestions P e req w =
           (inr (mkResponse 200
                   (SuggestionsBodyOk (uuid e) (Own l)
                      (mkMeta (now e) (v_healthGoal v)
                         (truthy (identity P e (authorization req))) (now e)))), w')
        /\ length l = 3
        /\ Forall well_formed l).
Proof.
  pose proof (route_post_suggestions_cases e req w) as H.
  destruct (suggestionsSchema_validate _ _) as [d | v] eqn:Hv.
  - left. exists d. split; [reflexivity | exact H].
  - right. cbn zeta in H. destruct H as (w' & Hrun & _).
    destruct (suggestionsSchema_accepts _ _ _ Hv) as (_ & Hg & _).
    destruct (generateSuggestions_known (v_age v) (v_healthGoal v)
                (truthy (identity P e (authorization req))) [] Hg)
      as (l & Hl & Hlen & Hwf).
    exists v, l, w'. split; [reflexivity |]. split; [| split; assumption].
    rewrite Hrun. unfold suggestions_ok. cbn [body user v_age v_healthGoal].
    rewrite Hl. reflexivity.
Qed.

(** X9: a request the schema accepts whose bearer token verifies adds
    exactly one row to [user_suggestions] when the insert works: the
    next [id] of the sequence, the [id] of the token's claims, the age
    and goal of the request and the very array sent in the answer.  When
    the insert fails the database is the one it was.  [users] is never
    touched. *)
Theorem authenticated_request_saves_one_row (e : Env) (req : Request SuggestionsBody)
    (w : World) (v : SuggestionsValue) (u : Claims) :
  suggestionsSchema_validate (joi_number_coerce P) (body req) = inr v ->
  identity P e (authorization req) = Some u ->
  exists l meta w',
    route_post_suggestions P e req w =
    (inr (mkResponse 200 (SuggestionsBodyOk (uuid e) (Own l) meta)), w')
    /\ db w' =
       (if db_fails e InsertSuggestion then db w
        else with_suggestion (db w)
               (mkSuggestionRow (user_suggestions_seq (db w) + 1) (c_id u)
                  (v_age v) (v_healthGoal v) (StoredArray l) (now e))).
Proof.
  intros Hv Hu.
  pose proof (route_post_suggestions_cases e req w) as H.
  rewrite Hv, Hu in H. cbn zeta in H. destruct H as (w' & Hrun & Hdb & _).
  destruct (suggestionsSchema_accepts _ _ _ Hv) as (_ & Hg & _).
  destruct (generateSuggestions_known (v_age v) (v_healthGoal v) true [] Hg)
    as (l & Hl & _).
  exists l. eexists. exists w'. split.
  - rewrite Hrun. unfold suggestions_ok. cbn [body user v_age v_healthGoal truthy].
    rewrite Hl. reflexivity.
  - rewrite Hdb. unfold db_after. cbn [user body v_age v_healthGoal].
    rewrite Hl. reflexivity.
Qed.

(** X10: every request the schema accepts adds exactly one to
    [requests] and to [successfulRequests] and leaves [errors] alone,
    whatever fails; unless the first analytics write fails, the counter
    of the selected goal goes up by exactly one and the counters of the
    other goals keep their values.  A rejected request changes no
    counter. *)
Theorem accepted_request_counts_once (e : Env) (req : Request SuggestionsBody)
    (w : World) :
  let c := dailyCounters w in
  let c' := dailyCounters (snd (route_post_suggestions P e req w)) in
  match suggestionsSchema_validate (joi_number_coerce P) (body req) with
  | inl _ => c' = c
  | inr v =>
      requests c' = S (requests c)
      /\ successfulRequests c' = S (successfulRequests c)
      /\ errors c' = errors c
      /\ match analytics_fails e LogSuccessfulRequest with
         | Some _ => goalSelections c' = goalSelections c
         | None =>
             count_of (goalSelections c') (v_healthGoal v) =
             S (count_of (goalSelections c) (v_healthGoal v))
             /\ forall g, g <> v_healthGoal v ->
                  goalSelections c' !! g = goalSelections c !! g
         end
  end.
Proof.
  cbn zeta.
  pose proof (route_post_suggestions_cases e req w) as H.
  destruct (suggestionsSchema_validate _ _) as [d | v] eqn:Hv.
  - rewrite H. reflexivity.
  - cbn zeta in H. destruct H as (w' & -> & _ & Hc). cbn [snd]. rewrite Hc.
    unfold counters_after.
    cbn [requests successfulRequests errors goalSelections].
    repeat split.
    destruct (analytics_fails e LogSuccessfulRequest); [reflexivity |].
    apply bump_count. apply health_goal_not_inherited.
    destruct (suggestionsSchema_accepts _ _ _ Hv) as (_ & Hg & _). exact Hg.
Qed.

End MoreSuggestions.

(** ** The history of a user *)

Lemma insert_desc_perm (r : SuggestionRow) (l : list SuggestionRow) :
  Permutation (insert_desc r l) (r :: l).
Proof.
  induction l as [| x l IH]; cbn [insert_desc]; [reflexivity |].
  destruct (s_createdAt x <=? s_createdAt r)%Z; [reflexivity |].
  rewrite IH. apply perm_swap.
Qed.

Lemma order_by_createdAt_desc_perm (l : list SuggestionRow) :
  Permutation (order_by_createdAt_desc l) l.
Proof.
  unfold order_by_createdAt_desc. induction l as [| x l IH]; cbn [fold_right]; [reflexivity |].
  rewrite insert_desc_perm. constructor. exact IH.
Qed.

Lemma insert_desc_sorted (r : SuggestionRow) (l : list SuggestionRow) :
  StronglySorted not_older l -> StronglySorted not_older (insert_desc r l).
Proof.
  induction 1 as [| x l Hl IH Hx]; cbn [insert_desc].
  - repeat constructor.
  - destruct (s_createdAt x <=? s_createdAt r)%Z eqn:Hle.
    + apply Z.leb_le in Hle. constructor; [constructor; assumption |].
      constructor; [exact Hle |].
      eapply List.Forall_impl; [| exact Hx]. unfold not_older. cbn beta. intros y Hy. lia.
    + apply Z.leb_gt in Hle. constructor; [exact IH |].
      apply (Permutation_Forall (Permutation_sym (insert_desc_perm r l))).
      constructor; [unfold not_older; lia | exact Hx].
Qed.

Lemma order_by_createdAt_desc_sorted (l : list SuggestionRow) :
  StronglySorted not_older (order_by_createdAt_desc l).
Proof.
  unfold order_by_createdAt_desc. induction l as [| x l IH]; cbn [fold_right].
  - constructor.
  - apply insert_desc_sorted. exact IH.
Qed.

Lemma StronglySorted_split {A : Type} (R : A -> A -> Prop) (l : list A) (n : nat) :
  StronglySorted R l ->
  StronglySorted R (firstn n l)
  /\ forall a b, In a (firstn n l) -> In b (skipn n l) -> R a b.
Proof.
  intros Hl. revert n. induction Hl as [| x l Hl IH Hx]; intros [| n];
    cbn [firstn skipn]; try solve [split; [constructor | intros a b []]].
  destruct (IH n) as (Hs & Hsplit). split.
  - constructor; [exact Hs |].
    rewrite List.Forall_forall in *. intros y Hy. apply Hx.
    rewrite <- (firstn_skipn n l). apply in_or_app. left. exact Hy.
  - intros a b [<- | Ha] Hb.
    + rewrite List.Forall_forall in Hx. apply Hx.
      rewrite <- (firstn_skipn n l). apply in_or_app. right. exact Hb.
    + apply Hsplit; assumption.
Qed.

(** What [getUserSuggestions] answers when the statement runs. *)
Lemma getUserSuggestions_run (e : Env) (userId : Z) (limit : nat) (w : World) :
  db_fails e SelectSuggestions = false ->
  getUserSuggestions e userId limit w =
  (inr (map entry_of (firstn limit (order_by_createdAt_desc (rows_of userId (db w))))), w).
Proof.
  intros Hf. unfold getUserSuggestions. rewrite Hf. reflexivity.
Qed.

Lemma getUserSuggestions_spec (e : Env) (userId : Z) (limit : nat) (w : World) :
  db_fails e SelectSuggestions = false ->
  exists returned omitted,
    getUserSuggestions e userId limit w = (inr (map entry_of returned), w)
    /\ Permutation (returned ++ omitted) (rows_of userId (db w))
    /\ length returned = Nat.min limit (length (rows_of userId (db w)))
    /\ Forall (fun r => In r (user_suggestions (db w)) /\ s_userId r = userId) returned
    /\ StronglySorted not_older returned
    /\ (forall a b, In a returned -> In b omitted -> not_older a b).
Proof.
  intros Hf.
  set (sorted := order_by_createdAt_desc (rows_of userId (db w))).
  exists (firstn limit sorted), (skipn limit sorted).
  pose proof (order_by_createdAt_desc_perm (rows_of userId (db w))) as Hperm.
  fold sorted in Hperm.
  destruct (StronglySorted_split not_older sorted limit
              (order_by_createdAt_desc_sorted _)) as (Hs & Hsplit).
  split; [apply getUserSuggestions_run; exact Hf |].
  split; [rewrite firstn_skipn; exact Hperm |].
  split; [rewrite length_firstn, (Permutation_length Hperm); reflexivity |].
  split; [| split; assumption].
  rewrite List.Forall_forall. intros r Hr.
  assert (In r (rows_of userId (db w))) as Hin.
  { apply (Permutation_in _ Hperm). rewrite <- (firstn_skipn limit sorted).
    apply in_or_app. left. exact Hr. }
  unfold rows_of in Hin. apply filter_In in Hin as (Hin & Hu).
  split; [exact Hin | apply Z.eqb_eq; exact Hu].
Qed.

(** X11: when the statement runs, [getUserSuggestions] leaves the world
    alone and returns rows of that user only, at most [limit] of them
    and all of them when the user has no more than [limit], the most
    recent first; the rows it leaves out are no more recent than any it
    returns. *)
Theorem getUserSuggestions_most_recent (e : Env) (userId : Z) (limit : nat) (w : World) :
  db_fails e SelectSuggestions = false ->
  exists returned omitted,
    getUserSuggestions e userId limit w = (inr (map entry_of returned), w)
    /\ Permutation (returned ++ omitted) (rows_of userId (db w))
    /\ length returned = Nat.min limit (length (rows_of userId (db w)))
    /\ Forall (fun r => In r (user_suggestions (db w)) /\ s_userId r = userId) returned
    /\ StronglySorted not_older returned
    /\ (forall a b, In a returned -> In b omitted -> not_older a b).
Proof. apply getUserSuggestions_spec. Qed.

Section MoreHistory.

Variable P : Platform.

Lemma route_get_auth_suggestions_run (e : Env) (parsed : option Z) (req : Request unit)
    (w : World) (u : Claims) :
  identity P e (authorization req) = Some u ->
  db_fails e SelectSuggestions = false ->
  let entries :=
    map entry_of
      (firstn (sql_limit (limit_or_default parsed) w)
         (order_by_createdAt_desc (rows_of (c_id u) (db w)))) in
  route_get_auth_suggestions P e parsed req w =
  (inr (HistoryOk entries (length entries)), w).
Proof.
  intros Hu Hf. cbn zeta.
  pose proof (verifyToken_identity P e req w) as (_ & Hv). rewrite Hu in Hv.
  unfold route_get_auth_suggestions. rewrite bind_eq, Hv.
  unfold get_auth_suggestions. cbn [user set_user].
  rewrite try_catch_eq, bind_eq. unfold get_world at 1. cbn beta iota.
  rewrite bind_eq, (getUserSuggestions_run e _ _ w Hf). reflexivity.
Qed.

(** X12: [GET /auth/suggestions] with a bearer token that verifies,
    while the statement runs: the answer is 200 with rows of the token's
    user only and [total] their number, the world is left alone; the
    list is empty when the user has no row; it holds at most [limit]
    rows when [limit] is positive and at most 10 when [limit] is 0 or no
    number, and all the rows of the user when [limit] is negative. *)
Theorem history_route_lists_own_rows (e : Env) (parsed : option Z) (req : Request unit)
    (w : World) (u : Claims) :
  identity P e (authorization req) = Some u ->
  db_fails e SelectSuggestions = false ->
  exists returned,
    route_get_auth_suggestions P e parsed req w =
    (inr (HistoryOk (map entry_of returned) (length returned)), w)
    /\ Forall (fun r => In r (user_suggestions (db w)) /\ s_userId r = c_id u) returned
    /\ (rows_of (c_id u) (db w) = [] -> returned = [])
    /\ (forall n, parsed = Some n -> (0 < n)%Z -> (Z.of_nat (length returned) <= n)%Z)
    /\ (parsed = None \/ parsed = Some 0%Z -> length returned <= 10)
    /\ (forall n, parsed = Some n -> (n < 0)%Z ->
          length returned = length (rows_of (c_id u) (db w))).
Proof.
  intros Hu Hf.
  pose proof (route_get_auth_suggestions_run e parsed req w u Hu Hf) as Hrun.
  cbn zeta in Hrun. rewrite length_map in Hrun.
  set (limit := sql_limit (limit_or_default parsed) w) in *.
  destruct (getUserSuggestions_spec e (c_id u) limit w Hf)
    as (returned & omitted & Hget & Hperm & Hlen & Hown & _).
  rewrite (getUserSuggestions_run e _ _ w Hf) in Hget.
  assert (map entry_of (firstn limit (order_by_createdAt_desc (rows_of (c_id u) (db w))))
          = map entry_of returned) as Heq by congruence.
  assert (length (firstn limit (order_by_createdAt_desc (rows_of (c_id u) (db w))))
          = length returned) as Hlen'.
  { rewrite <- (length_map entry_of), Heq, length_map. reflexivity. }
  exists returned. rewrite Hrun, Heq, Hlen'.
  split; [reflexivity |]. split; [exact Hown |]. split; [| split; [| split]].
  - intros Hnone. rewrite Hnone in Hlen. cbn [length] in Hlen.
    rewrite Nat.min_0_r in Hlen. destruct returned; [reflexivity | discriminate].
  - intros n -> Hn. unfold limit, sql_limit, limit_or_default in Hlen.
    destruct n as [| p | p]; try lia.
    replace (Z.pos p <? 0)%Z with false in Hlen by (symmetry; apply Z.ltb_ge; lia).
    lia.
  - intros [-> | ->]; unfold limit, sql_limit, limit_or_default in Hlen;
      cbn in Hlen; lia.
  - intros n -> Hn. unfold limit, sql_limit, limit_or_default in Hlen.
    destruct n as [| p | p]; try lia.
    replace (Z.neg p <? 0)%Z with true in Hlen by (symmetry; apply Z.ltb_lt; lia).
    assert (length (rows_of (c_id u) (db w)) <= length (user_suggestions (db w))) as Hle
      by (unfold rows_of; apply List.filter_length_le).
    lia.
Qed.

(** X13: the first suggestion of a user shows up in the user's history.
    When a user without any row posts a request the schema accepts with
    a token that verifies and the insert works, a following
    [GET /auth/suggestions] with a token of the same user, whatever its
    [limit], lists exactly one entry: the age and goal of the request
    and the array that was sent in the answer. *)
Theorem first_suggestion_is_listed (e1 e2 : Env) (req : Request SuggestionsBody)
    (req2 : Request unit) (parsed : option Z) (w : World) (v : SuggestionsValue)
    (u : Claims) :
  suggestionsSchema_validate (joi_number_coerce P) (body req) = inr v ->
  identity P e1 (authorization req) = Some u ->
  db_fails e1 InsertSuggestion = false ->
  rows_of (c_id u) (db w) = [] ->
  identity P e2 (authorization req2) = Some u ->
  db_fails e2 SelectSuggestions = false ->
  exists l meta w1,
    route_post_suggestions P e1 req w =
    (inr (mkResponse 200 (SuggestionsBodyOk (uuid e1) (Own l) meta)), w1)
    /\ route_get_auth_suggestions P e2 parsed req2 w1 =
       (inr (HistoryOk
               [ mkHistoryEntry (user_suggestions_seq (db w) + 1) (v_age v)
                   (v_healthGoal v) (StoredArray l) (now e1) ] 1), w1).
Proof.
  intros Hv Hu Hins Hnone Hu2 Hsel.
  pose proof (route_post_suggestions_cases P e1 req w) as H.
  rewrite Hv, Hu in H. cbn zeta in H. destruct H as (w1 & Hrun & Hdb & _).
  destruct (suggestionsSchema_accepts _ _ _ Hv) as (_ & Hg & _).
  destruct (generateSuggestions_known (v_age v) (v_healthGoal v) true [] Hg)
    as (l & Hl & _).
  unfold db_after in Hdb. cbn [user body v_age v_healthGoal] in Hdb.
  rewrite Hins, Hl in Hdb. cbn [JSON_stringify] in Hdb.
  exists l. eexists. exists w1. split.
  { rewrite Hrun. unfold suggestions_ok. cbn [body user v_age v_healthGoal truthy].
    rewrite Hl. reflexivity. }
  rewrite (route_get_auth_suggestions_run e2 parsed req2 w1 u Hu2 Hsel).
  set (row := mkSuggestionRow (user_suggestions_seq (db w) + 1) (c_id u) (v_age v)
                (v_healthGoal v) (StoredArray l) (now e1)) in *.
  assert (rows_of (c_id u) (db w1) = [row]) as Hrows.
  { unfold rows_of in *. rewrite Hdb. unfold with_suggestion. cbn [user_suggestions].
    rewrite List.filter_app, Hnone. cbn [List.filter app s_userId row].
    rewrite Z.eqb_refl. reflexivity. }
  rewrite Hrows.
  assert (sql_limit (limit_or_default parsed) w1 = S (pred (sql_limit (limit_or_default parsed) w1)))
    as Hpos.
  { unfold sql_limit, limit_or_default. rewrite Hdb. unfold with_suggestion.
    cbn [user_suggestions]. rewrite length_app. cbn [length].
    destruct parsed as [[| p | p] |]; cbn; lia. }
  rewrite Hpos. unfold order_by_createdAt_desc.
  cbn [fold_right insert_desc firstn]. rewrite firstn_nil. reflexivity.
Qed.

End MoreHistory.

(** ** The goals route, the other generator, the validation middleware *)

(** X14: [GET /suggestions/goals] lists exactly the values the schema
    accepts for [healthGoal], in the order of the schema, each with a
    non-empty label, and each of them is a key of the table of
    [generateSuggestions] with a list of its own. *)
Theorem goals_are_the_accepted_values :
  map fst goals = health_goals
  /\ Forall (fun g => snd g <> EmptyString) goals
  /\ (forall g age isAuthenticated h,
        In g (map fst goals) ->
        validate_healthGoal (Some (JString g)) = inr g
        /\ exists l, generateSuggestions age g isAuthenticated h = Own l
                     /\ suggestions_table age isAuthenticated !! g = Some l).
Proof.
  split; [reflexivity |]. split.
  - unfold goals. repeat (apply List.Forall_cons; [cbn [snd]; discriminate |]).
    apply List.Forall_nil.
  - intros g age b h Hg.
    assert (g ∈ health_goals) as Hg'.
    { apply list_elem_of_In. exact Hg. }
    split; [apply validate_healthGoal_known; exact Hg' |].
    destruct (generateSuggestions_known age g b h Hg') as (l & Hl & _).
    exists l. split; [exact Hl |].
    unfold generateSuggestions, js_or, js_get in Hl.
    destruct (suggestions_table age b !! g) as [l' |] eqn:Hlook; [congruence |].
    exfalso. clear Hl. apply health_goals_cases in Hg'.
    destruct Hg' as [-> | [-> | [-> | [-> | [-> | ->]]]]];
      revert Hlook; unfold suggestions_table;
      rewrite ?lookup_insert_ne by discriminate;
      rewrite ?lookup_insert_eq; discriminate.
Qed.

(** X15: the personalised generator returns under [suggestions] what
    [generateSuggestions] returns, whatever the history; it carries a
    [personalization] exactly when the caller is authenticated; and the
    history shows in its answer only through its length and the goal of
    its first entry, and not at all for an anonymous caller. *)
Theorem personalized_uses_history_only_for_the_note (e : Env) (age : Q) (goal : string)
    (isAuthenticated : bool) (h1 h2 : list HistoryEntry) :
  Personalized.suggestions
    (Personalized.generateSuggestions e age goal isAuthenticated h1) =
  generateSuggestions age goal isAuthenticated h2
  /\ (Personalized.personalization
        (Personalized.generateSuggestions e age goal isAuthenticated h1) = None
      <-> isAuthenticated = false)
  /\ (isAuthenticated = false ->
      Personalized.generateSuggestions e age goal isAuthenticated h1 =
      Personalized.generateSuggestions e age goal isAuthenticated h2)
  /\ (length h1 = length h2 ->
      option_map h_healthGoal (head h1) = option_map h_healthGoal (head h2) ->
      Personalized.generateSuggestions e age goal isAuthenticated h1 =
      Personalized.generateSuggestions e age goal isAuthenticated h2).
Proof.
  unfold Personalized.generateSuggestions. destruct isAuthenticated;
    cbn [Personalized.suggestions Personalized.personalization Personalized.title
         Personalized.disclaimer Personalized.generatedAt].
  - split; [reflexivity |]. split; [split; discriminate |].
    split; [discriminate |].
    intros Hlen Hhead. rewrite Hlen.
    destruct h1, h2; cbn [head option_map] in Hhead; try discriminate; congruence.
  - repeat split; reflexivity.
Qed.

Lemma js_lt_iff (a b : Q) : js_lt a b = true <-> (a < b)%Q.
Proof.
  unfold js_lt. rewrite negb_true_iff. split.
  - intros H. apply Qnot_le_lt. intros Hle. apply Qle_bool_iff in Hle. congruence.
  - intros H. destruct (Qle_bool b a) eqn:Hle; [| reflexivity].
    apply Qle_bool_iff in Hle. exfalso. exact (Qlt_not_le _ _ H Hle).
Qed.

(** X16: [validateProductionConstraints] leaves at most two warnings,
    and none exactly when the age is from 21 to 70, at least 25 for the
    goal "recovery" and at least 30 for the goal "longevity". *)
Theorem production_warnings (b : ConstraintsBody) :
  length (validateProductionConstraints b) <= 2
  /\ (validateProductionConstraints b = [] <->
      (21 <= cb_age b)%Q /\ (cb_age b <= 70)%Q
      /\ (cb_goal b = "recovery" -> (25 <= cb_age b)%Q)
      /\ (cb_goal b = "longevity" -> (30 <= cb_age b)%Q)).
Proof.
  unfold validateProductionConstraints. cbn zeta. unfold js_gt.
  destruct (String.eqb (cb_goal b) "recovery") eqn:Hrec;
    destruct (String.eqb (cb_goal b) "longevity") eqn:Hlon;
    [ apply String.eqb_eq in Hrec; apply String.eqb_eq in Hlon; congruence
    | apply String.eqb_eq in Hrec; apply String.eqb_neq in Hlon
    | apply String.eqb_neq in Hrec; apply String.eqb_eq in Hlon
    | apply String.eqb_neq in Hrec; apply String.eqb_neq in Hlon ];
    destruct (js_lt (cb_age b) 21) eqn:H21; destruct (js_lt 70 (cb_age b)) eqn:H70;
    destruct (js_lt (cb_age b) 25) eqn:H25; destruct (js_lt (cb_age b) 30) eqn:H30;
    repeat match goal with
           | H : js_lt _ _ = true |- _ => apply js_lt_iff in H
           | H : js_lt _ _ = false |- _ => apply js_lt_false in H
           end;
    try (exfalso; lra);
    cbn [andb app length];
    (split; [lia |]);
    (split;
     [ try discriminate; intros _; repeat split; try lra; intros; congruence
     | try reflexivity; intros (Hlo & Hhi & Hr & Hl);
       try (specialize (Hr Hrec)); try (specialize (Hl Hlon)); exfalso; lra ]).
Qed.

Lemma validateRateLimit_client (maxRequests : nat) (timeWindow : Z) (ip : option string)
    (now : Z) (requestCounts : gmap string ClientData) :
  validateRateLimit maxRequests timeWindow ip now requestCounts =
  let live :=
    filter (fun kv => ~ (timeWindow < now - cd_firstRequest (snd kv))%Z) requestCounts in
  match live !! client_id ip with
  | None => (LimiterNext, <[client_id ip := mkClientData 1 now]> live)
  | Some clientData =>
      if (timeWindow <? now - cd_firstRequest clientData)%Z then
        (LimiterNext, <[client_id ip := mkClientData 1 now]> live)
      else (LimiterThrows "maxRequets is not defined", live)
  end.
Proof. reflexivity. Qed.

(** X17: the rate limiter of [middleware/validation.js].  A client with
    no entry younger than the window is let through and gets the entry
    (1, now).  A client with such an entry is never let through, never
    counted and never answered 429: the call throws, because the
    comparison with the limit reads an undeclared name, whatever
    [maxRequests] is.  Entries older than the window are dropped, the
    entries of the other clients are otherwise left alone, and no entry
    ever counts past 1. *)
Theorem rate_limiter_throws_on_second_request (maxRequests : nat) (timeWindow : Z)
    (ip : option string) (now : Z) (requestCounts : gmap string ClientData) :
  let live d := (now - cd_firstRequest d <= timeWindow)%Z in
  let result := validateRateLimit maxRequests timeWindow ip now requestCounts in
  match requestCounts !! client_id ip with
  | Some d =>
      if decide (live d) then
        fst result = LimiterThrows "maxRequets is not defined"
        /\ snd result !! client_id ip = Some d
      else
        fst result = LimiterNext
        /\ snd result !! client_id ip = Some (mkClientData 1 now)
  | None =>
      fst result = LimiterNext
      /\ snd result !! client_id ip = Some (mkClientData 1 now)
  end
  /\ (forall k, k <> client_id ip ->
        snd result !! k =
        match requestCounts !! k with
        | Some d => if decide (live d) then Some d else None
        | None => None
        end)
  /\ (map_Forall (fun _ d => cd_count d = 1) requestCounts ->
      map_Forall (fun _ d => cd_count d = 1) (snd result)).
Proof.
  cbn zeta. rewrite validateRateLimit_client. cbn zeta.
  set (P := fun kv : string * ClientData =>
              ~ (timeWindow < now - cd_firstRequest (snd kv))%Z).
  assert (forall k, filter P requestCounts !! k =
                    match requestCounts !! k with
                    | Some d =>
                        if decide (now - cd_firstRequest d <= timeWindow)%Z
                        then Some d else None
                    | None => None
                    end) as Hlive.
  { intros k. destruct (requestCounts !! k) as [d |] eqn:Hk.
    - destruct (decide (now - cd_firstRequest d <= timeWindow)%Z) as [Hd | Hd].
      + apply map_lookup_filter_Some. split; [exact Hk |]. unfold P. cbn [snd]. lia.
      + apply map_lookup_filter_None. right. intros d' Hd'.
        rewrite Hk in Hd'. inversion Hd'; subst d'. unfold P. cbn [snd]. lia.
    - apply map_lookup_filter_None. left. exact Hk. }
  split; [| split].
  - rewrite (Hlive (client_id ip)).
    destruct (requestCounts !! client_id ip) as [d |] eqn:Hk.
    + destruct (decide (now - cd_firstRequest d <= timeWindow)%Z) as [Hd | Hd].
      * replace (timeWindow <? now - cd_firstRequest d)%Z with false
          by (symmetry; apply Z.ltb_ge; lia).
        cbn [fst snd]. split; [reflexivity |].
        rewrite Hlive, Hk. destruct (decide _); [reflexivity | contradiction].
      * cbn [fst snd]. split; [reflexivity | apply lookup_insert_eq].
    + cbn [fst snd]. split; [reflexivity | apply lookup_insert_eq].
  - intros k Hk. rewrite <- Hlive.
    destruct (filter P requestCounts !! client_id ip) as [d |];
      [destruct (timeWindow <? now - cd_firstRequest d)%Z |]; cbn [snd];
      rewrite ?lookup_insert_ne by congruence; reflexivity.
  - intros Hone.
    assert (map_Forall (fun _ d => cd_count d = 1) (filter P requestCounts)) as Hf.
    { intros k d Hd. apply map_lookup_filter_Some in Hd as (Hd & _).
      exact (Hone k d Hd). }
    destruct (filter P requestCounts !! client_id ip) as [d |];
      [destruct (timeWindow <? now - cd_firstRequest d)%Z |]; cbn [snd];
      try exact Hf; apply map_Forall_insert_2; try exact Hf; reflexivity.
Qed.

Section MoreStore.

Variable P : Platform.

Lemma with_suggestion_ok (d : Db) (r : SuggestionRow) :
  store_ok d ->
  s_id r = (user_suggestions_seq d + 1)%Z ->
  store_ok (with_suggestion d r).
Proof.
  intros (Hemails & Hids & Hbound & Hsids & Hsbound) Hr.
  unfold store_ok, with_suggestion.
  cbn [users user_suggestions users_seq user_suggestions_seq].
  rewrite !map_app. cbn [map].
  repeat split; try assumption.
  - apply NoDup_append_one; [exact Hsids |].
    intros Hin. apply in_map_iff in Hin as (x & Hx & Hin).
    rewrite List.Forall_forall in Hsbound. specialize (Hsbound x Hin). lia.
  - apply List.Forall_app. split.
    + eapply List.Forall_impl; [| exact Hsbound]. cbn beta. intros x Hx. lia.
    + constructor; [lia | constructor].
Qed.

(** X18: POST /suggestions keeps the constraints of the tables, whatever
    it answers and whatever fails: [users] and its sequence are the ones
    they were, the [id]s of [user_suggestions] stay distinct and none is
    above the sequence. *)
Theorem suggestions_keep_store_ok (e : Env) (req : Request SuggestionsBody) (w : World) :
  store_ok (db w) ->
  store_ok (db (snd (route_post_suggestions P e req w)))
  /\ users (db (snd (route_post_suggestions P e req w))) = users (db w)
  /\ users_seq (db (snd (route_post_suggestions P e req w))) = users_seq (db w).
Proof.
  intros Hok.
  pose proof (route_post_suggestions_cases P e req w) as H.
  destruct (suggestionsSchema_validate _ _) as [d | v].
  - rewrite H. cbn [snd]. split; [exact Hok | split; reflexivity].
  - cbn zeta in H. destruct H as (w' & Hrun & Hdb & _). rewrite Hrun. cbn [snd].
    rewrite Hdb. unfold db_after. cbn [user body v_age v_healthGoal].
    destruct (identity P e (authorization req)) as [u |];
      [| split; [exact Hok | split; reflexivity]].
    destruct (db_fails e InsertSuggestion); [split; [exact Hok | split; reflexivity] |].
    destruct (JSON_stringify _); [| split; [exact Hok | split; reflexivity]].
    split; [| split; reflexivity].
    apply with_suggestion_ok; [exact Hok | reflexivity].
Qed.

End MoreStore.

(** ** The analytics file *)

Lemma Set_add_NoDup (x : string) (s : list string) : NoDup s -> NoDup (Set_add x s).
Proof.
  intros Hs. unfold Set_add. destruct (bool_decide (x ∈ s)) eqn:Hx; [exact Hs |].
  apply bool_decide_eq_false_1 in Hx.
  apply NoDup_app. split; [exact Hs |]. split.
  - intros y Hy Hin. apply list_elem_of_singleton in Hin. subst. contradiction.
  - apply NoDup_singleton.
Qed.

Lemma Set_add_In (x : string) (s : list string) : x ∈ Set_add x s.
Proof.
  unfold Set_add. destruct (bool_decide (x ∈ s)) eqn:Hx.
  - apply bool_decide_eq_true_1 in Hx. exact Hx.
  - apply elem_of_app. right. apply list_elem_of_singleton. reflexivity.
Qed.

Lemma Set_from_NoDup (l : list string) : NoDup (Set_from l).
Proof.
  unfold Set_from.
  assert (forall acc, NoDup acc -> NoDup (fold_left (fun s x => Set_add x s) l acc)) as H.
  { induction l as [| x l IH]; intros acc Hacc; cbn [fold_left]; [exact Hacc |].
    apply IH. apply Set_add_NoDup. exact Hacc. }
  apply H. constructor.
Qed.

Lemma apply_event_consistent (clock : Z) (eventType : string) (data : EventData)
    (d d' : DayData) :
  day_consistent d ->
  apply_event clock eventType data d = Some d' ->
  day_consistent d'.
Proof.
  intros (Htot & Hips & Herr). unfold apply_event, day_consistent.
  destruct (String.eqb eventType "goalSelection").
  { intros H. inversion H; subst d'. cbn. repeat split; assumption. }
  destruct (String.eqb eventType "successfulRequest").
  { destruct data; intros H; inversion H; subst d'; cbn;
      (repeat split; [lia | apply Set_add_NoDup; exact Hips | exact Herr]). }
  destruct (String.eqb eventType "failedRequest").
  { destruct data; intros H; inversion H; subst d'; cbn;
      (repeat split;
       [ lia | apply Set_add_NoDup; exact Hips
       | rewrite length_app; cbn [length]; lia ]). }
  intros H. inversion H; subst d'. repeat split; assumption.
Qed.

Lemma prune_lookup (cutoffDate : string) (a : gmap string DayData) (k : string) :
  prune cutoffDate a !! k = if string_ltb k cutoffDate then None else a !! k.
Proof.
  unfold prune. destruct (string_ltb k cutoffDate) eqn:Hk.
  - apply map_lookup_filter_None. right. intros d _. cbn [fst]. congruence.
  - destruct (a !! k) as [d |] eqn:Ha.
    + apply map_lookup_filter_Some. split; [exact Ha | exact Hk].
    + apply map_lookup_filter_None. left. exact Ha.
Qed.

(** Every call, case by case: the file is the one it was, or it is the
    pruned file, with the record of the date replaced unless the date
    names an inherited member. *)
Lemma updateDailyAnalytics_cases (clock : Z) (cutoffDate : string) (write_fails : bool)
    (date eventType : string) (data : EventData) (file : option (gmap string DayData)) :
  let file' := updateDailyAnalytics clock cutoffDate write_fails date eventType data file in
  file' = file
  \/ (write_fails = false /\ date ∈ Object_prototype
      /\ default ∅ file !! date = None
      /\ file' = Some (prune cutoffDate (default ∅ file)))
  \/ (exists d',
        write_fails = false
        /\ apply_event clock eventType data
             (mkDayData (dd_date (day_of file date)) (dd_totalRequests (day_of file date))
                (dd_successfulRequests (day_of file date))
                (dd_failedRequests (day_of file date))
                (dd_goalSelections (day_of file date)) (dd_errors (day_of file date))
                (dd_averageResponseTime (day_of file date))
                (Set_from (dd_uniqueIPs (day_of file date)))
                (dd_firstRequest (day_of file date)) (dd_lastRequest (day_of file date)))
           = Some d'
        /\ file' = Some (prune cutoffDate (<[date := d']> (default ∅ file)))).
Proof.
  cbn zeta. unfold updateDailyAnalytics, js_get, day_of, getEmptyDayData. cbn zeta.
  destruct (default ∅ file !! date) as [d |] eqn:Hd.
  - destruct (apply_event _ _ _ _) as [d' |] eqn:He; [| left; reflexivity].
    destruct write_fails; [left; reflexivity |].
    right. right. exists d'. repeat split.
  - destruct (bool_decide (date ∈ Object_prototype)) eqn:Hp.
    + apply bool_decide_eq_true_1 in Hp.
      destruct (String.eqb eventType "goalSelection" || String.eqb eventType "failedRequest");
        [left; reflexivity |].
      destruct write_fails;
        [destruct (String.eqb eventType "successfulRequest"); [destruct data |];
         left; reflexivity |].
      destruct (String.eqb eventType "successfulRequest"); [destruct data |];
        try (left; reflexivity); right; left; repeat split; assumption.
    + destruct (apply_event _ _ _ _) as [d' |] eqn:He; [| left; reflexivity].
      destruct write_fails; [left; reflexivity |].
      right. right. exists d'. repeat split.
Qed.

(** X19: [updateDailyAnalytics] keeps the records of the file sound.
    If in every record the total is the sum of the successful and the
    failed requests, no IP is listed twice and there is one error entry
    per failed request, then the same holds after any call, whatever the
    event, its data and the outcome of the write. *)
Theorem analytics_file_stays_consistent (clock : Z) (cutoffDate : string)
    (write_fails : bool) (date eventType : string) (data : EventData)
    (file : option (gmap string DayData)) :
  map_Forall (fun _ d => day_consistent d) (default ∅ file) ->
  map_Forall (fun _ d => day_consistent d)
    (default ∅ (updateDailyAnalytics clock cutoffDate write_fails date eventType data file)).
Proof.
  intros Hok.
  destruct (updateDailyAnalytics_cases clock cutoffDate write_fails date eventType data file)
    as [-> | [(_ & _ & _ & ->) | (d' & _ & He & ->)]]; [exact Hok | |];
    intros k d Hk;
    match type of Hk with
    | context [default ∅ (Some ?x)] => change (default ∅ (Some x)) with x in Hk
    end;
    rewrite prune_lookup in Hk;
    destruct (string_ltb k cutoffDate); try discriminate.
  - exact (Hok k d Hk).
  - destruct (decide (date = k)) as [-> | Hne].
    + rewrite lookup_insert_eq in Hk. inversion Hk; subst d.
      refine (apply_event_consistent _ _ _ _ _ _ He).
      unfold day_of, getEmptyDayData.
      destruct (default ∅ file !! k) as [d0 |] eqn:Hd0.
      * destruct (Hok k d0 Hd0) as (Ht & _ & Hl).
        repeat split; cbn; [exact Ht | apply Set_from_NoDup | exact Hl].
      * repeat split. exact (Set_from_NoDup []).
    + rewrite lookup_insert_ne in Hk by exact Hne. exact (Hok k d Hk).
Qed.

(** X20: a call of [updateDailyAnalytics] never changes or creates the
    record of another date: it can only drop it, and only when that
    date is before the cutoff.  Whenever the call changes the file, no
    date before the cutoff is left in it. *)
Theorem analytics_update_touches_one_date (clock : Z) (cutoffDate : string)
    (write_fails : bool) (date eventType : string) (data : EventData)
    (file : option (gmap string DayData)) :
  let file' := updateDailyAnalytics clock cutoffDate write_fails date eventType data file in
  (forall k, k <> date ->
     default ∅ file' !! k = default ∅ file !! k
     \/ (default ∅ file' !! k = None /\ string_ltb k cutoffDate = true))
  /\ (file' <> file ->
      forall k, string_ltb k cutoffDate = true -> default ∅ file' !! k = None).
Proof.
  cbn zeta.
  destruct (updateDailyAnalytics_cases clock cutoffDate write_fails date eventType data file)
    as [-> | [(_ & _ & _ & ->) | (d' & _ & He & ->)]].
  - split; [intros k _; left; reflexivity | intros H; contradiction].
  - change (default ∅ (Some (prune cutoffDate (default ∅ file))))
      with (prune cutoffDate (default ∅ file)).
    split.
    + intros k _. rewrite prune_lookup.
      destruct (string_ltb k cutoffDate); [right; split; reflexivity | left; reflexivity].
    + intros _ k Hk. rewrite prune_lookup, Hk. reflexivity.
  - change (default ∅ (Some (prune cutoffDate (<[date:=d']> (default ∅ file)))))
      with (prune cutoffDate (<[date:=d']> (default ∅ file))).
    split.
    + intros k Hne. rewrite prune_lookup, lookup_insert_ne by congruence.
      destruct (string_ltb k cutoffDate); [right; split; reflexivity | left; reflexivity].
    + intros _ k Hk. rewrite prune_lookup, Hk. reflexivity.
Qed.

Lemma updateDailyAnalytics_written (clock : Z) (cutoffDate : string)
    (date eventType : string) (data : EventData) (file : option (gmap string DayData))
    (d' : DayData) :
  date ∉ Object_prototype ->
  string_ltb date cutoffDate = false ->
  apply_event clock eventType data
    (mkDayData (dd_date (day_of file date)) (dd_totalRequests (day_of file date))
       (dd_successfulRequests (day_of file date)) (dd_failedRequests (day_of file date))
       (dd_goalSelections (day_of file date)) (dd_errors (day_of file date))
       (dd_averageResponseTime (day_of file date))
       (Set_from (dd_uniqueIPs (day_of file date)))
       (dd_firstRequest (day_of file date)) (dd_lastRequest (day_of file date)))
  = Some d' ->
  forall counters,
    getDailyAnalytics date counters None
      (updateDailyAnalytics clock cutoffDate false date eventType data file) =
    Some (mkDailyAnalytics date (Own d') (Some counters)).
Proof.
  intros Hp Hc He counters.
  unfold updateDailyAnalytics, js_get, day_of, getEmptyDayData in *. cbn zeta.
  rewrite (bool_decide_eq_false_2 _ Hp).
  destruct (default ∅ file !! date) as [d |]; rewrite He;
    unfold getDailyAnalytics, js_get;
    rewrite prune_lookup, Hc, lookup_insert_eq; reflexivity.
Qed.

(** X21: a request event is read back.  For a date that is not before
    the cutoff and names no inherited member, after a "successfulRequest"
    or a "failedRequest" event with some data has been written,
    [getDailyAnalytics()] on that day returns the record of the date
    with one more request in the total and in the counter of the event,
    the other counter and the goal counters as they were, the IP of the
    data (or "unknown") listed once, one more error entry for a failed
    request, [lastRequest] at the time of the call and [firstRequest]
    kept if there was one. *)
Theorem request_event_is_read_back (clock : Z) (cutoffDate : string)
    (date : string) (failed : bool) (data : EventData)
    (file : option (gmap string DayData)) (counters : DailyCounters) :
  date ∉ Object_prototype ->
  string_ltb date cutoffDate = false ->
  data <> DataUndefined ->
  let eventType := if failed then "failedRequest" else "successfulRequest" in
  let old := day_of file date in
  exists d',
    getDailyAnalytics date counters None
      (updateDailyAnalytics clock cutoffDate false date eventType data file) =
    Some (mkDailyAnalytics date (Own d') (Some counters))
    /\ dd_totalRequests d' = S (dd_totalRequests old)
    /\ dd_successfulRequests d' =
       (if failed then dd_successfulRequests old else S (dd_successfulRequests old))
    /\ dd_failedRequests d' =
       (if failed then S (dd_failedRequests old) else dd_failedRequests old)
    /\ dd_errors d' =
       (if failed
        then dd_errors old ++ [mkErrorEntry (data_error data) clock (data_requestId data)]
        else dd_errors old)
    /\ dd_goalSelections d' = dd_goalSelections old
    /\ ip_or_unknown data ∈ dd_uniqueIPs d'
    /\ NoDup (dd_uniqueIPs d')
    /\ dd_lastRequest d' = Some clock
    /\ dd_firstRequest d' = Some (default clock (dd_firstRequest old)).
Proof.
  intros Hp Hc Hdata. cbn zeta.
  destruct failed, data; try contradiction;
    (eexists; split;
     [ apply (updateDailyAnalytics_written clock cutoffDate date _ _ file _ Hp Hc);
       reflexivity
     | cbn [dd_goalSelections dd_totalRequests dd_successfulRequests dd_failedRequests
            dd_errors dd_firstRequest dd_lastRequest dd_uniqueIPs];
       repeat split;
       try apply Set_add_In; try (apply Set_add_NoDup; apply Set_from_NoDup);
       destruct (dd_firstRequest (day_of file date)); reflexivity ]).
Qed.

(** X22: a goal selection is no request.  For a date that is not before
    the cutoff and names no inherited member, after a "goalSelection"
    event has been written, the record of the date has the counter of
    that goal one higher (for a goal that names no inherited member),
    the counters of the other goals as they were, and the same request
    totals, errors and request times as before. *)
Theorem goal_selection_is_read_back (clock : Z) (cutoffDate : string)
    (date : string) (data : EventData)
    (file : option (gmap string DayData)) (counters : DailyCounters) :
  date ∉ Object_prototype ->
  string_ltb date cutoffDate = false ->
  let old := day_of file date in
  exists d',
    getDailyAnalytics date counters None
      (updateDailyAnalytics clock cutoffDate false date "goalSelection" data file) =
    Some (mkDailyAnalytics date (Own d') (Some counters))
    /\ (property_key data ∉ Object_prototype ->
        count_of (dd_goalSelections d') (property_key data) =
        S (count_of (dd_goalSelections old) (property_key data)))
    /\ (forall g, g <> property_key data ->
          property_key data ∉ Object_prototype ->
          dd_goalSelections d' !! g = dd_goalSelections old !! g)
    /\ dd_totalRequests d' = dd_totalRequests old
    /\ dd_successfulRequests d' = dd_successfulRequests old
    /\ dd_failedRequests d' = dd_failedRequests old
    /\ dd_errors d' = dd_errors old
    /\ dd_firstRequest d' = dd_firstRequest old
    /\ dd_lastRequest d' = dd_lastRequest old.
Proof.
  intros Hp Hc. cbn zeta.
  eexists. split.
  - apply (updateDailyAnalytics_written clock cutoffDate date _ data file _ Hp Hc).
    reflexivity.
  - cbn [dd_goalSelections dd_totalRequests dd_successfulRequests dd_failedRequests
         dd_errors dd_firstRequest dd_lastRequest].
    split; [intros Hk; apply bump_count; exact Hk |].
    split; [intros g Hg Hk; apply bump_count; assumption |].
    repeat split.
Qed.

(** ** The further properties on concrete values *)

Example rate_limiter_second_request :
  let first := validateRateLimit 10 60000 (Some "10.0.0.7") 1000 ∅ in
  fst first = LimiterNext
  /\ fst (validateRateLimit 10 60000 (Some "10.0.0.7") 2000 (snd first)) =
     LimiterThrows "maxRequets is not defined"
  /\ fst (validateRateLimit 10 60000 (Some "10.0.0.7") 70000 (snd first)) = LimiterNext.
Proof. repeat split; vm_compute; reflexivity. Qed.

Example analytics_prunes_old_days :
  let file' := updateDailyAnalytics 1767700000 "2025-10-07" false "2026-01-05"
                 "successfulRequest" (DataString "energy") sample_file in
  default ∅ file' !! "2025-09-01" = None
  /\ (dd_totalRequests <$> default ∅ file' !! "2026-01-05") = Some 4
  /\ (dd_uniqueIPs <$> default ∅ file' !! "2026-01-05") = Some ["unknown"].
Proof. repeat split; vm_compute; reflexivity. Qed.

Lemma token_lifetime_witness :
  route_get_verify sample_platform sample_env
    (mkRequest (Some "Bearer good.jwt.token") tt None) empty_world =
  (inr (mkResponse 200
          (VerifyBodyOk true (mkPublicUser 1 "a@x.com" "Ada" "Lovelace"))), empty_world)
  /\ answer (route_get_verify sample_platform
               (mkEnv "3f2b8c1e" 605800 (fun _ => false) (fun _ => None))
               (mkRequest (Some "Bearer good.jwt.token") tt None) empty_world) =
     Some (mkResponse 401 (ErrorBody "Token has expired" "TOKEN_EXPIRED" None None)).
Proof.
  assert ("good.jwt.token" <> EmptyString) as Hne by discriminate.
  assert (jwt_decode sample_platform "good.jwt.token" =
          inr (mkJws sample_claims (JWT_SECRET sample_platform))) as Hdec
    by (vm_compute; reflexivity).
  split.
  - apply (token_lifetime sample_platform "3f2b8c1e" 2000 (fun _ => false) (fun _ => None)
             "good.jwt.token" sample_claims 605800 empty_world Hne Hdec eq_refl eq_refl).
    lia.
  - apply (token_lifetime sample_platform "3f2b8c1e" 605800 (fun _ => false)
             (fun _ => None) "good.jwt.token" sample_claims 605800 empty_world
             Hne Hdec eq_refl eq_refl).
    lia.
Defined.

Lemma token_invalid_is_the_default_code_witness :
  verifyToken sample_platform sample_env
    (mkRequest (Some "Bearer garbled.jwt.token") tt None) empty_world =
  (inr (Respond (mkResponse 401 (ErrorBody "Invalid token" "TOKEN_INVALID" None None))),
   logged Warn "Invalid token attempt:" empty_world)
  /\ verifyToken sample_platform sample_env
       (mkRequest (Some "Bearer forged.jwt.token") tt None) empty_world =
     (inr (Respond (mkResponse 401
                      (ErrorBody "Malformed token" "TOKEN_MALFORMED" None None))),
      logged Warn "Invalid token attempt:" empty_world).
Proof.
  split.
  - destruct (token_invalid_is_the_default_code sample_platform sample_env
                (mkRequest (Some "Bearer garbled.jwt.token") tt None) empty_world)
      as (_ & _ & _ & Hgarbled & _).
    apply (Hgarbled "Unexpected token in JSON at position 0").
    + reflexivity.
    + discriminate.
    + reflexivity.
  - destruct (token_invalid_is_the_default_code sample_platform sample_env
                (mkRequest (Some "Bearer forged.jwt.token") tt None) empty_world)
      as (_ & _ & _ & _ & Hforged).
    apply (Hforged (mkJws sample_claims "other-key")).
    + reflexivity.
    + discriminate.
    + reflexivity.
    + discriminate.
Defined.

Lemma store_ok_registered : store_ok (db registered_world).
Proof.
  unfold store_ok. vm_compute.
  repeat split; repeat constructor; try (intros H; inversion H); try discriminate.
Qed.

Lemma register_keeps_store_ok_witness :
  store_ok (db (snd (post_register sample_platform sample_env
                       (register_request "b@x.com" "Abcdef12") registered_world))).
Proof.
  apply (register_keeps_store_ok sample_platform sample_env
           (register_request "b@x.com" "Abcdef12") registered_world).
  exact store_ok_registered.
Defined.

Lemma register_then_login_witness :
  answer (post_login sample_platform sample_env
            (login_request "a@x.com" "Abcdef12") registered_world) =
  Some (mkResponse 200
          (AuthBodyOk "Login successful"
             (mkPublicUser 1 "a@x.com" EmptyString EmptyString) "good.jwt.token"))
  /\ answer (post_login sample_platform sample_env
               (login_request "a@x.com" "Wrong-pass1") registered_world) =
     Some (mkResponse 401
             (ErrorBody "Invalid email or password" "INVALID_CREDENTIALS" None None)).
Proof.
  destruct (register_then_login sample_platform sample_env sample_env
              (register_request "a@x.com" "Abcdef12") empty_world registered_world
              (mkResponse 201
                 (AuthBodyOk "User registered successfully"
                    (mkPublicUser 1 "a@x.com" EmptyString EmptyString) "good.jwt.token"))
              (mkRegisterValue "a@x.com" "Abcdef12" None None))
    as (Hok & Hbad).
  - vm_compute. reflexivity.
  - vm_compute. reflexivity.
  - reflexivity.
  - reflexivity.
  - split.
    + apply Hok. vm_compute. reflexivity.
    + apply Hbad; [discriminate | vm_compute; reflexivity].
Defined.

Lemma authenticated_request_saves_one_row_witness :
  exists l meta w',
    route_post_suggestions sample_platform sample_env
      (suggestions_request (Some "Bearer good.jwt.token") 25 "energy") registered_world =
    (inr (mkResponse 200 (SuggestionsBodyOk (uuid sample_env) (Own l) meta)), w')
    /\ db w' =
       with_suggestion (db registered_world)
         (mkSuggestionRow 1 1 25 "energy" (StoredArray l) 2000).
Proof.
  apply (authenticated_request_saves_one_row sample_platform sample_env
           (suggestions_request (Some "Bearer good.jwt.token") 25 "energy")
           registered_world (mkSuggestionsValue 25 "energy") sample_claims).
  - vm_compute. reflexivity.
  - vm_compute. reflexivity.
Defined.

Lemma getUserSuggestions_most_recent_witness :
  exists returned omitted,
    getUserSuggestions sample_env 1 5 suggested_world =
    (inr (map entry_of returned), suggested_world)
    /\ Permutation (returned ++ omitted) (rows_of 1 (db suggested_world))
    /\ length returned = Nat.min 5 (length (rows_of 1 (db suggested_world)))
    /\ Forall (fun r => In r (user_suggestions (db suggested_world)) /\ s_userId r = 1%Z)
         returned
    /\ StronglySorted not_older returned
    /\ (forall a b, In a returned -> In b omitted -> not_older a b).
Proof.
  apply (getUserSuggestions_most_recent sample_env 1 5 suggested_world). reflexivity.
Defined.

Lemma history_route_lists_own_rows_witness :
  exists returned,
    route_get_auth_suggestions sample_platform sample_env (Some 3%Z)
      (mkRequest (Some "Bearer good.jwt.token") tt None) suggested_world =
    (inr (HistoryOk (map entry_of returned) (length returned)), suggested_world)
    /\ Forall (fun r => In r (user_suggestions (db suggested_world))
                        /\ s_userId r = c_id sample_claims) returned.
Proof.
  destruct (history_route_lists_own_rows sample_platform sample_env (Some 3%Z)
              (mkRequest (Some "Bearer good.jwt.token") tt None) suggested_world
              sample_claims) as (returned & Hrun & Hown & _).
  - vm_compute. reflexivity.
  - reflexivity.
  - exists returned. split; assumption.
Defined.

Lemma first_suggestion_is_listed_witness :
  exists l meta w1,
    route_post_suggestions sample_platform sample_env
      (suggestions_request (Some "Bearer good.jwt.token") 25 "energy") registered_world =
    (inr (mkResponse 200 (SuggestionsBodyOk (uuid sample_env) (Own l) meta)), w1)
    /\ route_get_auth_suggestions sample_platform sample_env None
         (mkRequest (Some "Bearer good.jwt.token") tt None) w1 =
       (inr (HistoryOk [mkHistoryEntry 1 25 "energy" (StoredArray l) 2000] 1), w1).
Proof.
  apply (first_suggestion_is_listed sample_platform sample_env sample_env
           (suggestions_request (Some "Bearer good.jwt.token") 25 "energy")
           (mkRequest (Some "Bearer good.jwt.token") tt None) None registered_world
           (mkSuggestionsValue 25 "energy") sample_claims).
  - vm_compute. reflexivity.
  - vm_compute. reflexivity.
  - reflexivity.
  - vm_compute. reflexivity.
  - vm_compute. reflexivity.
  - reflexivity.
Defined.

Lemma suggestions_keep_store_ok_witness :
  store_ok (db suggested_world)
  /\ users (db suggested_world) = users (db registered_world)
  /\ users_seq (db suggested_world) = users_seq (db registered_world).
Proof.
  apply (suggestions_keep_store_ok sample_platform sample_env
           (suggestions_request (Some "Bearer good.jwt.token") 25 "energy")
           registered_world).
  exact store_ok_registered.
Defined.

Lemma sample_file_consistent :
  map_Forall (fun _ d => day_consistent d) (default ∅ sample_file).
Proof.
  intros k d Hk. unfold sample_file in Hk.
  match type of Hk with
  | context [default ∅ (Some ?x)] => change (default ∅ (Some x)) with x in Hk
  end.
  apply lookup_insert_Some in Hk as [[_ <-] | [_ Hk]].
  - repeat split. cbn. apply NoDup_singleton.
  - apply lookup_insert_Some in Hk as [[_ <-] | [_ Hk]].
    + repeat split. cbn. constructor.
    + rewrite lookup_empty in Hk. discriminate.
Qed.

Lemma analytics_file_stays_consistent_witness :
  map_Forall (fun _ d => day_consistent d)
    (default ∅ (updateDailyAnalytics 1767700000 "2025-10-07" false "2026-01-05"
                  "failedRequest" (DataObject (Some "10.0.0.7") (Some "boom") None)
                  sample_file)).
Proof.
  apply (analytics_file_stays_consistent 1767700000 "2025-10-07" false "2026-01-05"
           "failedRequest" (DataObject (Some "10.0.0.7") (Some "boom") None) sample_file).
  exact sample_file_consistent.
Defined.

Lemma sample_date_not_inherited : "2026-01-05" ∉ Object_prototype.
Proof.
  unfold Object_prototype. rewrite !not_elem_of_cons.
  repeat split; try discriminate. apply not_elem_of_nil.
Qed.

Lemma request_event_is_read_back_witness :
  exists d',
    getDailyAnalytics "2026-01-05" (mkDailyCounters 0 ∅ 0 0) None
      (updateDailyAnalytics 1767700000 "2025-10-07" false "2026-01-05"
         "successfulRequest" (DataString "energy") sample_file) =
    Some (mkDailyAnalytics "2026-01-05" (Own d') (Some (mkDailyCounters 0 ∅ 0 0)))
    /\ dd_totalRequests d' = 4
    /\ dd_successfulRequests d' = 3
    /\ dd_failedRequests d' = 1.
Proof.
  destruct (request_event_is_read_back 1767700000 "2025-10-07" "2026-01-05" false
              (DataString "energy") sample_file (mkDailyCounters 0 ∅ 0 0)
              sample_date_not_inherited eq_refl ltac:(discriminate))
    as (d' & Hread & Htot & Hsucc & Hfail & _).
  exists d'. split; [exact Hread |].
  split; [rewrite Htot; vm_compute; reflexivity |].
  split; [rewrite Hsucc; vm_compute; reflexivity | rewrite Hfail; vm_compute; reflexivity].
Defined.

Lemma goal_selection_is_read_back_witness :
  exists d',
    getDailyAnalytics "2026-01-05" (mkDailyCounters 0 ∅ 0 0) None
      (updateDailyAnalytics 1767700000 "2025-10-07" false "2026-01-05"
         "goalSelection" (DataString "sleep") sample_file) =
    Some (mkDailyAnalytics "2026-01-05" (Own d') (Some (mkDailyCounters 0 ∅ 0 0)))
    /\ dd_totalRequests d' = 3.
Proof.
  destruct (goal_selection_is_read_back 1767700000 "2025-10-07" "2026-01-05"
              (DataString "sleep") sample_file (mkDailyCounters 0 ∅ 0 0)
              sample_date_not_inherited eq_refl)
    as (d' & Hread & _ & _ & Htot & _).
  exists d'. split; [exact Hread | rewrite Htot; vm_compute; reflexivity].
Defined.
